(** * VKinder: search-parameter derivation, candidate filtering, photo
    ranking and the interaction store

    A shallow embedding of [vk_service.py] (class [VKService]) and
    [database.py] (class [Database]), with the properties stated in the
    specification proved or refuted on it.

    Python values are modelled as follows.
    - [int] is [Z] (unbounded).
    - [str] is a list of Unicode code points, [list N].
    - [None] / a missing dictionary key is [None] of an [option].
    - the parameter dictionary handed to [users.search] is a
      [gmap string pyval].
    - [config.py] is not part of the sources: [SEARCH_CONFIG] and [CITIES]
      are taken as parameters of the functions that read them.
    - builtins whose full definition is a Unicode table ([str.lower],
      [int]) are parameters too; [Py.lower_basic] and [Py.int_decimal] are
      the instances used to run the functions on concrete inputs. *)

From Stdlib Require Import ZArith NArith Ascii String Lia.
From stdpp Require Import gmap strings list sorting.

(** ** Python builtins used by the program *)

Module Py.

(** A Python [str]: the sequence of its code points. *)
Abbreviation pystr := (list N).

(** An ASCII literal as a [pystr]. *)
Definition lit (s : string) : pystr :=
  (fun a => N_of_ascii a) <$> list_ascii_of_string s.

(** Truthiness of an optional string: [None] and [''] are falsy. *)
Definition truthy_str (s : option pystr) : bool :=
  match s with
  | None | Some [] => false
  | Some (_ :: _) => true
  end.

(** Truthiness of an optional integer: [None] and [0] are falsy. *)
Definition truthy_int (n : option Z) : bool :=
  match n with
  | None => false
  | Some z => negb (z =? 0)%Z
  end.

(** [s.split(sep)] for a one-character separator. *)
Fixpoint split (sep : N) (s : pystr) : list pystr :=
  match s with
  | [] => [[]]
  | c :: s' =>
      if (c =? sep)%N then [] :: split sep s'
      else match split sep s' with
           | [] => [[c]]
           | w :: ws => (c :: w) :: ws
           end
  end.

(** [str.isspace] on one code point. *)
Definition is_space (c : N) : bool :=
  ((9 <=? c) && (c <=? 13) || (28 <=? c) && (c <=? 32)
   || (c =? 133) || (c =? 160) || (c =? 5760)
   || (8192 <=? c) && (c <=? 8202)
   || (c =? 8232) || (c =? 8233) || (c =? 8239) || (c =? 8287)
   || (c =? 12288))%N.

Fixpoint lstrip (s : pystr) : pystr :=
  match s with
  | [] => []
  | c :: s' => if is_space c then lstrip s' else s
  end.

Definition rstrip (s : pystr) : pystr := reverse (lstrip (reverse s)).

(** [s.strip()] *)
Definition strip (s : pystr) : pystr := rstrip (lstrip s).

(** [s.replace(a, b)] for one-character [a] and [b]. *)
Definition replace (a b : N) (s : pystr) : pystr :=
  (fun c => if (c =? a)%N then b else c) <$> s.

Fixpoint starts_with (p s : pystr) : bool :=
  match p, s with
  | [], _ => true
  | _ :: _, [] => false
  | a :: p', b :: s' => (a =? b)%N && starts_with p' s'
  end.

(** [p in s] on strings: [p] occurs in [s] as a substring. *)
Fixpoint contains (p s : pystr) : bool :=
  starts_with p s ||
  match s with
  | [] => false
  | _ :: s' => contains p s'
  end.

(** [l[:n]]: a negative [n] counts from the end. *)
Definition slice_to {A} (l : list A) (n : Z) : list A :=
  if (0 <=? n)%Z then take (Z.to_nat n) l
  else take (length l - Z.to_nat (- n)) l.

(** [l.sort(key=key, reverse=True)]: the stable sort by decreasing key.
    [insert_desc x l] puts [x] in front of the first element whose key
    does not exceed the key of [x]; sorting inserts from the right, so
    that of two elements with equal keys the one that came first stays
    first. *)
Section Sort.
Context {A : Type} (key : A -> Z).

Fixpoint insert_desc (x : A) (l : list A) : list A :=
  match l with
  | [] => [x]
  | y :: l' =>
      if (key x <? key y)%Z then y :: insert_desc x l' else x :: l
  end.

Fixpoint sort_desc (l : list A) : list A :=
  match l with
  | [] => []
  | x :: l' => insert_desc x (sort_desc l')
  end.

(** The order of the result: the key of [y] does not exceed that of [x]. *)
Definition not_below (x y : A) : Prop := (key y <= key x)%Z.
End Sort.

(** [str.lower] on the Basic Latin and Cyrillic blocks; other code points
    are left as they are. *)
Definition lower_char (c : N) : N :=
  (if (65 <=? c) && (c <=? 90) then c + 32
   else if (1040 <=? c) && (c <=? 1071) then c + 32
   else if (1024 <=? c) && (c <=? 1039) then c + 80
   else c)%N.

Definition lower_basic (s : pystr) : pystr := lower_char <$> s.

(** [int(s)] on optionally signed runs of ASCII digits, surrounded by
    optional whitespace; [None] stands for [ValueError]. *)
Fixpoint digits (acc : Z) (s : pystr) : option Z :=
  match s with
  | [] => Some acc
  | c :: s' =>
      if ((48 <=? c) && (c <=? 57))%N
      then digits (10 * acc + Z.of_N (c - 48)) s'
      else None
  end.

Definition unsigned (ds : pystr) : option Z :=
  match ds with
  | [] => None
  | _ :: _ => digits 0 ds
  end.

Definition int_decimal (s : pystr) : option Z :=
  match strip s with
  | 45%N :: ds => Z.opp <$> unsigned ds
  | 43%N :: ds => unsigned ds
  | ds => unsigned ds
  end.

End Py.

(** ** vk_service.py: class [VKService] *)

Module VKService.
Import Py.

Local Open Scope Z_scope.

(** A value of the search-parameter dictionary. *)
Inductive pyval :=
  | PInt (z : Z)
  | PStr (s : pystr).

(** The requester profile [user_info], as far as [VKService] reads it.
    A field is [None] when the key is missing from the dictionary (for
    ['age'] also when its value is [None]). *)
Record UserInfo := {
  ui_id : Z;
  ui_sex : option Z;
  ui_age : option Z;
  ui_city : option pystr
}.

(** One entry of [response['items']] of [users.search].  ['city'] holds
    the title of the city object when there is one. *)
Record RawUser := {
  ru_id : Z;
  ru_first_name : option pystr;
  ru_last_name : option pystr;
  ru_bdate : option pystr;
  ru_city : option pystr;
  ru_sex : option Z;
  ru_deactivated : option pystr;
  ru_photo_100 : option pystr
}.

(** The dictionary [candidate] built by [search_people]. *)
Record Candidate := {
  c_id : Z;
  c_first_name : pystr;
  c_last_name : pystr;
  c_age : option Z;
  c_city : pystr;
  c_sex : Z
}.

(** One entry of [response['items']] of [photos.get]; [likes] and
    [comments] are the ['count'] of the respective object, [None] when
    the object or its count is missing. *)
Record Photo := {
  photo_id : Z;
  owner_id : Z;
  likes : option Z;
  comments : option Z
}.

(** What [users.search] answers: it raises [ApiError], answers something
    falsy or without ['items'], or answers a list of items. *)
Inductive SearchResponse :=
  | SearchApiError
  | SearchNoItems
  | SearchItems (items : list RawUser).

(** What [photos.get] answers. *)
Inductive PhotosResponse :=
  | PhotosApiError (code : Z)
  | PhotosNoItems
  | PhotosItems (items : list Photo).

Definition dot : N := 46.
Definition yo : N := 1105.
Definition ye : N := 1077.

(** [x.get('likes', {}).get('count', 0) + x.get('comments', {}).get('count', 0)] *)
Definition score (x : Photo) : Z :=
  default 0 (likes x) + default 0 (comments x).

(** The first element of a list of pairs with the given key: the value
    a dictionary written in this order holds for it. *)
Fixpoint assoc (k : pystr) (d : list (pystr * Z)) : option Z :=
  match d with
  | [] => None
  | (k', v) :: d' => if decide (k = k') then Some v else assoc k d'
  end.

Section Service.
(** [config.SEARCH_CONFIG] and [config.CITIES] (in the order in which
    the dictionary lists its items), [time.localtime().tm_year], the
    builtins [str.lower] and [int], the two calls of the VK API and the
    permutation [random.shuffle] picks. *)
Context (SEARCH_CONFIG : gmap string Z)
        (CITIES : list (pystr * Z))
        (current_year : Z)
        (lower : pystr -> pystr)
        (int : pystr -> option Z)
        (users_search : gmap string pyval -> SearchResponse)
        (photos_get : Z -> PhotosResponse)
        (shuffle : list Candidate -> list Candidate).

(** [SEARCH_CONFIG.get(key, dflt)] *)
Definition config_get (key : string) (dflt : Z) : Z :=
  default dflt (SEARCH_CONFIG !! key).

(** Lines 425-448 (the definition at lines 228-251 is the same text). *)
Definition _calculate_age (bdate : option pystr) : option Z :=
  if negb (truthy_str bdate) then None
  else
    let date_parts := split dot (default [] bdate) in
    if (length date_parts <? 3)%nat then None
    else
      match date_parts !! 2%nat with
      | None => None
      | Some part =>
          match int part with
          | None => None
          | Some birth_year =>
              let age := current_year - birth_year in
              if (10 <=? age) && (age <=? 100) then Some age else None
          end
      end.

(** The sex and age entries, which both definitions of
    [_build_search_params] add with the same statements. *)
Definition add_sex (user_info : UserInfo) (params : gmap string pyval)
  : gmap string pyval :=
  let user_sex := default 0 (ui_sex user_info) in
  if user_sex =? 1 then <["sex" := PInt 2]> params
  else if user_sex =? 2 then <["sex" := PInt 1]> params
  else params.

Definition add_age (user_info : UserInfo) (params : gmap string pyval)
  : gmap string pyval :=
  let user_age := ui_age user_info in
  if truthy_int user_age then
    let age_range := config_get "age_range" 5 in
    let a := default 0 user_age in
    <["age_to" := PInt (Z.min 80 (a + age_range))]>
      (<["age_from" := PInt (Z.max 18 (a - age_range))]> params)
  else
    <["age_to" := PInt 35]> (<["age_from" := PInt 18]> params).

Definition base_params : gmap string pyval :=
  <["sort" := PInt 0]>
    (<["has_photo" := PInt 1]>
       (<["fields" := PStr (lit "bdate,city,photo_100,sex")]>
          (<["count" := PInt (config_get "count" 100)]> ∅))).

(** The loop over [CITIES.items()] of the first definition: the id of
    the first city whose name is the normalized or the plain form. *)
Fixpoint find_city (items : list (pystr * Z)) (city_normalized city : pystr)
  : option Z :=
  match items with
  | [] => None
  | (city_name, cid) :: rest =>
      if decide (city_normalized = city_name \/ city = city_name)
      then Some cid
      else find_city rest city_normalized city
  end.

(** Lines 173-226: the first definition of [_build_search_params] in
    the class body.  The second definition below rebinds the name, so
    no call reaches this one. *)
Definition _build_search_params_first (user_info : UserInfo)
  : gmap string pyval :=
  let params := <["country" := PInt 1]> base_params in
  let params := add_sex user_info params in
  let params := add_age user_info params in
  let city := strip (lower (default [] (ui_city user_info))) in
  let city_normalized := replace yo ye city in
  let city_id := find_city CITIES city_normalized city in
  if truthy_int city_id then <["city" := PInt (default 0 city_id)]> params
  else params.

(** Lines 391-423: the second definition, the one the class binds and
    [search_people] calls. *)
Definition _build_search_params (user_info : UserInfo)
  : gmap string pyval :=
  let params := base_params in
  let params := add_sex user_info params in
  let params := add_age user_info params in
  let city := lower (default [] (ui_city user_info)) in
  match city, assoc city CITIES with
  | _ :: _, Some cid => <["city" := PInt cid]> params
  | _, _ => params
  end.

(** The body of the loop of [search_people] (lines 310-328): is the
    entry skipped by one of the two [continue] statements? *)
Definition skipped (user : RawUser) : bool :=
  truthy_str (ru_deactivated user)
  || (negb (truthy_str (ru_photo_100 user))
      || contains (lit "camera") (default [] (ru_photo_100 user))).

Definition candidate_of (user : RawUser) : Candidate :=
  {| c_id := ru_id user;
     c_first_name := default [] (ru_first_name user);
     c_last_name := default [] (ru_last_name user);
     c_age := _calculate_age (ru_bdate user);
     c_city := default [] (ru_city user);
     c_sex := default 0 (ru_sex user) |}.

(** The loop itself, with the list [candidates] it appends to. *)
Fixpoint collect (items : list RawUser) (candidates : list Candidate)
  : list Candidate :=
  match items with
  | [] => candidates
  | user :: rest =>
      if skipped user then collect rest candidates
      else collect rest (candidates ++ [candidate_of user])
  end.

(** Lines 291-341. *)
Definition search_people (user_info : UserInfo) : list Candidate :=
  let search_params := _build_search_params user_info in
  match users_search search_params with
  | SearchApiError => []
  | SearchNoItems => []
  | SearchItems items =>
      let candidates := collect items [] in
      let candidates := shuffle candidates in
      slice_to candidates 50
  end.

(** Lines 360-379: what [get_popular_photos] does with the photos once
    it has them. *)
Definition rank_photos (photos : list Photo) : list Photo :=
  let photos := sort_desc score photos in
  let min_likes := config_get "min_photo_likes" 1 in
  let popular_photos :=
    filter (fun photo => min_likes <= default 0 (likes photo)) photos in
  let popular_photos :=
    if (length popular_photos <? 3)%nat && negb (bool_decide (photos = []))
    then photos else popular_photos in
  slice_to popular_photos (config_get "max_photos" 3).

(** Lines 343-389. *)
Definition get_popular_photos (user_id : Z) : list Photo :=
  match photos_get user_id with
  | PhotosApiError _ => []
  | PhotosNoItems => []
  | PhotosItems photos => rank_photos photos
  end.

End Service.

(** The dictionary [get_user_info] returns. *)
Record Profile := {
  p_id : Z;
  p_first_name : pystr;
  p_last_name : pystr;
  p_age : option Z;
  p_city : pystr;
  p_country : pystr;
  p_sex : Z
}.

(** One entry of the answer of [users.get]; ['city'] and ['country']
    hold the title of the respective object when there is one. *)
Record RawProfile := {
  rp_id : Z;
  rp_first_name : option pystr;
  rp_last_name : option pystr;
  rp_bdate : option pystr;
  rp_city : option pystr;
  rp_country : option pystr;
  rp_sex : option Z
}.

(** What [users.get] answers: it raises [ApiError] or answers a list
    (an empty one when there is no such user). *)
Inductive UsersResponse :=
  | UsersApiError
  | UsersList (users : list RawProfile).

(** The entries of the dictionary of [get_user_info] that
    [search_people] and [_build_search_params] read. *)
Definition as_user_info (p : Profile) : UserInfo :=
  {| ui_id := p_id p;
     ui_sex := Some (p_sex p);
     ui_age := p_age p;
     ui_city := Some (p_city p) |}.

Section Profiles.
Context (current_year : Z)
        (int : pystr -> option Z)
        (users_get : Z -> UsersResponse).

(** Lines 253-289 (the definition at lines 31-67 is the same text). *)
Definition get_user_info (user_id : Z) : option Profile :=
  match users_get user_id with
  | UsersApiError => None
  | UsersList [] => None
  | UsersList (user :: _) =>
      let age := _calculate_age current_year int (rp_bdate user) in
      Some {| p_id := rp_id user;
              p_first_name := default [] (rp_first_name user);
              p_last_name := default [] (rp_last_name user);
              p_age := age;
              p_city := default [] (rp_city user);
              p_country := default [] (rp_country user);
              p_sex := default 0 (rp_sex user) |}
  end.

End Profiles.

End VKService.

(** ** database.py: class [Database]

    The PostgreSQL database behind the connection is a [Store]: one list
    of rows per table, in insertion order.  The connection is in
    autocommit mode, so a statement either changes the store or raises
    and leaves it as it was.  The columns [id SERIAL] are left out: no
    statement of [Database] reads them.  [CURRENT_TIMESTAMP] is the
    argument [now] of the operations that use it.  The connection
    encodes strings in UTF-8.  It is open and working, except for the
    two deletions, [clear_favorites] and [remove_from_favorites]: no
    store makes their statement raise, so their [False] is that of a
    connection that fails, the argument [lost]. *)

Module Database.
Import Py.

Local Open Scope Z_scope.

Record UserRow := {
  u_user_id : Z;
  u_first_name : pystr;
  u_last_name : pystr;
  u_age : option Z;
  u_city : pystr;
  u_country : pystr;
  u_sex : Z;
  u_created_at : Z;
  u_updated_at : Z
}.

Record FavoriteRow := {
  f_user_id : Z;
  f_candidate_id : Z;
  f_first_name : pystr;
  f_last_name : pystr;
  f_created_at : Z
}.

Record BlacklistRow := {
  b_user_id : Z;
  b_candidate_id : Z;
  b_created_at : Z
}.

Record ViewedRow := {
  v_user_id : Z;
  v_candidate_id : Z;
  v_viewed_at : Z
}.

Record Store := {
  users : list UserRow;
  favorites : list FavoriteRow;
  blacklist : list BlacklistRow;
  viewed_profiles : list ViewedRow
}.

(** The database right after [create_tables] on a new database. *)
Definition empty_store : Store :=
  {| users := []; favorites := []; blacklist := []; viewed_profiles := [] |}.

(** The two classes of [psycopg2.Error] a statement of this module can
    raise on a live connection: a constraint is violated, or a value does
    not fit its column. *)
Inductive PgError :=
  | IntegrityError
  | DataError.

(** The outcome of [cursor.execute]. *)
Inductive Exec :=
  | Done (st : Store)
  | Raise (e : PgError).

(** Column types. *)
Definition bigint (z : Z) : bool := (- 2 ^ 63 <=? z) && (z <? 2 ^ 63).
Definition integer (z : Z) : bool := (- 2 ^ 31 <=? z) && (z <? 2 ^ 31).

(** The strings psycopg2 can put into a statement: those without the
    character NUL that encode in UTF-8, which a surrogate (U+D800 to
    U+DFFF) does not.  For any other string [cursor.execute] raises
    [ValueError] ([UnicodeEncodeError] is one) before anything is sent;
    that is no [psycopg2.Error], so no except clause of [Database]
    catches it. *)
Definition sendable (s : pystr) : bool :=
  forallb (fun c => (0 <? c)%N && ((c <? 55296)%N || (57343 <? c)%N)) s.

(** [VARCHAR(n)].  The column holds text, which has no NUL character
    and nothing else that cannot be sent.  A longer value is refused,
    unless what exceeds [n] characters is spaces only, which are cut
    off. *)
Definition varchar (n : nat) (s : pystr) : option pystr :=
  if negb (sendable s) then None
  else if (length s <=? n)%nat then Some s
  else if forallb (N.eqb 32) (drop n s) then Some (take n s)
  else None.

(** The outcome of [cursor.execute] for a statement with string
    arguments: [ValueError] for an argument that cannot be sent, or the
    outcome of the statement. *)
Inductive Sending :=
  | Unsendable
  | Sent (outcome : Exec).

(** How a call of a method with string arguments ends: it returns a
    value, or the [ValueError] leaves it uncaught. *)
Inductive Ending :=
  | Returns (value : bool)
  | RaisesValueError.

Definition user_exists (st : Store) (user_id : Z) : bool :=
  existsb (fun r => u_user_id r =? user_id) (users st).

Definition favorite_exists (st : Store) (user_id candidate_id : Z) : bool :=
  existsb (fun r => (f_user_id r =? user_id) && (f_candidate_id r =? candidate_id))
          (favorites st).

Definition blacklist_exists (st : Store) (user_id candidate_id : Z) : bool :=
  existsb (fun r => (b_user_id r =? user_id) && (b_candidate_id r =? candidate_id))
          (blacklist st).

(** The dictionary [user_info] that [add_user] receives. *)
Record UserDict := {
  d_id : Z;
  d_first_name : pystr;
  d_last_name : pystr;
  d_age : option Z;
  d_city : pystr;
  d_country : pystr;
  d_sex : Z
}.

(** [INSERT INTO users ... ON CONFLICT (user_id) DO UPDATE SET ...] *)
Definition upsert_user (now : Z) (st : Store) (d : UserDict) : Sending :=
  if negb (sendable (d_first_name d) && sendable (d_last_name d)
           && sendable (d_city d) && sendable (d_country d))
  then Unsendable
  else Sent
  match varchar 100 (d_first_name d), varchar 100 (d_last_name d),
        varchar 100 (d_city d), varchar 100 (d_country d) with
  | Some fn, Some ln, Some ci, Some co =>
      if bigint (d_id d) && integer (default 0 (d_age d)) && integer (d_sex d)
      then
        let fresh :=
          {| u_user_id := d_id d; u_first_name := fn; u_last_name := ln;
             u_age := d_age d; u_city := ci; u_country := co;
             u_sex := d_sex d; u_created_at := now; u_updated_at := now |} in
        let update (r : UserRow) :=
          if u_user_id r =? d_id d
          then {| u_user_id := d_id d; u_first_name := fn; u_last_name := ln;
                  u_age := d_age d; u_city := ci; u_country := co;
                  u_sex := d_sex d; u_created_at := u_created_at r;
                  u_updated_at := now |}
          else r in
        Done {| users := if user_exists st (d_id d) then update <$> users st
                         else users st ++ [fresh];
                favorites := favorites st;
                blacklist := blacklist st;
                viewed_profiles := viewed_profiles st |}
      else Raise DataError
  | _, _, _, _ => Raise DataError
  end.

(** Lines 112-135. *)
Definition add_user (now : Z) (st : Store) (user_info : UserDict)
  : Ending * Store :=
  match upsert_user now st user_info with
  | Sent (Done st') => (Returns true, st')
  | Sent (Raise _) => (Returns false, st)
  | Unsendable => (RaisesValueError, st)
  end.

(** [INSERT INTO favorites (user_id, candidate_id, first_name, last_name)
    VALUES (...)] against the table of lines 65-75. *)
Definition insert_favorite (now : Z) (st : Store)
    (user_id candidate_id : Z) (first_name last_name : pystr) : Sending :=
  if negb (sendable first_name && sendable last_name) then Unsendable
  else Sent
  match varchar 100 first_name, varchar 100 last_name with
  | Some fn, Some ln =>
      if negb (bigint user_id && bigint candidate_id) then Raise DataError
      else if favorite_exists st user_id candidate_id then Raise IntegrityError
      else if negb (user_exists st user_id) then Raise IntegrityError
      else
        Done {| users := users st;
                favorites := favorites st ++
                  [{| f_user_id := user_id; f_candidate_id := candidate_id;
                      f_first_name := fn; f_last_name := ln;
                      f_created_at := now |}];
                blacklist := blacklist st;
                viewed_profiles := viewed_profiles st |}
  | _, _ => Raise DataError
  end.

(** Lines 152-169. *)
Definition add_to_favorites (now : Z) (st : Store)
    (user_id candidate_id : Z) (first_name last_name : pystr)
  : Ending * Store :=
  match insert_favorite now st user_id candidate_id first_name last_name with
  | Sent (Done st') => (Returns true, st')
  | Sent (Raise IntegrityError) => (Returns false, st)
  | Sent (Raise _) => (Returns false, st)
  | Unsendable => (RaisesValueError, st)
  end.

(** [INSERT INTO blacklist (user_id, candidate_id) VALUES (...)
    ON CONFLICT (user_id, candidate_id) DO NOTHING] against the table of
    lines 78-86. *)
Definition insert_blacklist (now : Z) (st : Store)
    (user_id candidate_id : Z) : Exec :=
  if negb (bigint user_id && bigint candidate_id) then Raise DataError
  else if blacklist_exists st user_id candidate_id then Done st
  else if negb (user_exists st user_id) then Raise IntegrityError
  else
    Done {| users := users st;
            favorites := favorites st;
            blacklist := blacklist st ++
              [{| b_user_id := user_id; b_candidate_id := candidate_id;
                  b_created_at := now |}];
            viewed_profiles := viewed_profiles st |}.

(** Lines 171-186. *)
Definition add_to_blacklist (now : Z) (st : Store)
    (user_id candidate_id : Z) : bool * Store :=
  match insert_blacklist now st user_id candidate_id with
  | Done st' => (true, st')
  | Raise _ => (false, st)
  end.

(** A row of the result of [get_favorites]. *)
Record FavoriteDict := {
  fd_candidate_id : Z;
  fd_first_name : pystr;
  fd_last_name : pystr;
  fd_created_at : Z
}.

(** Lines 204-219: [SELECT candidate_id, first_name, last_name, created_at
    FROM favorites WHERE user_id = %s ORDER BY created_at DESC].  Rows
    with the same [created_at] are kept in table order. *)
Definition get_favorites (st : Store) (user_id : Z) : list FavoriteDict :=
  (fun r => {| fd_candidate_id := f_candidate_id r;
               fd_first_name := f_first_name r;
               fd_last_name := f_last_name r;
               fd_created_at := f_created_at r |})
    <$> sort_desc f_created_at
          (filter (fun r => f_user_id r = user_id) (favorites st)).

(** Lines 221-233: [SELECT candidate_id FROM blacklist WHERE user_id = %s]. *)
Definition get_blacklist (st : Store) (user_id : Z) : list Z :=
  b_candidate_id <$> filter (fun r => b_user_id r = user_id) (blacklist st).

(** The [UNIQUE] and [PRIMARY KEY] constraints of [create_tables]. *)
Definition unique_keys (st : Store) : Prop :=
  NoDup (u_user_id <$> users st)
  /\ NoDup ((fun r => (f_user_id r, f_candidate_id r)) <$> favorites st)
  /\ NoDup ((fun r => (b_user_id r, b_candidate_id r)) <$> blacklist st).

Definition viewed_exists (st : Store) (user_id candidate_id : Z) : bool :=
  existsb (fun r => (v_user_id r =? user_id) && (v_candidate_id r =? candidate_id))
          (viewed_profiles st).

(** Lines 137-150: [SELECT * FROM users WHERE user_id = %s] and
    [fetchone]. *)
Definition get_user (st : Store) (user_id : Z) : option UserRow :=
  head (filter (fun r => u_user_id r = user_id) (users st)).

(** [INSERT INTO viewed_profiles (user_id, candidate_id) VALUES (...)
    ON CONFLICT (user_id, candidate_id) DO NOTHING] against the table of
    lines 89-97. *)
Definition insert_viewed (now : Z) (st : Store)
    (user_id candidate_id : Z) : Exec :=
  if negb (bigint user_id && bigint candidate_id) then Raise DataError
  else if viewed_exists st user_id candidate_id then Done st
  else if negb (user_exists st user_id) then Raise IntegrityError
  else
    Done {| users := users st;
            favorites := favorites st;
            blacklist := blacklist st;
            viewed_profiles := viewed_profiles st ++
              [{| v_user_id := user_id; v_candidate_id := candidate_id;
                  v_viewed_at := now |}] |}.

(** Lines 188-202. *)
Definition add_to_viewed (now : Z) (st : Store)
    (user_id candidate_id : Z) : bool * Store :=
  match insert_viewed now st user_id candidate_id with
  | Done st' => (true, st')
  | Raise _ => (false, st)
  end.

(** Lines 235-247: [SELECT candidate_id FROM viewed_profiles
    WHERE user_id = %s]. *)
Definition get_viewed_profiles (st : Store) (user_id : Z) : list Z :=
  v_candidate_id <$> filter (fun r => v_user_id r = user_id) (viewed_profiles st).

(** Lines 249-262: [DELETE FROM favorites WHERE user_id = %s].  Nothing
    in the store makes this statement raise; [lost] says that the
    connection does (a [psycopg2.Error] all the same), which the except
    clause turns into [False]. *)
Definition clear_favorites (lost : bool) (st : Store) (user_id : Z)
  : bool * Store :=
  if lost then (false, st)
  else
  (true,
   {| users := users st;
      favorites := filter (fun r => f_user_id r <> user_id) (favorites st);
      blacklist := blacklist st;
      viewed_profiles := viewed_profiles st |}).

(** Lines 264-277: [DELETE FROM favorites WHERE user_id = %s AND
    candidate_id = %s]; [lost] as for [clear_favorites]. *)
Definition remove_from_favorites (lost : bool) (st : Store)
    (user_id candidate_id : Z) : bool * Store :=
  if lost then (false, st)
  else
  (true,
   {| users := users st;
      favorites :=
        filter (fun r => ~ (f_user_id r = user_id /\ f_candidate_id r = candidate_id))
               (favorites st);
      blacklist := blacklist st;
      viewed_profiles := viewed_profiles st |}).

(** The dictionary [get_user_stats] returns. *)
Record Stats := {
  favorites_count : Z;
  blacklist_count : Z;
  viewed_count : Z
}.

(** Lines 279-313: three times [SELECT COUNT( * ) FROM ... WHERE user_id = %s]. *)
Definition get_user_stats (st : Store) (user_id : Z) : Stats :=
  {| favorites_count :=
       Z.of_nat (length (filter (fun r => f_user_id r = user_id) (favorites st)));
     blacklist_count :=
       Z.of_nat (length (filter (fun r => b_user_id r = user_id) (blacklist st)));
     viewed_count :=
       Z.of_nat (length (filter (fun r => v_user_id r = user_id) (viewed_profiles st))) |}.

(** Lines 315-330: [DELETE FROM viewed_profiles WHERE viewed_at <
    NOW() - INTERVAL '%s days'], and [cursor.rowcount].  [days_ago now
    days] is the timestamp the database computes for [NOW() - INTERVAL
    'days days']. *)
Definition cleanup_old_viewed (days_ago : Z -> Z -> Z) (now : Z) (st : Store)
    (days : Z) : Z * Store :=
  let old (r : ViewedRow) := v_viewed_at r < days_ago now days in
  (Z.of_nat (length (filter old (viewed_profiles st))),
   {| users := users st;
      favorites := favorites st;
      blacklist := blacklist st;
      viewed_profiles := filter (fun r => ~ old r) (viewed_profiles st) |}).

(** Lines 332-345: [SELECT 1 FROM blacklist WHERE user_id = %s AND
    candidate_id = %s], and [fetchone() is not None]. *)
Definition is_in_blacklist (st : Store) (user_id candidate_id : Z) : bool :=
  bool_decide
    (head (filter (fun r => b_user_id r = user_id /\ b_candidate_id r = candidate_id)
                  (blacklist st)) <> None).

(** Lines 347-360. *)
Definition is_in_favorites (st : Store) (user_id candidate_id : Z) : bool :=
  bool_decide
    (head (filter (fun r => f_user_id r = user_id /\ f_candidate_id r = candidate_id)
                  (favorites st)) <> None).

(** [UPDATE users SET ..., updated_at = CURRENT_TIMESTAMP WHERE
    user_id = %s], where [set] writes the new value into a row. *)
Definition update_user (now : Z) (st : Store) (user_id : Z)
    (set : UserRow -> UserRow) : Store :=
  let update (r : UserRow) :=
    if decide (u_user_id r = user_id)
    then let r' := set r in
         {| u_user_id := u_user_id r'; u_first_name := u_first_name r';
            u_last_name := u_last_name r'; u_age := u_age r';
            u_city := u_city r'; u_country := u_country r';
            u_sex := u_sex r'; u_created_at := u_created_at r';
            u_updated_at := now |}
    else r in
  {| users := update <$> users st;
     favorites := favorites st;
     blacklist := blacklist st;
     viewed_profiles := viewed_profiles st |}.

(** Lines 362-377.  A value that does not fit [INTEGER] makes the
    statement raise. *)
Definition update_user_sex (now : Z) (st : Store) (user_id sex : Z)
  : bool * Store :=
  if integer sex then
    (true, update_user now st user_id
             (fun r => {| u_user_id := u_user_id r; u_first_name := u_first_name r;
                          u_last_name := u_last_name r; u_age := u_age r;
                          u_city := u_city r; u_country := u_country r;
                          u_sex := sex; u_created_at := u_created_at r;
                          u_updated_at := u_updated_at r |}))
  else (false, st).

(** Lines 379-394. *)
Definition update_user_age (now : Z) (st : Store) (user_id age : Z)
  : bool * Store :=
  if integer age then
    (true, update_user now st user_id
             (fun r => {| u_user_id := u_user_id r; u_first_name := u_first_name r;
                          u_last_name := u_last_name r; u_age := Some age;
                          u_city := u_city r; u_country := u_country r;
                          u_sex := u_sex r; u_created_at := u_created_at r;
                          u_updated_at := u_updated_at r |}))
  else (false, st).

(** Lines 396-411.  A city that cannot be sent makes [cursor.execute]
    raise [ValueError]; one that does not fit [VARCHAR(100)] makes the
    statement raise. *)
Definition update_user_city (now : Z) (st : Store) (user_id : Z) (city : pystr)
  : Ending * Store :=
  if negb (sendable city) then (RaisesValueError, st)
  else
  match varchar 100 city with
  | Some ci =>
      (Returns true, update_user now st user_id
               (fun r => {| u_user_id := u_user_id r; u_first_name := u_first_name r;
                            u_last_name := u_last_name r; u_age := u_age r;
                            u_city := ci; u_country := u_country r;
                            u_sex := u_sex r; u_created_at := u_created_at r;
                            u_updated_at := u_updated_at r |}))
  | None => (Returns false, st)
  end.

(** One call of a method of [Database] that writes, with its arguments. *)
Inductive Call :=
  | AddUser (now : Z) (user_info : UserDict)
  | AddToFavorites (now user_id candidate_id : Z) (first_name last_name : pystr)
  | AddToBlacklist (now user_id candidate_id : Z)
  | AddToViewed (now user_id candidate_id : Z)
  | ClearFavorites (user_id : Z)
  | RemoveFromFavorites (user_id candidate_id : Z)
  | CleanupOldViewed (now days : Z)
  | UpdateUserSex (now user_id sex : Z)
  | UpdateUserAge (now user_id age : Z)
  | UpdateUserCity (now user_id : Z) (city : pystr).

(** The store a call leaves behind.  (A call that fails or raises leaves
    the store as it is, like no call at all; the two deletions are
    taken on a connection that is not lost.) *)
Definition perform (days_ago : Z -> Z -> Z) (st : Store) (call : Call) : Store :=
  match call with
  | AddUser now d => (add_user now st d).2
  | AddToFavorites now u c fn ln => (add_to_favorites now st u c fn ln).2
  | AddToBlacklist now u c => (add_to_blacklist now st u c).2
  | AddToViewed now u c => (add_to_viewed now st u c).2
  | ClearFavorites u => (clear_favorites false st u).2
  | RemoveFromFavorites u c => (remove_from_favorites false st u c).2
  | CleanupOldViewed now days => (cleanup_old_viewed days_ago now st days).2
  | UpdateUserSex now u x => (update_user_sex now st u x).2
  | UpdateUserAge now u x => (update_user_age now st u x).2
  | UpdateUserCity now u x => (update_user_city now st u x).2
  end.

(** The store after a sequence of calls on a new database. *)
Definition run (days_ago : Z -> Z -> Z) (calls : list Call) : Store :=
  foldl (perform days_ago) empty_store calls.

(** What the table definitions of [create_tables] demand of the rows:
    the keys are unique, every interaction row belongs to a user, and
    the values fit their columns. *)
Definition user_row_fits (r : UserRow) : Prop :=
  bigint (u_user_id r) = true
  /\ (length (u_first_name r) <= 100)%nat /\ (length (u_last_name r) <= 100)%nat
  /\ (length (u_city r) <= 100)%nat /\ (length (u_country r) <= 100)%nat
  /\ integer (default 0 (u_age r)) = true /\ integer (u_sex r) = true.

Definition favorite_row_fits (r : FavoriteRow) : Prop :=
  bigint (f_candidate_id r) = true
  /\ (length (f_first_name r) <= 100)%nat /\ (length (f_last_name r) <= 100)%nat.

Definition constraints (st : Store) : Prop :=
  unique_keys st
  /\ NoDup ((fun r => (v_user_id r, v_candidate_id r)) <$> viewed_profiles st)
  /\ Forall (fun r => user_exists st (f_user_id r) = true) (favorites st)
  /\ Forall (fun r => user_exists st (b_user_id r) = true) (blacklist st)
  /\ Forall (fun r => user_exists st (v_user_id r) = true) (viewed_profiles st)
  /\ Forall user_row_fits (users st)
  /\ Forall favorite_row_fits (favorites st)
  /\ Forall (fun r => bigint (b_candidate_id r) = true) (blacklist st)
  /\ Forall (fun r => bigint (v_candidate_id r) = true) (viewed_profiles st).

End Database.

(** ** The profile on its way from [VKService] to [Database] *)

Module Integration.
Import Py VKService Database.

(** The dictionary of [get_user_info] as [add_user] reads it
    ([tests.py], [test_database_vk_integration]). *)
Definition as_user_dict (p : Profile) : UserDict :=
  {| d_id := p_id p;
     d_first_name := p_first_name p;
     d_last_name := p_last_name p;
     d_age := p_age p;
     d_city := p_city p;
     d_country := p_country p;
     d_sex := p_sex p |}.

End Integration.

(** ** Properties as the specification words them *)

Module Spec.
Import Py VKService.

Local Open Scope Z_scope.

(** Both ends of the age band of [params] lie between [lo] and [hi]. *)
Definition band_within (params : gmap string pyval) (lo hi : Z) : Prop :=
  exists age_from age_to,
    params !! "age_from" = Some (PInt age_from)
    /\ params !! "age_to" = Some (PInt age_to)
    /\ lo <= age_from <= hi /\ lo <= age_to <= hi.

(** No candidate of [result] has an id of the list [blacklisted]. *)
Definition excludes (blacklisted : list Z) (result : list Candidate) : Prop :=
  forall c, c ∈ result -> c_id c ∉ blacklisted.

End Spec.

(** ** Concrete inputs *)

Module Examples.
Import Py VKService Database.

Local Open Scope Z_scope.

(** ["москва"] and ["Москва "] (with a trailing space). *)
Definition moskva : pystr := [1084; 1086; 1089; 1082; 1074; 1072]%N.
Definition Moskva_sp : pystr := [1052; 1086; 1089; 1082; 1074; 1072; 32]%N.

(** Modelled from the spec: [config.CITIES], which is not among the
    sources.  The scenario of the specification has ["москва"] resolve
    to the city id 1; nothing else is known of the table. *)
Definition CITIES : list (pystr * Z) := [(moskva, 1)].

(** The requester of [tests.py]. *)
Definition requester (age : option Z) (city : pystr) : UserInfo :=
  {| ui_id := 12345; ui_sex := Some 1; ui_age := age; ui_city := Some city |}.

(** The search result of [tests.py]: Анна Иванова, id 67890. *)
Definition anna : RawUser :=
  {| ru_id := 67890;
     ru_first_name := Some [1040; 1085; 1085; 1072]%N;
     ru_last_name := Some [1048; 1074; 1072; 1085; 1086; 1074; 1072]%N;
     ru_bdate := Some (lit "15.5.1995");
     ru_city := Some [1052; 1086; 1089; 1082; 1074; 1072]%N;
     ru_sex := Some 1;
     ru_deactivated := None;
     ru_photo_100 := Some (lit "https://example.com/photo.jpg") |}.

(** The same entry flagged as deleted, and with the placeholder picture. *)
Definition anna_deleted : RawUser :=
  {| ru_id := 67890;
     ru_first_name := ru_first_name anna;
     ru_last_name := ru_last_name anna;
     ru_bdate := ru_bdate anna;
     ru_city := ru_city anna;
     ru_sex := ru_sex anna;
     ru_deactivated := Some (lit "deleted");
     ru_photo_100 := ru_photo_100 anna |}.

Definition anna_camera : RawUser :=
  {| ru_id := 67890;
     ru_first_name := ru_first_name anna;
     ru_last_name := ru_last_name anna;
     ru_bdate := ru_bdate anna;
     ru_city := ru_city anna;
     ru_sex := ru_sex anna;
     ru_deactivated := None;
     ru_photo_100 := Some (lit "https://vk.com/images/camera_100.png") |}.

(** Four profile photos nobody liked, with 0, 2, 2 and 5 comments. *)
Definition photo (id : Z) (like_count comment_count : option Z) : Photo :=
  {| photo_id := id; owner_id := 67890;
     likes := like_count; comments := comment_count |}.

Definition unliked_photos : list Photo :=
  [photo 1 None None; photo 2 (Some 0) (Some 2);
   photo 3 (Some 0) (Some 2); photo 4 None (Some 5)].

(** Five photos, four of them liked; the unliked one has the most
    comments. *)
Definition liked_photos : list Photo :=
  [photo 1 (Some 3) None; photo 2 (Some 10) (Some 1); photo 3 None (Some 50);
   photo 4 (Some 1) (Some 1); photo 5 (Some 7) (Some 4)].

(** The user of [tests.py] as [add_user] receives it. *)
Definition test_user : UserDict :=
  {| d_id := 12345;
     d_first_name := [1058; 1077; 1089; 1090]%N;
     d_last_name := [1055; 1086; 1083; 1100; 1079; 1086; 1074; 1072; 1090; 1077; 1083; 1100]%N;
     d_age := Some 25;
     d_city := [1052; 1086; 1089; 1082; 1074; 1072]%N;
     d_country := [1056; 1086; 1089; 1089; 1080; 1103]%N;
     d_sex := 1 |}.

(** The store after [add_user(test_user)] at time 1. *)
Definition store_with_user : Store := (add_user 1 empty_store test_user).2.

(** ... and after [add_to_blacklist(12345, 67890)] at time 2. *)
Definition store_blacklisted : Store :=
  (add_to_blacklist 2 store_with_user 12345 67890).2.

(** The answer of [users.get] in [tests.py], [test_get_user_info], and
    the same entry without a city. *)
Definition test_profile : RawProfile :=
  {| rp_id := 12345;
     rp_first_name := Some (d_first_name test_user);
     rp_last_name := Some (d_last_name test_user);
     rp_bdate := Some (lit "1.1.1999");
     rp_city := Some (d_city test_user);
     rp_country := Some (d_country test_user);
     rp_sex := Some 1 |}.

Definition test_profile_no_city : RawProfile :=
  {| rp_id := 12345;
     rp_first_name := rp_first_name test_profile;
     rp_last_name := rp_last_name test_profile;
     rp_bdate := rp_bdate test_profile;
     rp_city := None;
     rp_country := rp_country test_profile;
     rp_sex := rp_sex test_profile |}.

End Examples.

(** * Properties *)

Import Py VKService Database.

(** ** Strings *)

Lemma split_no_sep sep (s : pystr) : sep ∉ s -> split sep s = [s].
Proof.
  induction s as [|c s IH]; intros Hs; [reflexivity|].
  apply not_elem_of_cons in Hs as [Hc Hs]. simpl.
  destruct (N.eqb_spec c sep) as [->|_]; [done|].
  by rewrite (IH Hs).
Qed.

Lemma split_app_sep sep (a b : pystr) :
  sep ∉ a -> split sep (a ++ sep :: b) = a :: split sep b.
Proof.
  induction a as [|c a IH]; intros Ha; simpl.
  - by rewrite N.eqb_refl.
  - apply not_elem_of_cons in Ha as [Hc Ha].
    destruct (N.eqb_spec c sep) as [->|_]; [done|].
    by rewrite (IH Ha).
Qed.

Lemma split_day_month_year (day month year : pystr) :
  dot ∉ day -> dot ∉ month -> dot ∉ year ->
  split dot (day ++ dot :: month ++ dot :: year) = [day; month; year].
Proof.
  intros Hd Hm Hy.
  by rewrite (split_app_sep _ _ _ Hd), (split_app_sep _ _ _ Hm), (split_no_sep _ _ Hy).
Qed.

(** ** [_calculate_age] *)

Section CalculateAge.
Context (current_year : Z) (int : pystr -> option Z).

Local Open Scope Z_scope.
Local Abbreviation calculate_age := (_calculate_age current_year int).

Lemma calculate_age_third_part (s part : pystr) :
  s <> [] -> split dot s !! 2%nat = Some part ->
  calculate_age (Some s) =
    match int part with
    | Some birth_year =>
        if (10 <=? current_year - birth_year) && (current_year - birth_year <=? 100)
        then Some (current_year - birth_year) else None
    | None => None
    end.
Proof.
  intros Hs Hpart. unfold _calculate_age.
  destruct s as [|c s]; [done|]. cbn [truthy_str negb from_option id].
  pose proof (lookup_lt_Some _ _ _ Hpart) as Hlen.
  destruct (Nat.ltb_spec (length (split dot (c :: s))) 3) as [?|_]; [lia|].
  by rewrite Hpart.
Qed.

(** C3.  For a birth date [day.month.year] whose year reads as the
    integer [Y], [_calculate_age] returns [current_year - Y] exactly
    when that difference lies in [10, 100], and [None] when it does
    not.  It returns [None] for [None], for the empty string, for a
    string with fewer than three dot-separated parts and for a string
    whose third part is not an integer. *)
Theorem calculate_age_spec :
  (forall (day month year : pystr) (Y : Z),
      dot ∉ day -> dot ∉ month -> dot ∉ year -> int year = Some Y ->
      let bdate := Some (day ++ dot :: month ++ dot :: year) in
      (calculate_age bdate = Some (current_year - Y)
         <-> 10 <= current_year - Y <= 100)
      /\ (~ 10 <= current_year - Y <= 100 -> calculate_age bdate = None))
  /\ calculate_age None = None
  /\ calculate_age (Some []) = None
  /\ (forall s : pystr,
        (length (split dot s) < 3)%nat -> calculate_age (Some s) = None)
  /\ (forall s part : pystr,
        split dot s !! 2%nat = Some part -> int part = None ->
        calculate_age (Some s) = None).
Proof.
  split; [|split; [|split; [|split]]].
  - intros day month year Y Hd Hm Hy HY bdate.
    assert (calculate_age bdate =
              if (10 <=? current_year - Y) && (current_year - Y <=? 100)
              then Some (current_year - Y) else None) as ->.
    { unfold bdate. rewrite (calculate_age_third_part _ year), ?HY;
        [done|by destruct day|by rewrite split_day_month_year]. }
    destruct (Z.leb_spec 10 (current_year - Y)),
             (Z.leb_spec (current_year - Y) 100); simpl;
      (split; [split|]); intros; try done; lia.
  - reflexivity.
  - reflexivity.
  - intros s Hlen. unfold _calculate_age.
    destruct (negb (truthy_str (Some s))); [done|]. cbn [from_option id].
    by destruct (Nat.ltb_spec (length (split dot s)) 3) as [_|?]; [|lia].
  - intros s part Hpart Hint.
    destruct s as [|c s]; [done|].
    by rewrite (calculate_age_third_part _ part), ?Hint.
Qed.

End CalculateAge.

Lemma calculate_age_spec_witness :
  let calculate_age := _calculate_age 2026 int_decimal in
  ((dot ∉ lit "15") /\ (dot ∉ lit "5") /\ (dot ∉ lit "1995")
   /\ int_decimal (lit "1995") = Some 1995%Z
   /\ calculate_age (Some (lit "15.5.1995")) = Some 31%Z)
  /\ (length (split dot (lit "1.1")) < 3
      /\ calculate_age (Some (lit "1.1")) = None)
  /\ (split dot (lit "1.1.year") !! 2 = Some (lit "year")
      /\ int_decimal (lit "year") = None
      /\ calculate_age (Some (lit "1.1.year")) = None).
Proof.
  destruct (calculate_age_spec 2026 int_decimal) as (Hdmy & _ & _ & Hshort & Hbad).
  assert (H15 : dot ∉ lit "15") by (by apply (bool_decide_unpack _)).
  assert (H5 : dot ∉ lit "5") by (by apply (bool_decide_unpack _)).
  assert (H1995 : dot ∉ lit "1995") by (by apply (bool_decide_unpack _)).
  assert (Hshort' : length (split dot (lit "1.1")) < 3) by (vm_compute; lia).
  split; [|split].
  - split; [exact H15|]. split; [exact H5|]. split; [exact H1995|].
    split; [reflexivity|].
    apply (Hdmy (lit "15") (lit "5") (lit "1995") 1995%Z H15 H5 H1995 eq_refl).
    lia.
  - split; [exact Hshort'|]. exact (Hshort (lit "1.1") Hshort').
  - split; [reflexivity|]. split; [reflexivity|].
    exact (Hbad (lit "1.1.year") (lit "year") eq_refl eq_refl).
Defined.

(** ** [_build_search_params] *)

Section SearchParams.
Context (SEARCH_CONFIG : gmap string Z) (CITIES : list (pystr * Z))
        (lower : pystr -> pystr).

Local Open Scope Z_scope.
Local Abbreviation base := (base_params SEARCH_CONFIG).
Local Abbreviation with_age := (add_age SEARCH_CONFIG).
Local Abbreviation first_definition :=
  (_build_search_params_first SEARCH_CONFIG CITIES lower).
Local Abbreviation bound_definition :=
  (_build_search_params SEARCH_CONFIG CITIES lower).

Lemma base_lookup_other (k : string) :
  k <> "count"%string -> k <> "fields"%string -> k <> "has_photo"%string ->
  k <> "sort"%string -> base !! k = None.
Proof.
  intros. unfold base_params.
  by rewrite !lookup_insert_ne, lookup_empty by done.
Qed.

Lemma add_sex_lookup (k : string) ui (p : gmap string pyval) :
  k <> "sex"%string -> add_sex ui p !! k = p !! k.
Proof.
  intros. unfold add_sex.
  repeat case_match; by rewrite ?lookup_insert_ne by done.
Qed.

Lemma add_sex_insert (k : string) v ui (p : gmap string pyval) :
  k <> "sex"%string -> add_sex ui (<[k := v]> p) = <[k := v]> (add_sex ui p).
Proof.
  intros. unfold add_sex.
  repeat case_match; by rewrite ?(insert_insert_ne _ "sex"%string) by done.
Qed.

Lemma add_age_lookup (k : string) ui (p : gmap string pyval) :
  k <> "age_from"%string -> k <> "age_to"%string -> with_age ui p !! k = p !! k.
Proof.
  intros. unfold add_age.
  case_match; by rewrite !lookup_insert_ne by done.
Qed.

Lemma add_age_insert (k : string) v ui (p : gmap string pyval) :
  k <> "age_from"%string -> k <> "age_to"%string ->
  with_age ui (<[k := v]> p) = <[k := v]> (with_age ui p).
Proof.
  intros. unfold add_age.
  case_match;
    by rewrite (insert_insert_ne _ "age_from"%string),
               (insert_insert_ne _ "age_to"%string) by done.
Qed.

Lemma add_age_from ui (p : gmap string pyval) :
  with_age ui p !! "age_from" =
    Some (PInt (if truthy_int (ui_age ui)
                then Z.max 18 (default 0 (ui_age ui) - config_get SEARCH_CONFIG "age_range" 5)
                else 18)).
Proof.
  unfold add_age. case_match;
    by rewrite lookup_insert_ne, lookup_insert_eq by done.
Qed.

Lemma add_age_to ui (p : gmap string pyval) :
  with_age ui p !! "age_to" =
    Some (PInt (if truthy_int (ui_age ui)
                then Z.min 80 (default 0 (ui_age ui) + config_get SEARCH_CONFIG "age_range" 5)
                else 35)).
Proof. unfold add_age. case_match; by rewrite lookup_insert_eq. Qed.

(** Every key but ['city'] of the bound definition. *)
Lemma bound_definition_lookup (k : string) ui :
  k <> "city"%string ->
  bound_definition ui !! k = with_age ui (add_sex ui base) !! k.
Proof.
  intros. unfold _build_search_params.
  repeat case_match; by rewrite ?lookup_insert_ne by done.
Qed.

(** The ['city'] key of the bound definition. *)
Lemma bound_definition_city ui :
  bound_definition ui !! "city" =
    match lower (default [] (ui_city ui)) with
    | [] => None
    | city => PInt <$> assoc city CITIES
    end.
Proof.
  unfold _build_search_params.
  repeat case_match; simplify_eq; rewrite ?lookup_insert_eq; try done;
    by rewrite add_age_lookup, add_sex_lookup, base_lookup_other.
Qed.

(** C2 (amended).  For every requester and every [age_range], the age
    band of the bound [_build_search_params] has [age_from >= 18] and
    [age_to <= 80].  For a known age [a] it is
    [max 18 (a - age_range), min 80 (a + age_range)], so [age_from]
    stays at or below 80 exactly when [a - age_range <= 80], and
    [age_to] at or above 18 exactly when [a + age_range >= 18].  For
    an unknown age (missing, [None] or 0) the band is [18, 35]. *)
Theorem build_search_params_age_band ui :
  exists age_from age_to,
    bound_definition ui !! "age_from" = Some (PInt age_from)
    /\ bound_definition ui !! "age_to" = Some (PInt age_to)
    /\ 18 <= age_from /\ age_to <= 80
    /\ (truthy_int (ui_age ui) = false -> age_from = 18 /\ age_to = 35)
    /\ (forall a, ui_age ui = Some a -> a <> 0 ->
          let age_range := config_get SEARCH_CONFIG "age_range" 5 in
          age_from = Z.max 18 (a - age_range)
          /\ age_to = Z.min 80 (a + age_range)
          /\ (age_from <= 80 <-> a - age_range <= 80)
          /\ (18 <= age_to <-> 18 <= a + age_range)).
Proof.
  eexists _, _.
  split; [by rewrite bound_definition_lookup, add_age_from by done|].
  split; [by rewrite bound_definition_lookup, add_age_to by done|].
  destruct (ui_age ui) as [a|]; simpl.
  - destruct (Z.eqb_spec a 0) as [->|Ha]; simpl.
    + split; [lia|]. split; [lia|]. split; [done|]. by intros a' [= <-] ?.
    + split; [lia|]. split; [lia|]. split; [done|].
      intros a' [= <-] _. simpl. lia.
  - split; [lia|]. split; [lia|]. split; [done|]. by intros a' [=].
Qed.

(** The loop of the first definition stops at a city whose name is one
    of the two forms, and finds one whenever there is one. *)
Lemma find_city_Some items (city_normalized city : pystr) cid :
  find_city items city_normalized city = Some cid ->
  exists city_name,
    (city_name, cid) ∈ items /\ (city_normalized = city_name \/ city = city_name).
Proof.
  induction items as [|[name c] items IH]; [done|]. simpl.
  case_decide as Hname.
  - intros [= ->]. exists name. split; [left|done].
  - intros (n & Hin & Hn)%IH. exists n. split; [by right|done].
Qed.

Lemma find_city_None items (city_normalized city : pystr) :
  find_city items city_normalized city = None <->
  forall city_name cid,
    (city_name, cid) ∈ items -> city_normalized <> city_name /\ city <> city_name.
Proof.
  induction items as [|[name c] items IH]; simpl.
  - split; [|done]. by intros _ ? ? ?%elem_of_nil.
  - case_decide as Hname.
    + split; [done|]. intros H. destruct (H name c) as [? ?]; [left|]. tauto.
    + rewrite IH. split.
      * intros H n i [[= -> ->]|?]%elem_of_cons; [tauto|by apply (H n i)].
      * intros H n i ?. apply (H n i). by right.
Qed.

(** Every key but ['city'] of the first definition. *)
Lemma first_definition_lookup (k : string) ui :
  k <> "city"%string ->
  first_definition ui !! k
  = with_age ui (add_sex ui (<["country" := PInt 1]> base)) !! k.
Proof.
  intros. unfold _build_search_params_first.
  case_match; by rewrite ?lookup_insert_ne by done.
Qed.

(** The ['city'] key of the first definition: the city string is
    lowercased, trimmed and has ['ё'] folded to ['е'] before the table
    is searched for either form. *)
Lemma first_definition_city ui :
  let city := strip (lower (default [] (ui_city ui))) in
  first_definition ui !! "city" =
    match find_city CITIES (replace yo ye city) city with
    | Some cid => if cid =? 0 then None else Some (PInt cid)
    | None => None
    end.
Proof.
  unfold _build_search_params_first.
  destruct (find_city _ _ _) as [cid|]; simpl.
  - destruct (Z.eqb_spec cid 0); simpl; rewrite ?lookup_insert_eq; [|done].
    by rewrite add_age_lookup, add_sex_lookup, lookup_insert_ne, base_lookup_other.
  - by rewrite add_age_lookup, add_sex_lookup, lookup_insert_ne, base_lookup_other.
Qed.

Lemma find_city_plain items (city : pystr) :
  find_city items city city = assoc city items.
Proof.
  induction items as [|[name c] items IH]; [done|]. simpl.
  repeat case_decide; try done; tauto.
Qed.

(** How far the two definitions are apart.  The first definition
    always sets ['country'] to 1 and the bound definition never sets
    it; on every key other than ['country'] and ['city'] the two agree.
    When the lowercased city has no surrounding whitespace and no
    ['ё'], and the city table has no empty name and no id 0, the first
    definition returns what the bound one returns, with ['country']
    added. *)
Lemma build_search_params_definitions ui :
  first_definition ui !! "country" = Some (PInt 1)
  /\ bound_definition ui !! "country" = None
  /\ (forall k : string,
        k <> "country"%string -> k <> "city"%string ->
        first_definition ui !! k = bound_definition ui !! k)
  /\ (let city := lower (default [] (ui_city ui)) in
      strip city = city -> replace yo ye city = city ->
      (forall city_name cid,
          (city_name, cid) ∈ CITIES -> city_name <> [] /\ cid <> 0) ->
      first_definition ui = <["country" := PInt 1]> (bound_definition ui)).
Proof.
  split; [|split; [|split]].
  - rewrite first_definition_lookup by done.
    by rewrite add_sex_insert, add_age_insert, lookup_insert_eq.
  - rewrite bound_definition_lookup by done.
    by rewrite add_age_lookup, add_sex_lookup, base_lookup_other.
  - intros k Hcountry Hcity.
    rewrite first_definition_lookup, bound_definition_lookup by done.
    by rewrite add_sex_insert, add_age_insert, lookup_insert_ne.
  - intros city Hstrip Hfold Htable. apply map_eq. intros k.
    destruct (decide (k = "city"%string)) as [->|Hcity].
    + rewrite lookup_insert_ne by done.
      rewrite first_definition_city, bound_definition_city.
      fold city. rewrite Hstrip, Hfold, find_city_plain.
      clearbody city.
      destruct (assoc city CITIES) as [cid|] eqn:Hassoc.
      * pose proof Hassoc as Hfind. rewrite <- find_city_plain in Hfind.
        apply find_city_Some in Hfind as (name & Hin & Hname).
        destruct (Htable _ _ Hin) as [Hne Hcid].
        destruct (Z.eqb_spec cid 0); [done|].
        assert (city = name) as -> by tauto.
        destruct name; [done|]. by rewrite Hassoc.
      * by destruct city; rewrite ?Hassoc.
    + rewrite first_definition_lookup by done.
      rewrite add_sex_insert, add_age_insert by done.
      destruct (decide (k = "country"%string)) as [->|Hcountry].
      * by rewrite !lookup_insert_eq.
      * rewrite !lookup_insert_ne by done.
        by rewrite bound_definition_lookup.
Qed.

End SearchParams.

(** C1.  With ["москва"] in the city table and the city ["Москва "]
    (a trailing space), the bound [_build_search_params] leaves ['city']
    out, while the first definition of the class body, which trims the
    name, sets it to 1. *)
Theorem build_search_params_city_not_trimmed :
  let user_info := Examples.requester (Some 25%Z) Examples.Moskva_sp in
  _build_search_params ∅ Examples.CITIES lower_basic user_info !! "city" = None
  /\ _build_search_params_first ∅ Examples.CITIES lower_basic user_info !! "city"
     = Some (PInt 1)
  /\ assoc (replace yo ye (strip (lower_basic Examples.Moskva_sp))) Examples.CITIES
     = Some 1%Z.
Proof. vm_compute. by repeat split. Qed.

(** C2, as stated, fails: a requester of age 100 with the default
    [age_range] gets the band [95, 80], whose lower end exceeds 80. *)
Lemma age_band_not_within_18_80 :
  let params :=
    _build_search_params ∅ Examples.CITIES lower_basic
      (Examples.requester (Some 100%Z) Examples.moskva) in
  params !! "age_from" = Some (PInt 95)
  /\ params !! "age_to" = Some (PInt 80)
  /\ ~ Spec.band_within params 18 80.
Proof.
  split; [by vm_compute|]. split; [by vm_compute|].
  intros (age_from & age_to & Hfrom & _ & Hwithin & _).
  vm_compute in Hfrom. injection Hfrom as <-. lia.
Qed.

Lemma build_search_params_age_band_witness :
  let known := Examples.requester (Some 25%Z) Examples.moskva in
  let unknown := Examples.requester None Examples.moskva in
  let build := _build_search_params ∅ Examples.CITIES lower_basic in
  (ui_age known = Some 25%Z /\ 25%Z <> 0%Z
   /\ build known !! "age_from" = Some (PInt 20)
   /\ build known !! "age_to" = Some (PInt 30))
  /\ (truthy_int (ui_age unknown) = false
      /\ build unknown !! "age_from" = Some (PInt 18)
      /\ build unknown !! "age_to" = Some (PInt 35)).
Proof.
  split.
  - destruct (build_search_params_age_band ∅ Examples.CITIES lower_basic
                (Examples.requester (Some 25%Z) Examples.moskva))
      as (age_from & age_to & Hfrom & Hto & _ & _ & _ & Hknown).
    assert (H25 : 25%Z <> 0%Z) by lia.
    destruct (Hknown 25%Z eq_refl H25) as (Efrom & Eto & _).
    split; [reflexivity|]. split; [exact H25|].
    rewrite Efrom in Hfrom. rewrite Eto in Hto. split; [exact Hfrom|exact Hto].
  - destruct (build_search_params_age_band ∅ Examples.CITIES lower_basic
                (Examples.requester None Examples.moskva))
      as (age_from & age_to & Hfrom & Hto & _ & _ & Hunknown & _).
    destruct (Hunknown eq_refl) as [Efrom Eto].
    split; [reflexivity|].
    rewrite Efrom in Hfrom. rewrite Eto in Hto. split; [exact Hfrom|exact Hto].
Defined.

(** C10.  On the requester of [tests.py] the two definitions of the
    class body return different dictionaries: the first one, whose
    comment calls ['country': 1] important, has the key ['country'],
    and the bound one, the later duplicate, has not. *)
Lemma build_search_params_definitions_differ :
  let user_info := Examples.requester (Some 25%Z) Examples.moskva in
  _build_search_params_first ∅ Examples.CITIES lower_basic user_info !! "country"
  = Some (PInt 1)
  /\ _build_search_params ∅ Examples.CITIES lower_basic user_info !! "country"
     = None
  /\ _build_search_params_first ∅ Examples.CITIES lower_basic user_info
     <> _build_search_params ∅ Examples.CITIES lower_basic user_info.
Proof.
  intros user_info. split; [by vm_compute|]. split; [by vm_compute|].
  intros H. apply (f_equal (.!! "country")) in H.
  vm_compute in H. discriminate H.
Qed.

Lemma build_search_params_definitions_witness :
  let user_info := Examples.requester (Some 25%Z) Examples.moskva in
  let city := lower_basic (default [] (ui_city user_info)) in
  ("sex" <> "country" /\ "sex" <> "city"
   /\ _build_search_params_first ∅ Examples.CITIES lower_basic user_info !! "sex"
      = _build_search_params ∅ Examples.CITIES lower_basic user_info !! "sex")
  /\ (strip city = city /\ replace yo ye city = city
      /\ _build_search_params_first ∅ Examples.CITIES lower_basic user_info
         = <["country" := PInt 1]>
             (_build_search_params ∅ Examples.CITIES lower_basic user_info)).
Proof.
  intros user_info city.
  destruct (build_search_params_definitions ∅ Examples.CITIES lower_basic user_info)
    as (_ & _ & Hother & Hsame).
  assert (Hsc : "sex" <> "country") by discriminate.
  assert (Hsi : "sex" <> "city") by discriminate.
  split.
  - split; [exact Hsc|]. split; [exact Hsi|]. exact (Hother "sex" Hsc Hsi).
  - split; [reflexivity|]. split; [reflexivity|].
    apply (Hsame eq_refl eq_refl).
    intros city_name cid Hin. apply list_elem_of_singleton in Hin.
    injection Hin as -> ->. split; discriminate.
Defined.

(** ** The candidate filter of [search_people] *)

Lemma starts_with_spec (p s : pystr) :
  starts_with p s = true <-> exists rest, s = p ++ rest.
Proof.
  revert s. induction p as [|a p IH]; intros s; simpl.
  - split; [by exists s|done].
  - destruct s as [|b s].
    + split; [done|]. by intros [rest ?].
    + rewrite andb_true_iff, N.eqb_eq, IH. split.
      * intros [-> [rest ->]]. by exists rest.
      * intros [rest [= -> ->]]. split; [done|by exists rest].
Qed.

(** [p in s]: the string [s] is [p] with something on either side. *)
Lemma contains_spec (p s : pystr) :
  contains p s = true <-> exists before after, s = before ++ p ++ after.
Proof.
  induction s as [|c s IH].
  - simpl. rewrite orb_false_r, starts_with_spec. split.
    + intros [rest H]. by exists [], rest.
    + intros (before & after & H). destruct before; [by exists after|done].
  - cbn [contains]. rewrite orb_true_iff, starts_with_spec, IH. split.
    + intros [[rest H]|(before & after & ->)].
      * by exists [], rest.
      * by exists (c :: before), after.
    + intros (before & after & H). destruct before as [|b before].
      * left. by exists after.
      * right. injection H as -> ->. by exists before, after.
Qed.

Section Candidates.
Context (current_year : Z) (int : pystr -> option Z).

Local Abbreviation select := (collect current_year int).
Local Abbreviation normalize := (candidate_of current_year int).

(** The loop appends the candidate of every entry it does not skip. *)
Lemma collect_filter (items : list RawUser) (candidates : list Candidate) :
  select items candidates
  = candidates ++ (normalize <$> filter (fun user => skipped user = false) items).
Proof.
  revert candidates. induction items as [|user items IH]; intros candidates.
  - by rewrite app_nil_r.
  - simpl. destruct (skipped user) eqn:Hskip.
    + by rewrite IH, filter_cons_False by congruence.
    + by rewrite IH, filter_cons_True, fmap_cons, <- app_assoc by done.
Qed.

Lemma collect_app (before after : list RawUser) :
  select (before ++ after) [] = select before [] ++ select after [].
Proof. by rewrite !collect_filter, filter_app, fmap_app. Qed.

Lemma collect_cons (user : RawUser) (after : list RawUser) :
  select (user :: after) []
  = if skipped user then select after [] else normalize user :: select after [].
Proof.
  rewrite !collect_filter. simpl. destruct (skipped user) eqn:Hskip.
  - by rewrite filter_cons_False by congruence.
  - by rewrite filter_cons_True by done.
Qed.

(** C9.  Whatever comes before and after it in the search result, an
    entry with a truthy ['deactivated'] is dropped, and so is an entry
    whose ['photo_100'] is missing, empty or contains ["camera"]; every
    other entry is in the output at its place, as a candidate with the
    entry's id, its names, city and sex (empty or 0 where missing) and
    the age computed from its birth date. *)
Theorem candidate_filter_spec (before after : list RawUser) (user : RawUser) :
  (truthy_str (ru_deactivated user) = true ->
     select (before ++ user :: after) [] = select (before ++ after) [])
  /\ (ru_photo_100 user = None \/ ru_photo_100 user = Some []
      \/ (exists front back,
            ru_photo_100 user = Some (front ++ lit "camera" ++ back)) ->
      select (before ++ user :: after) [] = select (before ++ after) [])
  /\ (forall url,
        truthy_str (ru_deactivated user) = false ->
        ru_photo_100 user = Some url -> url <> [] ->
        (forall front back, url <> front ++ lit "camera" ++ back) ->
        select (before ++ user :: after) []
        = select before []
          ++ {| c_id := ru_id user;
                c_first_name := default [] (ru_first_name user);
                c_last_name := default [] (ru_last_name user);
                c_age := _calculate_age current_year int (ru_bdate user);
                c_city := default [] (ru_city user);
                c_sex := default 0%Z (ru_sex user) |}
          :: select after []).
Proof.
  rewrite !collect_app, collect_cons. unfold candidate_of. split; [|split].
  - intros Hdeact. unfold skipped. by rewrite Hdeact.
  - intros Hphoto.
    assert (skipped user = true) as ->; [|done].
    unfold skipped.
    destruct Hphoto as [->| [->|(front & back & ->)]];
      [by rewrite orb_true_r..|].
    assert (contains (lit "camera") (front ++ lit "camera" ++ back) = true)
      as Hc by (apply contains_spec; eauto).
    cbn [from_option id]. by rewrite Hc, !orb_true_r.
  - intros url Hdeact Hphoto Hurl Hcamera.
    assert (skipped user = false) as ->; [|done].
    unfold skipped. rewrite Hdeact, Hphoto. cbn [from_option id].
    destruct (contains (lit "camera") url) eqn:Hc.
    + apply contains_spec in Hc as (front & back & ->).
      by destruct (Hcamera front back).
    + by destruct url.
Qed.

End Candidates.

Lemma candidate_filter_spec_witness :
  let select := collect 2026 int_decimal in
  let url := lit "https://example.com/photo.jpg" in
  (truthy_str (ru_deactivated Examples.anna_deleted) = true
   /\ select [Examples.anna; Examples.anna_deleted; Examples.anna] []
      = select [Examples.anna; Examples.anna] [])
  /\ (ru_photo_100 Examples.anna_camera
      = Some (lit "https://vk.com/images/" ++ lit "camera" ++ lit "_100.png")
      /\ select [Examples.anna; Examples.anna_camera; Examples.anna] []
         = select [Examples.anna; Examples.anna] [])
  /\ (truthy_str (ru_deactivated Examples.anna) = false
      /\ ru_photo_100 Examples.anna = Some url /\ url <> []
      /\ (forall front back, url <> front ++ lit "camera" ++ back)
      /\ select [Examples.anna; Examples.anna; Examples.anna] []
         = select [Examples.anna] []
             ++ {| c_id := 67890%Z;
                   c_first_name := [1040; 1085; 1085; 1072]%N;
                   c_last_name := [1048; 1074; 1072; 1085; 1086; 1074; 1072]%N;
                   c_age := Some 31%Z;
                   c_city := [1052; 1086; 1089; 1082; 1074; 1072]%N;
                   c_sex := 1%Z |}
             :: select [Examples.anna] []).
Proof.
  intros select url.
  assert (Hno_camera : forall front back, url <> front ++ lit "camera" ++ back).
  { intros front back H.
    assert (contains (lit "camera") url = true) as Hc
      by (apply contains_spec; eauto).
    discriminate Hc. }
  split; [|split].
  - split; [reflexivity|].
    destruct (candidate_filter_spec 2026 int_decimal
                [Examples.anna] [Examples.anna] Examples.anna_deleted)
      as (Hdeactivated & _ & _).
    exact (Hdeactivated eq_refl).
  - split; [reflexivity|].
    destruct (candidate_filter_spec 2026 int_decimal
                [Examples.anna] [Examples.anna] Examples.anna_camera)
      as (_ & Hphoto & _).
    apply Hphoto. right. right.
    by exists (lit "https://vk.com/images/"), (lit "_100.png").
  - split; [reflexivity|]. split; [reflexivity|]. split; [discriminate|].
    split; [exact Hno_camera|].
    destruct (candidate_filter_spec 2026 int_decimal
                [Examples.anna] [Examples.anna] Examples.anna)
      as (_ & _ & Hkept).
    apply (Hkept url); [reflexivity|reflexivity|discriminate|exact Hno_camera].
Defined.

(** ** [search_people] *)

Lemma slice_to_nonneg {A} (l : list A) (n : Z) :
  (0 <= n)%Z -> slice_to l n = take (Z.to_nat n) l.
Proof.
  intros Hn. unfold slice_to. by destruct (Z.leb_spec 0 n); [|lia].
Qed.

Section SearchPeople.
Context (SEARCH_CONFIG : gmap string Z) (CITIES : list (pystr * Z))
        (current_year : Z) (lower : pystr -> pystr)
        (int : pystr -> option Z)
        (users_search : gmap string pyval -> SearchResponse)
        (shuffle : list Candidate -> list Candidate).

(** [random.shuffle] reorders the list and does nothing else. *)
Hypothesis shuffle_permutes : forall l, shuffle l ≡ₚ l.

Local Abbreviation search :=
  (search_people SEARCH_CONFIG CITIES current_year lower int
                 users_search shuffle).

(** C4 (amended).  [search_people] returns at most 50 candidates, and
    each of them is the candidate of an entry of the search result that
    the filter does not skip.  The blacklist plays no part: the
    function has no access to the store. *)
Theorem search_people_result (user_info : UserInfo) :
  length (search user_info) <= 50
  /\ forall c, c ∈ search user_info ->
       exists items user,
         users_search (_build_search_params SEARCH_CONFIG CITIES lower user_info)
         = SearchItems items
         /\ user ∈ items /\ skipped user = false
         /\ c = candidate_of current_year int user.
Proof.
  unfold search_people.
  destruct (users_search _) as [| |items]; simpl.
  - split; [lia|]. by intros c ?%elem_of_nil.
  - split; [lia|]. by intros c ?%elem_of_nil.
  - rewrite slice_to_nonneg by lia. split.
    + rewrite length_take. lia.
    + intros c Hc. exists items.
      apply elem_of_take in Hc as (i & Hi & _).
      apply list_elem_of_lookup_2 in Hi.
      rewrite shuffle_permutes, collect_filter in Hi. simpl in Hi.
      apply list_elem_of_fmap in Hi as (user & -> & Huser).
      apply list_elem_of_filter in Huser as [Hkept Huser].
      by exists user.
Qed.

End SearchPeople.

(** C4, as stated, fails: user 12345 has blacklisted 67890, the search
    returns the profile 67890, and [search_people] returns it. *)
Lemma search_people_returns_blacklisted :
  let result :=
    search_people ∅ Examples.CITIES 2026 lower_basic int_decimal
      (fun _ => SearchItems [Examples.anna]) id
      (Examples.requester (Some 25%Z) Examples.moskva) in
  get_blacklist Examples.store_blacklisted 12345 = [67890%Z]
  /\ c_id <$> result = [67890%Z]
  /\ ~ Spec.excludes (get_blacklist Examples.store_blacklisted 12345) result.
Proof.
  split; [reflexivity|]. split; [reflexivity|].
  intros H. eapply H; [by left|]. by left.
Qed.

Lemma search_people_result_witness :
  let search :=
    search_people ∅ Examples.CITIES 2026 lower_basic int_decimal
      (fun _ => SearchItems [Examples.anna_deleted; Examples.anna]) reverse in
  let user_info := Examples.requester (Some 25%Z) Examples.moskva in
  let c := candidate_of 2026 int_decimal Examples.anna in
  (forall l : list Candidate, reverse l ≡ₚ l)
  /\ c ∈ search user_info
  /\ length (search user_info) <= 50
  /\ exists items user,
       SearchItems [Examples.anna_deleted; Examples.anna] = SearchItems items
       /\ user ∈ items /\ skipped user = false
       /\ c = candidate_of 2026 int_decimal user.
Proof.
  intros search user_info c.
  assert (Hc : c ∈ search user_info) by (by left).
  destruct (search_people_result ∅ Examples.CITIES 2026 lower_basic int_decimal
              (fun _ => SearchItems [Examples.anna_deleted; Examples.anna])
              reverse reverse_Permutation user_info) as [Hlen Hin].
  split; [exact reverse_Permutation|]. split; [exact Hc|].
  split; [exact Hlen|]. exact (Hin c Hc).
Defined.

(** ** [list.sort(key=..., reverse=True)] *)

Section SortDesc.
Context {A : Type} (key : A -> Z).

Local Open Scope Z_scope.

Lemma insert_desc_Permutation (x : A) (l : list A) :
  insert_desc key x l ≡ₚ x :: l.
Proof.
  induction l as [|y l IH]; [done|]. simpl.
  destruct (key x <? key y); [|done].
  by rewrite IH, Permutation_swap.
Qed.

Lemma sort_desc_Permutation (l : list A) : sort_desc key l ≡ₚ l.
Proof.
  induction l as [|x l IH]; [done|]. simpl.
  by rewrite insert_desc_Permutation, IH.
Qed.

Lemma insert_desc_StronglySorted (x : A) (l : list A) :
  StronglySorted (not_below key) l -> StronglySorted (not_below key) (insert_desc key x l).
Proof.
  induction l as [|y l IH]; intros Hl; simpl.
  - by repeat constructor.
  - apply StronglySorted_inv in Hl as [Hl Hy].
    destruct (Z.ltb_spec (key x) (key y)) as [Hlt|Hge].
    + constructor; [by apply IH|].
      rewrite insert_desc_Permutation. constructor; [|done].
      unfold not_below. lia.
    + constructor; [by constructor|]. constructor; [done|].
      eapply Forall_impl; [exact Hy|]. unfold not_below. intros z ?. lia.
Qed.

(** The result is in decreasing order of key. *)
Lemma sort_desc_StronglySorted (l : list A) :
  StronglySorted (not_below key) (sort_desc key l).
Proof.
  induction l as [|x l IH]; [constructor|].
  by apply insert_desc_StronglySorted.
Qed.



Lemma StronglySorted_sublist (R : relation A) (l1 l2 : list A) :
  l1 `sublist_of` l2 -> StronglySorted R l2 -> StronglySorted R l1.
Proof.
  induction 1 as [|x l1 l2 Hsub IH|x l1 l2 Hsub IH]; intros Hl2.
  - constructor.
  - apply StronglySorted_inv in Hl2 as [Hl2 Hx].
    constructor; [by apply IH|].
    apply Forall_forall. intros y Hy.
    eapply Forall_forall in Hx; [exact Hx|]. by eapply elem_of_sublist.
  - apply StronglySorted_inv in Hl2 as [Hl2 _]. by apply IH.
Qed.

Lemma filter_sublist_mono (P : A -> Prop) `{!forall x, Decision (P x)}
      (l1 l2 : list A) :
  l1 `sublist_of` l2 -> filter P l1 `sublist_of` filter P l2.
Proof.
  induction 1 as [|x l1 l2 Hsub IH|x l1 l2 Hsub IH].
  - done.
  - rewrite !filter_cons. case_decide; [by constructor|done].
  - rewrite filter_cons. case_decide; [by constructor|done].
Qed.

Lemma slice_to_sublist (l : list A) (n : Z) : slice_to l n `sublist_of` l.
Proof. unfold slice_to. case_match; apply sublist_take. Qed.

End SortDesc.

(** ** [get_popular_photos] *)

Section PopularPhotos.
Context (SEARCH_CONFIG : gmap string Z).

Local Open Scope Z_scope.
Local Abbreviation rank := (rank_photos SEARCH_CONFIG).
Local Abbreviation min_likes := (config_get SEARCH_CONFIG "min_photo_likes" 1).
Local Abbreviation max_photos := (config_get SEARCH_CONFIG "max_photos" 3).

(** What is returned is cut out of the sorted list, in its order. *)
Lemma rank_photos_sublist (photos : list Photo) :
  rank photos `sublist_of` sort_desc score photos.
Proof.
  unfold rank_photos. etrans; [apply slice_to_sublist|].
  case_match; [done|apply sublist_filter].
Qed.


(** C8 (amended).  When the input has photos and fewer than three of
    them reach [min_likes], [rank_photos] returns the first
    [max_photos] photos of the whole sorted list: all of it when the
    input has no more than [max_photos] photos, and never nothing when
    [max_photos] is at least 1. *)
Theorem rank_photos_fallback (photos : list Photo) :
  photos <> [] ->
  (length (filter (fun x => (min_likes <= default 0 (likes x))%Z) photos) < 3)%nat ->
  rank photos = slice_to (sort_desc score photos) max_photos
  /\ (Z.of_nat (length photos) <= max_photos ->
      rank photos = sort_desc score photos)
  /\ (1 <= max_photos -> rank photos <> []).
Proof.
  intros Hphotos Hfew.
  assert (Hsorted : sort_desc score photos <> []).
  { intros Hnil. apply Hphotos, Permutation_nil_r.
    by rewrite <- Hnil, sort_desc_Permutation. }
  assert (Hrank : rank photos = slice_to (sort_desc score photos) max_photos).
  { unfold rank_photos.
    rewrite (sort_desc_Permutation score photos) at 1.
    destruct (Nat.ltb_spec (length (filter
                (fun x => (min_likes <= default 0 (likes x))%Z) photos)) 3);
      [|lia].
    by rewrite bool_decide_eq_false_2. }
  split; [done|]. rewrite Hrank. split.
  - intros Hlen. rewrite slice_to_nonneg by lia.
    apply take_ge. rewrite sort_desc_Permutation. lia.
  - intros Hmax. rewrite slice_to_nonneg by lia.
    destruct (sort_desc score photos); [done|].
    destruct (Z.to_nat max_photos) eqn:Hn; [lia|done].
Qed.

(** [get_popular_photos] ranks the photos [photos.get] answers with,
    and returns the empty list when there are none to rank. *)
Lemma get_popular_photos_ranked (photos_get : Z -> PhotosResponse) (user_id : Z) :
  get_popular_photos SEARCH_CONFIG photos_get user_id =
    match photos_get user_id with
    | PhotosItems photos => rank photos
    | _ => []
    end.
Proof. unfold get_popular_photos. by destruct (photos_get user_id). Qed.

End PopularPhotos.


(** C8, as stated, fails: of four photos without likes the three with
    the highest scores are returned, not all four. *)
Lemma rank_photos_fallback_truncated :
  let photos := Examples.unliked_photos in
  photos <> []
  /\ length (filter (fun x => (1 <= default 0 (likes x))%Z) photos) = 0
  /\ photo_id <$> sort_desc score photos = [4; 2; 3; 1]%Z
  /\ photo_id <$> rank_photos ∅ photos = [4; 2; 3]%Z
  /\ rank_photos ∅ photos <> sort_desc score photos.
Proof.
  split; [done|]. split; [reflexivity|]. split; [reflexivity|].
  split; [reflexivity|].
  intros H. apply (f_equal length) in H. vm_compute in H. discriminate H.
Qed.

Lemma rank_photos_fallback_witness :
  let photos := take 3 Examples.unliked_photos in
  photos <> []
  /\ length (filter (fun x => (config_get ∅ "min_photo_likes" 1
                               <= default 0 (likes x))%Z) photos) < 3
  /\ (Z.of_nat (length photos) <= config_get ∅ "max_photos" 3)%Z
  /\ (1 <= config_get ∅ "max_photos" 3)%Z
  /\ rank_photos ∅ photos = sort_desc score photos
  /\ rank_photos ∅ photos <> [].
Proof.
  intros photos.
  assert (Hphotos : photos <> []) by done.
  assert (Hfew : length (filter (fun x => (config_get ∅ "min_photo_likes" 1
                                  <= default 0 (likes x))%Z) photos) < 3)
    by (vm_compute; lia).
  assert (Hlen : (Z.of_nat (length photos) <= config_get ∅ "max_photos" 3)%Z)
    by (by vm_compute).
  assert (Hmax : (1 <= config_get ∅ "max_photos" 3)%Z) by (by vm_compute).
  destruct (rank_photos_fallback ∅ photos Hphotos Hfew) as (_ & Hall & Hsome).
  split; [exact Hphotos|]. split; [exact Hfew|]. split; [exact Hlen|].
  split; [exact Hmax|]. split; [exact (Hall Hlen)|exact (Hsome Hmax)].
Defined.

(** ** The interaction store *)

Lemma filter_none {A} (P : A -> Prop) `{!forall x, Decision (P x)} (l : list A) :
  (forall x, x ∈ l -> ~ P x) -> filter P l = [].
Proof.
  induction l as [|x l IH]; [done|]. intros Hl.
  rewrite filter_cons_False by (apply Hl; by left).
  apply IH. intros y Hy. apply Hl. by right.
Qed.

Section Rows.
Context {R : Type} (user candidate : R -> Z).

Local Open Scope Z_scope.

(** The rows of the pair ([user_id], [candidate_id]). *)
Local Abbreviation of_pair u c :=
  (filter (fun r => user r = u /\ candidate r = c)).

Lemma existsb_pair_false (rows : list R) (u c : Z) :
  existsb (fun r => (user r =? u) && (candidate r =? c)) rows = false ->
  of_pair u c rows = [].
Proof.
  induction rows as [|r rows IH]; [done|]. simpl.
  intros [Hr Hrows]%orb_false_elim.
  rewrite filter_cons_False; [by apply IH|].
  apply andb_false_iff in Hr. lia.
Qed.

Lemma existsb_pair_true (rows : list R) (u c : Z) :
  NoDup ((fun r => (user r, candidate r)) <$> rows) ->
  existsb (fun r => (user r =? u) && (candidate r =? c)) rows = true ->
  length (of_pair u c rows) = 1%nat.
Proof.
  induction rows as [|r rows IH]; [done|].
  rewrite fmap_cons, NoDup_cons. simpl. intros [Hr Hrows] Hex.
  destruct ((user r =? u) && (candidate r =? c)) eqn:Hpair.
  - apply andb_true_iff in Hpair as [Hu%Z.eqb_eq Hc%Z.eqb_eq]. subst u c.
    rewrite filter_cons_True by done. simpl. f_equal.
    apply length_zero_iff_nil, filter_none.
    intros r' Hr' [Hu Hc]. apply Hr, list_elem_of_fmap.
    exists r'. by rewrite Hu, Hc.
  - rewrite filter_cons_False; [by apply IH|].
    apply andb_false_iff in Hpair. lia.
Qed.

Lemma existsb_pair_snoc (rows : list R) (r : R) (u c : Z) :
  user r = u -> candidate r = c ->
  existsb (fun r' => (user r' =? u) && (candidate r' =? c)) (rows ++ [r]) = true.
Proof.
  intros <- <-. rewrite existsb_app. simpl.
  by rewrite !Z.eqb_refl, !orb_true_r.
Qed.

(** Selecting the rows of a user and then the candidates equal to [c]
    counts the rows of the pair. *)
Lemma count_candidate (rows : list R) (u c : Z) :
  length (filter (fun z => z = c)
            (candidate <$> filter (fun r => user r = u) rows))
  = length (of_pair u c rows).
Proof.
  induction rows as [|r rows IH]; [done|].
  rewrite !(filter_cons _ r).
  destruct (decide (user r = u)) as [Hu|Hu].
  - rewrite fmap_cons, filter_cons.
    destruct (decide (candidate r = c)) as [Hc|Hc].
    + rewrite decide_True by done. simpl. by rewrite IH.
    + rewrite decide_False by tauto. done.
  - rewrite decide_False by tauto. done.
Qed.

Lemma existsb_pair_not_elem (rows : list R) (u c : Z) :
  existsb (fun r => (user r =? u) && (candidate r =? c)) rows = false ->
  (u, c) ∉ (fun r => (user r, candidate r)) <$> rows.
Proof.
  intros Hex (r & [= Hu Hc] & Hr)%list_elem_of_fmap.
  apply existsb_pair_false in Hex.
  by apply (filter_nil_not_elem_of _ _ r Hex).
Qed.

End Rows.

Lemma length_filter_fmap {A B} (f : A -> B) (P : B -> Prop)
      `{!forall y, Decision (P y)} (l : list A) :
  length (filter P (f <$> l)) = length (filter (fun x => P (f x)) l).
Proof.
  induction l as [|x l IH]; [done|].
  rewrite fmap_cons, !filter_cons. case_decide; simpl; by rewrite IH.
Qed.

Section Store.
Local Open Scope Z_scope.

Lemma empty_store_unique_keys : unique_keys empty_store.
Proof. repeat split; constructor. Qed.

(** The operations keep the keys unique. *)
Lemma add_user_unique_keys now st user_info :
  unique_keys st -> unique_keys (add_user now st user_info).2.
Proof.
  intros (Hu & Hf & Hb). unfold add_user, upsert_user.
  repeat case_match; simplify_eq; try done; simpl.
  - repeat split; try done. simpl.
    rewrite <- list_fmap_compose.
    erewrite list_fmap_ext; [exact Hu|].
    intros i r _. simpl. case_match; [|done]. simpl. lia.
  - repeat split; try done. simpl.
    rewrite fmap_app. apply NoDup_app. repeat split; [done| |apply NoDup_singleton].
    intros z Hz ->%list_elem_of_singleton.
    apply list_elem_of_fmap in Hz as (r & Hr & Hin).
    match goal with H : user_exists _ _ = false |- _ => rename H into Hex end.
    unfold user_exists in Hex.
    assert (existsb (fun r => u_user_id r =? d_id user_info) (users st) = true)
      as Hex'; [|congruence].
    apply existsb_exists. exists r. simpl in Hr.
    split; [by apply list_elem_of_In|lia].
Qed.

Lemma add_to_favorites_unique_keys now st u c fn ln :
  unique_keys st -> unique_keys (add_to_favorites now st u c fn ln).2.
Proof.
  intros (Hu & Hf & Hb). unfold add_to_favorites, insert_favorite.
  repeat case_match; simplify_eq; try done; simpl.
  repeat split; try done. simpl.
  rewrite fmap_app. apply NoDup_app. repeat split; [done| |apply NoDup_singleton].
  intros z Hz ->%list_elem_of_singleton. simpl in Hz.
  by eapply (existsb_pair_not_elem f_user_id f_candidate_id).
Qed.

Lemma add_to_blacklist_unique_keys now st u c :
  unique_keys st -> unique_keys (add_to_blacklist now st u c).2.
Proof.
  intros (Hu & Hf & Hb). unfold add_to_blacklist, insert_blacklist.
  repeat case_match; simplify_eq; try done; simpl.
  repeat split; try done. simpl.
  rewrite fmap_app. apply NoDup_app. repeat split; [done| |apply NoDup_singleton].
  intros z Hz ->%list_elem_of_singleton. simpl in Hz.
  by eapply (existsb_pair_not_elem b_user_id b_candidate_id).
Qed.

(** The entries of [get_favorites] for a candidate are the rows of the
    pair. *)
Lemma get_favorites_count st (u c : Z) :
  length (filter (fun d => fd_candidate_id d = c) (get_favorites st u))
  = length (filter (fun r => f_user_id r = u /\ f_candidate_id r = c)
                   (favorites st)).
Proof.
  unfold get_favorites. rewrite length_filter_fmap. simpl.
  rewrite sort_desc_Permutation, list_filter_filter.
  f_equal. apply list_filter_iff. tauto.
Qed.

End Store.

Section Interactions.
Context (now1 now2 : Z) (st : Store) (user_id candidate_id : Z).

Local Open Scope Z_scope.

(** C5 (amended).  For a user that has a row in [users], a candidate
    that is not yet a favorite of that user, ids that fit [BIGINT] and
    names that can be sent and fit [VARCHAR(100)], the first
    [add_to_favorites] returns [True].  A second one with the same pair
    returns [False] when its names can be sent, and raises [ValueError]
    when one of them cannot; either way it changes nothing, and
    [get_favorites] then has exactly one entry for the candidate. *)
Theorem add_to_favorites_twice (first_name last_name first_name' last_name' : pystr) :
  user_exists st user_id = true ->
  favorite_exists st user_id candidate_id = false ->
  bigint user_id = true -> bigint candidate_id = true ->
  sendable first_name = true -> sendable last_name = true ->
  is_Some (varchar 100 first_name) -> is_Some (varchar 100 last_name) ->
  let first := add_to_favorites now1 st user_id candidate_id first_name last_name in
  let second :=
    add_to_favorites now2 first.2 user_id candidate_id first_name' last_name' in
  first.1 = Returns true
  /\ second.1 = (if sendable first_name' && sendable last_name'
                 then Returns false else RaisesValueError)
  /\ second.2 = first.2
  /\ length (filter (fun d => fd_candidate_id d = candidate_id)
                    (get_favorites second.2 user_id)) = 1%nat.
Proof.
  intros Huser Hnew Hu Hc Hsfn Hsln [fn Hfn] [ln Hln] first second.
  assert (Hfirst : first =
    (Returns true,
     {| users := users st;
        favorites := favorites st ++
          [{| f_user_id := user_id; f_candidate_id := candidate_id;
              f_first_name := fn; f_last_name := ln;
              f_created_at := now1 |}];
        blacklist := blacklist st;
        viewed_profiles := viewed_profiles st |})).
  { unfold first, add_to_favorites, insert_favorite.
    by rewrite Hsfn, Hsln, Hfn, Hln, Hu, Hc, Hnew, Huser. }
  assert (Hsecond : second =
    (if sendable first_name' && sendable last_name'
     then Returns false else RaisesValueError, first.2)).
  { unfold second, add_to_favorites, insert_favorite.
    destruct (sendable first_name' && sendable last_name'); [|done].
    cbn [negb].
    rewrite Hu, Hc, Hfirst. unfold favorite_exists. cbn [snd favorites].
    rewrite (existsb_pair_snoc f_user_id f_candidate_id) by done.
    by repeat case_match. }
  rewrite Hsecond. cbn [fst snd].
  split; [by rewrite Hfirst|]. split; [done|]. split; [done|].
  rewrite Hfirst, get_favorites_count. cbn [snd favorites].
  rewrite filter_app, length_app.
  rewrite (existsb_pair_false f_user_id f_candidate_id _ _ _ Hnew).
  by rewrite filter_cons_True by done.
Qed.

(** C6 (amended).  In a store whose keys are unique, for a user that
    has a row in [users] and ids that fit [BIGINT], two
    [add_to_blacklist] in a row with the same pair both return [True],
    the second changes nothing, and [get_blacklist] then has the
    candidate exactly once. *)
Theorem add_to_blacklist_twice :
  unique_keys st ->
  user_exists st user_id = true ->
  bigint user_id = true -> bigint candidate_id = true ->
  let first := add_to_blacklist now1 st user_id candidate_id in
  let second := add_to_blacklist now2 first.2 user_id candidate_id in
  first.1 = true /\ second.1 = true /\ second.2 = first.2
  /\ length (filter (fun id => id = candidate_id)
                    (get_blacklist second.2 user_id)) = 1%nat.
Proof.
  intros (_ & _ & Hunique) Huser Hu Hc first second.
  assert (Hagain : forall st', blacklist_exists st' user_id candidate_id = true ->
            add_to_blacklist now2 st' user_id candidate_id = (true, st')).
  { intros st' Hex. unfold add_to_blacklist, insert_blacklist.
    by rewrite Hu, Hc, Hex. }
  destruct (blacklist_exists st user_id candidate_id) eqn:Hex.
  - assert (Hfirst : first = (true, st)).
    { unfold first, add_to_blacklist, insert_blacklist.
      by rewrite Hu, Hc, Hex. }
    unfold second. rewrite Hfirst. cbn [fst snd]. rewrite (Hagain st Hex).
    cbn [fst snd]. repeat split; try done.
    unfold get_blacklist.
    rewrite (count_candidate b_user_id b_candidate_id).
    by apply existsb_pair_true.
  - assert (Hfirst : first =
      (true, {| users := users st;
                favorites := favorites st;
                blacklist := blacklist st ++
                  [{| b_user_id := user_id; b_candidate_id := candidate_id;
                      b_created_at := now1 |}];
                viewed_profiles := viewed_profiles st |})).
    { unfold first, add_to_blacklist, insert_blacklist.
      by rewrite Hu, Hc, Hex, Huser. }
    unfold second. rewrite Hfirst. cbn [fst snd]. rewrite Hagain.
    + cbn [fst snd]. repeat split; try done.
      unfold get_blacklist. cbn [blacklist].
      rewrite (count_candidate b_user_id b_candidate_id).
      rewrite filter_app, length_app.
      rewrite (existsb_pair_false b_user_id b_candidate_id _ _ _ Hex).
      by rewrite filter_cons_True by done.
    + unfold blacklist_exists. cbn [blacklist].
      by apply (existsb_pair_snoc b_user_id b_candidate_id).
Qed.

End Interactions.

(** C5, as stated, fails: on a store without a row for user 12345 the
    insert violates the foreign key of [favorites], and the first call
    returns [False]. *)
Lemma add_to_favorites_unregistered_user :
  add_to_favorites 1 empty_store 12345 67890 [] [] = (Returns false, empty_store)
  /\ (add_to_favorites 1 empty_store 12345 67890 [] []).1 <> Returns true.
Proof. split; [reflexivity|discriminate]. Qed.

Lemma add_to_favorites_twice_witness :
  let first := add_to_favorites 2 Examples.store_with_user 12345 67890 [] [] in
  let second := add_to_favorites 3 first.2 12345 67890 [] [] in
  let raising := add_to_favorites 3 first.2 12345 67890 [0%N] [] in
  user_exists Examples.store_with_user 12345 = true
  /\ favorite_exists Examples.store_with_user 12345 67890 = false
  /\ bigint 12345 = true /\ bigint 67890 = true
  /\ sendable [] = true
  /\ is_Some (varchar 100 [])
  /\ (first.1 = Returns true /\ second.1 = Returns false /\ second.2 = first.2
      /\ length (filter (fun d => fd_candidate_id d = 67890%Z)
                        (get_favorites second.2 12345)) = 1)
  /\ (raising.1 = RaisesValueError /\ raising.2 = first.2).
Proof.
  assert (Hname : is_Some (varchar 100 [])) by (by exists []).
  split; [reflexivity|]. split; [reflexivity|]. split; [reflexivity|].
  split; [reflexivity|]. split; [reflexivity|]. split; [exact Hname|].
  split.
  - exact (add_to_favorites_twice 2 3 Examples.store_with_user 12345 67890
             [] [] [] [] eq_refl eq_refl eq_refl eq_refl eq_refl eq_refl
             Hname Hname).
  - destruct (add_to_favorites_twice 2 3 Examples.store_with_user 12345 67890
                [] [] [0%N] [] eq_refl eq_refl eq_refl eq_refl eq_refl eq_refl
                Hname Hname) as (_ & Hraises & Hsame & _).
    split; [exact Hraises|exact Hsame].
Defined.

(** C6, as stated, fails: on a store without a row for user 12345 the
    insert violates the foreign key of [blacklist], and both calls
    return [False]. *)
Lemma add_to_blacklist_unregistered_user :
  let first := add_to_blacklist 1 empty_store 12345 67890 in
  let second := add_to_blacklist 2 first.2 12345 67890 in
  first.1 = false /\ second.1 = false
  /\ get_blacklist second.2 12345 = []
  /\ ~ (first.1 = true /\ second.1 = true).
Proof.
  split; [reflexivity|]. split; [reflexivity|]. split; [reflexivity|].
  by intros [? _].
Qed.

Lemma add_to_blacklist_twice_witness :
  let first := add_to_blacklist 2 Examples.store_with_user 12345 67890 in
  let second := add_to_blacklist 3 first.2 12345 67890 in
  unique_keys Examples.store_with_user
  /\ user_exists Examples.store_with_user 12345 = true
  /\ bigint 12345 = true /\ bigint 67890 = true
  /\ first.1 = true /\ second.1 = true /\ second.2 = first.2
  /\ length (filter (fun id => id = 67890%Z) (get_blacklist second.2 12345)) = 1.
Proof.
  assert (Hkeys : unique_keys Examples.store_with_user)
    by (apply add_user_unique_keys, empty_store_unique_keys).
  split; [exact Hkeys|]. split; [reflexivity|]. split; [reflexivity|].
  split; [reflexivity|].
  exact (add_to_blacklist_twice 2 3 Examples.store_with_user 12345 67890
           Hkeys eq_refl eq_refl eq_refl).
Defined.


(** * Further properties of [VKService] *)

(** An age that [_calculate_age] returns lies between 10 and 100. *)
Lemma calculate_age_in_range_helper current_year (int : pystr -> option Z)
      (bdate : option pystr) (age : Z) :
  _calculate_age current_year int bdate = Some age -> (10 <= age <= 100)%Z.
Proof.
  unfold _calculate_age. repeat case_match; try done.
  intros [= <-].
  match goal with H : _ && _ = true |- _ =>
    apply andb_true_iff in H as [?%Z.leb_le ?%Z.leb_le] end.
  lia.
Qed.

Section AgeAndParams.
Context (SEARCH_CONFIG : gmap string Z) (CITIES : list (pystr * Z))
        (current_year : Z) (lower : pystr -> pystr) (int : pystr -> option Z).

Local Open Scope Z_scope.
Local Abbreviation build := (_build_search_params SEARCH_CONFIG CITIES lower).
Local Abbreviation age_range := (config_get SEARCH_CONFIG "age_range" 5).

(** X1.  Whatever the birth date, an age that [_calculate_age] returns
    lies between 10 and 100 and is the current year minus the integer
    read from the third dot-separated part of the date. *)
Theorem calculate_age_in_range (bdate : option pystr) (age : Z) :
  _calculate_age current_year int bdate = Some age ->
  10 <= age <= 100
  /\ exists (s part : pystr) (birth_year : Z),
        bdate = Some s /\ split dot s !! 2%nat = Some part
        /\ int part = Some birth_year /\ age = current_year - birth_year.
Proof.
  unfold _calculate_age. destruct bdate as [[|c s]|]; try done.
  cbn [truthy_str negb from_option id].
  destruct (length (split dot (c :: s)) <? 3)%nat; [done|].
  destruct (split dot (c :: s) !! 2%nat) as [part|] eqn:Hpart; [|done].
  destruct (int part) as [birth_year|] eqn:Hint; [|done].
  destruct (Z.leb_spec 10 (current_year - birth_year)); [|done].
  destruct (Z.leb_spec (current_year - birth_year) 100); [|done].
  intros [= <-]. split; [lia|]. by exists (c :: s), part, birth_year.
Qed.

Local Ltac solve_keys :=
  apply set_eq; intros ?;
  rewrite ?elem_of_union, ?elem_of_singleton, ?elem_of_empty; tauto.

(** X2.  The dictionary of the bound [_build_search_params] has the
    keys ['count'], ['fields'], ['has_photo'], ['sort'], ['age_from'] and
    ['age_to'], ['sex'] when the requester's sex is 1 or 2, ['city'] when
    the lowercased city is a non-empty name of the table, and no other
    key; ['count'] is the configured count (100 by default),
    ['has_photo'] is 1 and ['sort'] is 0. *)
Theorem build_search_params_keys (user_info : UserInfo) :
  let sex := default 0 (ui_sex user_info) in
  let city := lower (default [] (ui_city user_info)) in
  dom (build user_info)
  = ({["count"; "fields"; "has_photo"; "sort"; "age_from"; "age_to"]}
     ∪ (if decide (sex = 1 \/ sex = 2) then {["sex"]} else ∅)
     ∪ (if decide (city <> [] /\ is_Some (assoc city CITIES))
        then {["city"]} else ∅) : gset string)
  /\ build user_info !! "count"
     = Some (PInt (config_get SEARCH_CONFIG "count" 100))
  /\ build user_info !! "fields" = Some (PStr (lit "bdate,city,photo_100,sex"))
  /\ build user_info !! "has_photo" = Some (PInt 1)
  /\ build user_info !! "sort" = Some (PInt 0).
Proof.
  intros sex city. split.
  - unfold _build_search_params. fold city.
    assert (Hage : dom (add_age SEARCH_CONFIG user_info
                          (add_sex user_info (base_params SEARCH_CONFIG)))
                   = ({["count"; "fields"; "has_photo"; "sort"; "age_from"; "age_to"]}
                      ∪ (if decide (sex = 1 \/ sex = 2) then {["sex"]} else ∅)
                      : gset string)).
    { unfold add_age, add_sex, base_params. fold sex.
      destruct (truthy_int (ui_age user_info));
        destruct (Z.eqb_spec sex 1) as [H1|H1];
        destruct (Z.eqb_spec sex 2) as [H2|H2];
        rewrite ?dom_insert_L, dom_empty_L;
        case_decide; try lia; solve_keys. }
    destruct city as [|c city'].
    + rewrite (decide_False (P := _ /\ _)) by (by intros [? _]).
      rewrite Hage. solve_keys.
    + destruct (assoc (c :: city') CITIES) as [cid|].
      * rewrite (decide_True (P := _ /\ _)) by (split; [done|by eexists]).
        rewrite dom_insert_L, Hage. solve_keys.
      * rewrite (decide_False (P := _ /\ _)) by (by intros [_ [? ?]]).
        rewrite Hage. solve_keys.
  - rewrite !bound_definition_lookup by done.
    rewrite !add_age_lookup, !add_sex_lookup by done.
    unfold base_params.
    by rewrite ?lookup_insert_eq, ?lookup_insert_ne, ?lookup_insert_eq by done.
Qed.

(** The ['sex'] key of the bound definition: 2 for a requester of sex 1,
    1 for a requester of sex 2, and none for any other or a missing sex. *)
Lemma build_search_params_sex (user_info : UserInfo) :
  build user_info !! "sex" =
    match ui_sex user_info with
    | Some 1 => Some (PInt 2)
    | Some 2 => Some (PInt 1)
    | _ => None
    end.
Proof.
  rewrite bound_definition_lookup, add_age_lookup by done.
  unfold add_sex.
  destruct (ui_sex user_info) as [sex|]; simpl.
  - destruct (Z.eqb_spec sex 1) as [->|H1]; [by rewrite lookup_insert_eq|].
    destruct (Z.eqb_spec sex 2) as [->|H2]; [by rewrite lookup_insert_eq|].
    rewrite base_lookup_other by done.
    destruct sex as [|[?|[?|?|]|]|]; try done; congruence.
  - by rewrite base_lookup_other.
Qed.

(** X3.  The choice of the sex to search for is mutual: when the
    parameters built for one requester ask for the sex of a second
    requester, the parameters built for the second ask for the sex of
    the first. *)
Theorem sex_targeting_mutual (one other : UserInfo) (sex_one sex_other : Z) :
  ui_sex one = Some sex_one -> ui_sex other = Some sex_other ->
  build one !! "sex" = Some (PInt sex_other) ->
  build other !! "sex" = Some (PInt sex_one).
Proof.
  intros Hone Hother. rewrite !build_search_params_sex, Hone, Hother.
  destruct sex_one as [|[?|[?|?|]|]|]; try done; intros [= <-]; done.
Qed.

Lemma build_search_params_age_band_exists (user_info : UserInfo) (age : Z) :
  ui_age user_info = Some age -> age <> 0 ->
  build user_info !! "age_from" = Some (PInt (Z.max 18 (age - age_range)))
  /\ build user_info !! "age_to" = Some (PInt (Z.min 80 (age + age_range))).
Proof.
  intros Hage Hne.
  rewrite !bound_definition_lookup by done.
  rewrite add_age_from, add_age_to, Hage. simpl.
  by destruct (Z.eqb_spec age 0).
Qed.

(** X4.  For a requester whose age lies between 18 and 80 and an
    [age_range] that is not negative, the age band contains the
    requester's own age; when neither end is clamped, it is
    [2 * age_range] wide. *)
Theorem age_band_around_age (user_info : UserInfo) (age : Z) :
  ui_age user_info = Some age -> 18 <= age <= 80 -> 0 <= age_range ->
  exists age_from age_to,
    build user_info !! "age_from" = Some (PInt age_from)
    /\ build user_info !! "age_to" = Some (PInt age_to)
    /\ age_from <= age <= age_to
    /\ (18 <= age - age_range -> age + age_range <= 80 ->
        age_to - age_from = 2 * age_range).
Proof.
  intros Hage Hrange Hpos.
  destruct (build_search_params_age_band_exists user_info age Hage)
    as (Hfrom & Hto); [lia|].
  eexists _, _. split; [exact Hfrom|]. split; [exact Hto|]. lia.
Qed.

End AgeAndParams.

Lemma calculate_age_in_range_witness :
  _calculate_age 2026 int_decimal (Some (lit "15.5.1995")) = Some 31%Z
  /\ (10 <= 31 <= 100)%Z.
Proof.
  split; [reflexivity|].
  exact (proj1 (calculate_age_in_range 2026 int_decimal
                  (Some (lit "15.5.1995")) 31%Z eq_refl)).
Defined.

Lemma age_band_around_age_witness :
  let user_info := Examples.requester (Some 25%Z) Examples.moskva in
  let build := _build_search_params ∅ Examples.CITIES lower_basic in
  ui_age user_info = Some 25%Z /\ (18 <= 25 <= 80)%Z
  /\ (0 <= config_get ∅ "age_range" 5)%Z
  /\ exists age_from age_to,
       build user_info !! "age_from" = Some (PInt age_from)
       /\ build user_info !! "age_to" = Some (PInt age_to)
       /\ (age_from <= 25 <= age_to)%Z
       /\ ((18 <= 25 - config_get ∅ "age_range" 5)%Z ->
           (25 + config_get ∅ "age_range" 5 <= 80)%Z ->
           (age_to - age_from = 2 * config_get ∅ "age_range" 5)%Z).
Proof.
  intros user_info build.
  assert (Hage : (18 <= 25 <= 80)%Z) by lia.
  assert (Hrange : (0 <= config_get ∅ "age_range" 5)%Z) by (by vm_compute).
  split; [reflexivity|]. split; [exact Hage|]. split; [exact Hrange|].
  exact (age_band_around_age ∅ Examples.CITIES lower_basic user_info 25%Z
           eq_refl Hage Hrange).
Defined.

(** ** Further properties of the candidate filter and [search_people] *)

Section Search.
Context (SEARCH_CONFIG : gmap string Z) (CITIES : list (pystr * Z))
        (current_year : Z) (lower : pystr -> pystr)
        (int : pystr -> option Z)
        (users_search : gmap string pyval -> SearchResponse)
        (shuffle : list Candidate -> list Candidate).

Hypothesis shuffle_permutes : forall l, shuffle l ≡ₚ l.

Local Abbreviation kept := (collect current_year int).
Local Abbreviation find :=
  (search_people SEARCH_CONFIG CITIES current_year lower int
                 users_search shuffle).

(** X5.  The candidate filter keeps the order of the search result and
    invents nothing: the ids of the candidates are a subsequence of the
    ids of the entries. *)
Theorem candidate_filter_order (items : list RawUser) :
  c_id <$> kept items [] `sublist_of` ru_id <$> items.
Proof.
  rewrite collect_filter, app_nil_l, <- list_fmap_compose.
  assert (c_id ∘ candidate_of current_year int <$>
            filter (fun user => skipped user = false) items
          = ru_id <$> filter (fun user => skipped user = false) items) as ->
    by (by apply list_fmap_ext).
  apply fmap_sublist, sublist_filter.
Qed.

(** What comes back is cut out of a reordering of the candidates the
    filter keeps. *)
Lemma search_people_submseteq (user_info : UserInfo) (items : list RawUser) :
  users_search (_build_search_params SEARCH_CONFIG CITIES lower user_info)
  = SearchItems items ->
  find user_info ⊆+ kept items [].
Proof.
  intros Hitems. unfold search_people. rewrite Hitems.
  rewrite slice_to_nonneg by lia.
  rewrite <- (shuffle_permutes (kept items [])) at 2. apply submseteq_take.
Qed.

(** X6.  [search_people] returns nothing when the search raises or
    answers without items.  Otherwise no candidate comes back more often
    than the filter keeps it, and when the filter keeps at most 50
    candidates, all of them come back, in some order. *)
Theorem search_people_complete (user_info : UserInfo) :
  match users_search (_build_search_params SEARCH_CONFIG CITIES lower user_info) with
  | SearchItems items =>
      find user_info ⊆+ kept items []
      /\ (length (kept items []) <= 50 -> find user_info ≡ₚ kept items [])
  | _ => find user_info = []
  end.
Proof.
  destruct (users_search _) as [| |items] eqn:Hitems;
    [by unfold search_people; rewrite Hitems..|].
  split; [by apply search_people_submseteq|].
  intros Hlen. unfold search_people. rewrite Hitems.
  rewrite slice_to_nonneg by lia.
  rewrite take_ge; [apply shuffle_permutes|].
  rewrite shuffle_permutes. simpl. lia.
Qed.

(** X7.  Every candidate [search_people] returns has either no age or
    an age between 10 and 100. *)
Theorem search_people_ages (user_info : UserInfo) (c : Candidate) (age : Z) :
  c ∈ find user_info -> c_age c = Some age -> (10 <= age <= 100)%Z.
Proof.
  intros Hc Hage.
  destruct (users_search (_build_search_params SEARCH_CONFIG CITIES lower user_info))
    as [| |items] eqn:Hitems;
    [by unfold search_people in Hc; rewrite Hitems in Hc;
        apply elem_of_nil in Hc..|].
  eapply elem_of_submseteq in Hc; [|by apply search_people_submseteq].
  rewrite collect_filter in Hc.
  apply list_elem_of_fmap in Hc as (user & -> & _).
  by apply (calculate_age_in_range_helper current_year int (ru_bdate user)).
Qed.

End Search.

Lemma search_people_complete_witness :
  let find :=
    search_people ∅ Examples.CITIES 2026 lower_basic int_decimal
      (fun _ => SearchItems [Examples.anna_deleted; Examples.anna]) reverse in
  let user_info := Examples.requester (Some 25%Z) Examples.moskva in
  (forall l : list Candidate, reverse l ≡ₚ l)
  /\ length (collect 2026 int_decimal [Examples.anna_deleted; Examples.anna] []) <= 50
  /\ find user_info
     ≡ₚ collect 2026 int_decimal [Examples.anna_deleted; Examples.anna] [].
Proof.
  intros find user_info.
  assert (Hlen : length (collect 2026 int_decimal
                           [Examples.anna_deleted; Examples.anna] []) <= 50)
    by (vm_compute; lia).
  split; [exact reverse_Permutation|]. split; [exact Hlen|].
  exact (proj2 (search_people_complete ∅ Examples.CITIES 2026 lower_basic int_decimal
                  (fun _ => SearchItems [Examples.anna_deleted; Examples.anna])
                  reverse reverse_Permutation user_info) Hlen).
Defined.

Lemma search_people_ages_witness :
  let find :=
    search_people ∅ Examples.CITIES 2026 lower_basic int_decimal
      (fun _ => SearchItems [Examples.anna_deleted; Examples.anna]) reverse in
  let user_info := Examples.requester (Some 25%Z) Examples.moskva in
  let c := candidate_of 2026 int_decimal Examples.anna in
  (forall l : list Candidate, reverse l ≡ₚ l)
  /\ c ∈ find user_info /\ c_age c = Some 31%Z /\ (10 <= 31 <= 100)%Z.
Proof.
  intros find user_info c.
  assert (Hc : c ∈ find user_info) by (by left).
  split; [exact reverse_Permutation|]. split; [exact Hc|].
  split; [reflexivity|].
  exact (search_people_ages ∅ Examples.CITIES 2026 lower_basic int_decimal
           (fun _ => SearchItems [Examples.anna_deleted; Examples.anna])
           reverse reverse_Permutation user_info c 31%Z Hc eq_refl).
Defined.

(** ** Further properties of [get_popular_photos] *)

Section SortedLists.
Context {A : Type} (key : A -> Z).

Local Open Scope Z_scope.

(** An element that is not below any element of a list is inserted in
    front of it. *)
Lemma insert_desc_front (x : A) (l : list A) :
  Forall (not_below key x) l -> insert_desc key x l = x :: l.
Proof.
  destruct l as [|y l]; [done|]. intros [Hy _]%Forall_cons. simpl.
  unfold not_below in Hy. by destruct (Z.ltb_spec (key x) (key y)); [lia|].
Qed.

(** Sorting a list that is in decreasing order of key changes nothing. *)
Lemma sort_desc_sorted (l : list A) :
  StronglySorted (not_below key) l -> sort_desc key l = l.
Proof.
  induction l as [|x l IH]; [done|].
  intros [Hl Hx]%StronglySorted_inv. simpl.
  rewrite (IH Hl). by apply insert_desc_front.
Qed.

Lemma filter_insert_desc (P : A -> Prop) `{!forall x, Decision (P x)}
      (x : A) (l : list A) :
  StronglySorted (not_below key) l ->
  filter P (insert_desc key x l)
  = if decide (P x) then insert_desc key x (filter P l) else filter P l.
Proof.
  induction l as [|y l IH]; intros Hl.
  - simpl. rewrite filter_cons, filter_nil. by case_decide.
  - apply StronglySorted_inv in Hl as [Hl Hy]. simpl.
    destruct (Z.ltb_spec (key x) (key y)) as [Hlt|Hge].
    + rewrite !(filter_cons _ y), (IH Hl).
      destruct (decide (P x)), (decide (P y)); try done.
      simpl. by destruct (Z.ltb_spec (key x) (key y)); [|lia].
    + rewrite (filter_cons _ x). destruct (decide (P x)); [|done].
      symmetry. apply insert_desc_front.
      apply Forall_forall. intros z [_ Hz]%list_elem_of_filter.
      unfold not_below. apply elem_of_cons in Hz as [->|Hz]; [done|].
      eapply Forall_forall in Hy; [|exact Hz]. unfold not_below in Hy. lia.
Qed.

(** Selecting and sorting can be done in either order. *)
Lemma filter_sort_desc (P : A -> Prop) `{!forall x, Decision (P x)} (l : list A) :
  filter P (sort_desc key l) = sort_desc key (filter P l).
Proof.
  induction l as [|x l IH]; [done|]. simpl.
  rewrite filter_insert_desc by apply sort_desc_StronglySorted.
  rewrite filter_cons, IH. by case_decide.
Qed.

End SortedLists.

Lemma filter_all {A} (P : A -> Prop) `{!forall x, Decision (P x)} (l : list A) :
  Forall P l -> filter P l = l.
Proof.
  induction l as [|x l IH]; [done|]. intros [Hx Hl]%Forall_cons.
  by rewrite filter_cons_True, IH.
Qed.

Section Popular.
Context (SEARCH_CONFIG : gmap string Z) (photos_get : Z -> PhotosResponse).

Local Open Scope Z_scope.
Local Abbreviation rank := (rank_photos SEARCH_CONFIG).
Local Abbreviation min_likes := (config_get SEARCH_CONFIG "min_photo_likes" 1).
Local Abbreviation max_photos := (config_get SEARCH_CONFIG "max_photos" 3).
Local Abbreviation popular := (fun x : Photo => min_likes <= default 0 (likes x)).

(** X8.  [get_popular_photos] returns nothing when [photos.get] raises
    (with whatever code) or answers without items; otherwise it returns
    photos of the answer only, none more often than the answer has it. *)
Theorem get_popular_photos_from_answer (user_id : Z) :
  match photos_get user_id with
  | PhotosItems photos =>
      get_popular_photos SEARCH_CONFIG photos_get user_id ⊆+ photos
  | _ => get_popular_photos SEARCH_CONFIG photos_get user_id = []
  end.
Proof.
  unfold get_popular_photos. destruct (photos_get user_id) as [| |photos]; try done.
  rewrite <- (sort_desc_Permutation score photos) at 2.
  apply sublist_submseteq, rank_photos_sublist.
Qed.

(** With three or more photos at the threshold, the filtered list is
    the one that is cut. *)
Lemma rank_photos_many (photos : list Photo) :
  (3 <= length (filter popular photos))%nat ->
  rank photos = slice_to (sort_desc score (filter popular photos)) max_photos.
Proof.
  intros Hmany. unfold rank_photos. rewrite filter_sort_desc.
  rewrite (sort_desc_Permutation score (filter popular photos)) at 1.
  by destruct (Nat.ltb_spec (length (filter popular photos)) 3); [lia|].
Qed.

Lemma slice_sorted_popular (photos : list Photo) (n : Z) :
  Forall popular (slice_to (sort_desc score (filter popular photos)) n).
Proof.
  apply Forall_forall. intros x Hx.
  eapply elem_of_sublist in Hx; [|apply slice_to_sublist].
  rewrite sort_desc_Permutation in Hx.
  by apply list_elem_of_filter in Hx as [? _].
Qed.

(** X9.  When at least three photos reach [min_photo_likes], the photos
    returned are the first [max_photos] of those photos sorted by score,
    and every one of them reaches [min_photo_likes]. *)
Theorem rank_photos_popular (photos : list Photo) :
  (3 <= length (filter popular photos))%nat ->
  rank photos = slice_to (sort_desc score (filter popular photos)) max_photos
  /\ Forall popular (rank photos).
Proof.
  intros Hmany. split; [by apply rank_photos_many|].
  rewrite rank_photos_many by done. apply slice_sorted_popular.
Qed.

(** X10.  With a [max_photos] that is not negative, ranking photos that
    are already ranked changes nothing. *)
Theorem rank_photos_idempotent (photos : list Photo) :
  0 <= max_photos -> rank (rank photos) = rank photos.
Proof.
  intros Hmax.
  assert (Hsorted : sort_desc score (rank photos) = rank photos).
  { apply sort_desc_sorted. eapply StronglySorted_sublist;
      [apply rank_photos_sublist|apply sort_desc_StronglySorted]. }
  assert (Hcut : slice_to (rank photos) max_photos = rank photos).
  { unfold rank_photos at 1 2. rewrite !slice_to_nonneg by done.
    apply take_idemp. }
  unfold rank_photos at 1. rewrite Hsorted.
  destruct (Nat.ltb_spec (length (filter popular (rank photos))) 3) as [Hfew|Hmany].
  - simpl. destruct (decide (rank photos = [])) as [Hnil|Hne].
    + rewrite bool_decide_eq_true_2 by done. simpl.
      rewrite Hnil in Hcut |- *. by rewrite filter_nil.
    + by rewrite bool_decide_eq_false_2 by done.
  - simpl.
    assert (Hall : Forall popular (rank photos)).
    { destruct (Nat.ltb_spec (length (filter popular photos)) 3) as [Hlt|Hge];
        [|rewrite rank_photos_many by done; apply slice_sorted_popular].
      assert (length (filter popular (rank photos))
              <= length (filter popular photos))%nat; [|lia].
      rewrite <- (sort_desc_Permutation score photos) at 2.
      apply sublist_length, filter_sublist_mono, rank_photos_sublist. }
    by rewrite (filter_all _ _ Hall).
Qed.

End Popular.


Lemma rank_photos_popular_witness :
  (3 <= length (filter (fun x => (config_get ∅ "min_photo_likes" 1
                                   <= default 0 (likes x))%Z)
                       Examples.liked_photos))
  /\ photo_id <$> rank_photos ∅ Examples.liked_photos = [2; 5; 1]%Z
  /\ Forall (fun x => (config_get ∅ "min_photo_likes" 1 <= default 0 (likes x))%Z)
            (rank_photos ∅ Examples.liked_photos).
Proof.
  assert (Hmany : 3 <= length (filter (fun x => (config_get ∅ "min_photo_likes" 1
                                   <= default 0 (likes x))%Z)
                       Examples.liked_photos)) by (vm_compute; lia).
  split; [exact Hmany|]. split; [reflexivity|].
  exact (proj2 (rank_photos_popular ∅ Examples.liked_photos Hmany)).
Defined.

Lemma rank_photos_idempotent_witness :
  (0 <= config_get ∅ "max_photos" 3)%Z
  /\ rank_photos ∅ (rank_photos ∅ Examples.liked_photos)
     = rank_photos ∅ Examples.liked_photos.
Proof.
  assert (Hmax : (0 <= config_get ∅ "max_photos" 3)%Z) by (by vm_compute).
  split; [exact Hmax|].
  exact (rank_photos_idempotent ∅ Examples.liked_photos Hmax).
Defined.

(** * Further properties of [Database] *)

Section Pairs.
Context {R : Type} (user candidate : R -> Z).

Local Open Scope Z_scope.
Local Abbreviation of_pair u c :=
  (filter (fun r => user r = u /\ candidate r = c)).
Local Abbreviation has_pair u c :=
  (existsb (fun r => (user r =? u) && (candidate r =? c))).

(** [fetchone() is not None] on the rows of a pair. *)
Lemma head_pair_existsb (rows : list R) (u c : Z) :
  bool_decide (head (of_pair u c rows) <> None) = has_pair u c rows.
Proof.
  induction rows as [|r rows IH]; [done|]. simpl.
  destruct ((user r =? u) && (candidate r =? c)) eqn:Hpair.
  - apply andb_true_iff in Hpair as [Hu%Z.eqb_eq Hc%Z.eqb_eq].
    rewrite filter_cons_True by done. by apply bool_decide_eq_true_2.
  - rewrite filter_cons_False; [done|].
    apply andb_false_iff in Hpair. lia.
Qed.

Lemma existsb_pair_elem (rows : list R) (u c : Z) :
  has_pair u c rows = true
  <-> c ∈ candidate <$> filter (fun r => user r = u) rows.
Proof.
  rewrite existsb_exists, list_elem_of_fmap. split.
  - intros (r & Hr%list_elem_of_In & [Hu%Z.eqb_eq Hc%Z.eqb_eq]%andb_true_iff).
    exists r. split; [done|]. by apply list_elem_of_filter.
  - intros (r & -> & [Hu Hr]%list_elem_of_filter).
    exists r. split; [by apply list_elem_of_In|].
    apply andb_true_iff. by rewrite !Z.eqb_eq.
Qed.

Lemma existsb_pair_iff (rows : list R) (u c : Z) :
  has_pair u c rows = true
  <-> exists r, r ∈ rows /\ user r = u /\ candidate r = c.
Proof.
  rewrite existsb_exists. split.
  - intros (r & Hr%list_elem_of_In & [Hu%Z.eqb_eq Hc%Z.eqb_eq]%andb_true_iff).
    by exists r.
  - intros (r & Hr & Hu & Hc). exists r. split; [by apply list_elem_of_In|].
    apply andb_true_iff. by rewrite !Z.eqb_eq.
Qed.

Lemma existsb_pair_remove (rows : list R) (u c u' c' : Z) :
  has_pair u' c' (filter (fun r => ~ (user r = u /\ candidate r = c)) rows)
  = if decide (u' = u /\ c' = c) then false else has_pair u' c' rows.
Proof.
  apply eq_true_iff_eq. rewrite existsb_pair_iff. split.
  - intros (r & [Hkeep Hr]%list_elem_of_filter & Hu & Hc).
    rewrite decide_False by (subst; tauto).
    apply existsb_pair_iff. by exists r.
  - case_decide as Hsame; [done|].
    intros (r & Hr & Hu & Hc)%existsb_pair_iff. exists r.
    split; [|done]. apply list_elem_of_filter. split; [subst; tauto|done].
Qed.

Lemma existsb_pair_snoc_other (rows : list R) (r : R) (u c : Z) :
  ~ (user r = u /\ candidate r = c) ->
  has_pair u c (rows ++ [r]) = has_pair u c rows.
Proof.
  intros Hne. rewrite existsb_app. simpl. rewrite orb_false_r.
  destruct (Z.eqb_spec (user r) u), (Z.eqb_spec (candidate r) c);
    simpl; rewrite ?orb_false_r; try done. tauto.
Qed.

End Pairs.

(** When the insert into [favorites] goes through. *)
Lemma insert_favorite_Done now st user_id candidate_id (first_name last_name : pystr) :
  sendable first_name = true -> sendable last_name = true ->
  bigint user_id = true -> bigint candidate_id = true ->
  user_exists st user_id = true ->
  favorite_exists st user_id candidate_id = false ->
  forall fn ln, varchar 100 first_name = Some fn -> varchar 100 last_name = Some ln ->
  add_to_favorites now st user_id candidate_id first_name last_name
  = (Returns true,
     {| users := users st;
        favorites := favorites st ++
          [{| f_user_id := user_id; f_candidate_id := candidate_id;
              f_first_name := fn; f_last_name := ln;
              f_created_at := now |}];
        blacklist := blacklist st;
        viewed_profiles := viewed_profiles st |}).
Proof.
  intros Hsfn Hsln Hu Hc Huser Hnew fn ln Hfn Hln.
  unfold add_to_favorites, insert_favorite.
  by rewrite Hsfn, Hsln, Hfn, Hln, Hu, Hc, Hnew, Huser.
Qed.

(** When the statement is sent and fails. *)
Lemma insert_favorite_Raise now st user_id candidate_id (first_name last_name : pystr) :
  sendable first_name = true -> sendable last_name = true ->
  ~ (bigint user_id = true /\ bigint candidate_id = true
     /\ is_Some (varchar 100 first_name) /\ is_Some (varchar 100 last_name)
     /\ user_exists st user_id = true
     /\ favorite_exists st user_id candidate_id = false) ->
  add_to_favorites now st user_id candidate_id first_name last_name
  = (Returns false, st).
Proof.
  intros Hsfn Hsln Hno. unfold add_to_favorites, insert_favorite.
  rewrite Hsfn, Hsln. cbn [andb negb].
  destruct (varchar 100 first_name) as [fn|] eqn:Hfn; [|done].
  destruct (varchar 100 last_name) as [ln|] eqn:Hln; [|done].
  destruct (bigint user_id) eqn:Hu; [|done].
  destruct (bigint candidate_id) eqn:Hc; [|done]. simpl.
  destruct (favorite_exists st user_id candidate_id) eqn:Hnew; [done|].
  destruct (user_exists st user_id) eqn:Huser; [|done].
  destruct Hno. by repeat split.
Qed.

(** When a name cannot be sent. *)
Lemma insert_favorite_Unsendable now st user_id candidate_id
      (first_name last_name : pystr) :
  sendable first_name = false \/ sendable last_name = false ->
  add_to_favorites now st user_id candidate_id first_name last_name
  = (RaisesValueError, st).
Proof.
  intros Hno. unfold add_to_favorites, insert_favorite.
  by destruct Hno as [-> | ->]; rewrite ?andb_false_r.
Qed.

Section Favorites.
Context (now : Z) (st : Store) (user_id candidate_id : Z).

Local Open Scope Z_scope.

Lemma is_in_favorites_exists :
  is_in_favorites st user_id candidate_id = favorite_exists st user_id candidate_id.
Proof. apply (head_pair_existsb f_user_id f_candidate_id). Qed.

Lemma is_in_blacklist_exists :
  is_in_blacklist st user_id candidate_id = blacklist_exists st user_id candidate_id.
Proof. apply (head_pair_existsb b_user_id b_candidate_id). Qed.

(** X11.  [add_to_favorites] returns [True] exactly when both names
    can be sent, both ids fit [BIGINT], both names fit [VARCHAR(100)],
    the user has a row in [users] and the candidate is not yet a
    favorite of the user.  It raises [ValueError] exactly when a name
    cannot be sent, and returns [False] otherwise.  Unless it returns
    [True] the store is as before; when it does, the candidate is a
    favorite ([is_in_favorites]) and [get_favorites] has an entry for it
    with the names as stored and the time of the call. *)
Theorem add_to_favorites_outcome (first_name last_name : pystr) :
  let result :=
    add_to_favorites now st user_id candidate_id first_name last_name in
  (result.1 = Returns true <->
     sendable first_name = true /\ sendable last_name = true
     /\ bigint user_id = true /\ bigint candidate_id = true
     /\ is_Some (varchar 100 first_name) /\ is_Some (varchar 100 last_name)
     /\ user_exists st user_id = true
     /\ is_in_favorites st user_id candidate_id = false)
  /\ (result.1 = RaisesValueError <->
      sendable first_name = false \/ sendable last_name = false)
  /\ (result.1 <> Returns true -> result.2 = st)
  /\ (result.1 = Returns true ->
      is_in_favorites result.2 user_id candidate_id = true
      /\ exists fn ln,
           varchar 100 first_name = Some fn /\ varchar 100 last_name = Some ln
           /\ {| fd_candidate_id := candidate_id; fd_first_name := fn;
                 fd_last_name := ln; fd_created_at := now |}
              ∈ get_favorites result.2 user_id).
Proof.
  intros result. rewrite is_in_favorites_exists.
  destruct (sendable first_name) eqn:Hsfn;
    [destruct (sendable last_name) eqn:Hsln|].
  - destruct (decide (bigint user_id = true /\ bigint candidate_id = true
       /\ is_Some (varchar 100 first_name) /\ is_Some (varchar 100 last_name)
       /\ user_exists st user_id = true
       /\ favorite_exists st user_id candidate_id = false))
      as [(Hu & Hc & [fn Hfn] & [ln Hln] & Huser & Hnew)|Hno].
    + unfold result.
      rewrite (insert_favorite_Done now st _ _ _ _ Hsfn Hsln Hu Hc Huser Hnew
                 fn ln Hfn Hln).
      cbn [fst snd]. split; [|split; [|split; [done|]]].
      { split; [|done]. intros _. repeat split; try done; by eexists. }
      { split; [done|]. by intros [|]. }
      intros _. split.
      * unfold is_in_favorites.
        rewrite (head_pair_existsb f_user_id f_candidate_id). cbn [favorites].
        by apply (existsb_pair_snoc f_user_id f_candidate_id).
      * exists fn, ln. split; [done|]. split; [done|].
        unfold get_favorites. cbn [favorites]. apply list_elem_of_fmap.
        eexists {| f_user_id := user_id; f_candidate_id := candidate_id;
                   f_first_name := fn; f_last_name := ln; f_created_at := now |}.
        split; [done|]. rewrite sort_desc_Permutation.
        apply list_elem_of_filter. split; [done|].
        apply elem_of_app. right. by left.
    + unfold result. rewrite (insert_favorite_Raise now st _ _ _ _ Hsfn Hsln Hno).
      cbn [fst snd]. split; [|split; [|split; [done|done]]].
      * split; [done|]. tauto.
      * split; [done|]. by intros [|].
  - unfold result.
    rewrite (insert_favorite_Unsendable now st _ _ first_name last_name)
      by (by right).
    cbn [fst snd]. split; [|split; [|split; [done|done]]].
    + split; [done|]. by intros (_ & ? & _).
    + split; [by right|done].
  - unfold result.
    rewrite (insert_favorite_Unsendable now st _ _ first_name last_name)
      by (by left).
    cbn [fst snd]. split; [|split; [|split; [done|done]]].
    + split; [done|]. by intros (? & _).
    + split; [by left|done].
Qed.

(** X12.  [remove_from_favorites] returns [True] when the statement is
    executed, also for a pair that was no favorite, and [False] when
    the connection is lost.  When it returns [False] the store is as
    before.  When it returns [True] the candidate is no favorite of the
    user; whether any other pair is a favorite is as before, and when
    the pair was no favorite the store is as before. *)
Theorem remove_from_favorites_outcome (lost : bool) :
  let result := remove_from_favorites lost st user_id candidate_id in
  result.1 = negb lost
  /\ (result.1 = false -> result.2 = st)
  /\ (result.1 = true ->
      is_in_favorites result.2 user_id candidate_id = false
      /\ (forall u c, ~ (u = user_id /\ c = candidate_id) ->
            is_in_favorites result.2 u c = is_in_favorites st u c)
      /\ (is_in_favorites st user_id candidate_id = false -> result.2 = st)).
Proof.
  intros result. unfold result, remove_from_favorites.
  destruct lost; cbn [fst snd negb]; [by repeat split|].
  split; [done|]. split; [done|]. intros _.
  unfold is_in_favorites. cbn [favorites].
  rewrite !(head_pair_existsb f_user_id f_candidate_id).
  split; [|split].
  - rewrite (existsb_pair_remove f_user_id f_candidate_id).
    by rewrite decide_True.
  - intros u c Hne. rewrite !(head_pair_existsb f_user_id f_candidate_id).
    rewrite (existsb_pair_remove f_user_id f_candidate_id).
    by rewrite decide_False.
  - intros Hnot. destruct st as [us fs bs vs]. cbn [favorites] in *. f_equal.
    apply filter_all, Forall_forall. intros r Hr [Hu Hc].
    assert (existsb (fun r => (f_user_id r =? user_id)
                              && (f_candidate_id r =? candidate_id)) fs = true)
      as Hex; [|congruence].
    apply (existsb_pair_iff f_user_id f_candidate_id). by exists r.
Qed.

(** X13.  A favorite that was removed can be added again: after a
    [remove_from_favorites] that returned [True], [add_to_favorites]
    with the same pair returns [True] for a user that has a row in
    [users], ids that fit [BIGINT] and names that can be sent and fit
    [VARCHAR(100)]. *)
Theorem add_to_favorites_after_remove (lost : bool) (first_name last_name : pystr) :
  let removed := remove_from_favorites lost st user_id candidate_id in
  removed.1 = true ->
  sendable first_name = true -> sendable last_name = true ->
  bigint user_id = true -> bigint candidate_id = true ->
  is_Some (varchar 100 first_name) -> is_Some (varchar 100 last_name) ->
  user_exists st user_id = true ->
  (add_to_favorites now removed.2 user_id candidate_id first_name last_name).1
  = Returns true.
Proof.
  intros removed Hremoved Hsfn Hsln Hu Hc [fn Hfn] [ln Hln] Huser.
  unfold removed in *. unfold remove_from_favorites in *.
  destruct lost; [done|]. cbn [snd].
  erewrite insert_favorite_Done; try done.
  unfold favorite_exists. cbn [favorites].
  rewrite (existsb_pair_remove f_user_id f_candidate_id).
  by rewrite decide_True.
Qed.

(** X14.  [clear_favorites] returns [True] when the statement is
    executed and [False] when the connection is lost.  When it returns
    [False] the store is as before; when it returns [True] the user has
    no favorites, and the favorites of every other user are as
    before. *)
Theorem clear_favorites_outcome (lost : bool) :
  let result := clear_favorites lost st user_id in
  result.1 = negb lost
  /\ (result.1 = false -> result.2 = st)
  /\ (result.1 = true ->
      get_favorites result.2 user_id = []
      /\ favorites_count (get_user_stats result.2 user_id) = 0
      /\ (forall u, u <> user_id ->
            get_favorites result.2 u = get_favorites st u)).
Proof.
  intros result. unfold result, clear_favorites.
  destruct lost; cbn [fst snd negb]; [by repeat split|].
  split; [done|]. split; [done|]. intros _.
  unfold get_favorites, get_user_stats.
  cbn [favorites favorites_count].
  assert (Hnone : filter (fun r => f_user_id r = user_id)
                    (filter (fun r => f_user_id r <> user_id) (favorites st)) = []).
  { apply filter_none. by intros r [? _]%list_elem_of_filter. }
  rewrite Hnone. split; [done|]. split; [done|].
  intros u Hu. do 2 f_equal. rewrite list_filter_filter.
  apply list_filter_iff. intros r. split; [tauto|]. intros <-. done.
Qed.

End Favorites.

Lemma add_to_favorites_outcome_witness :
  let result := add_to_favorites 2 Examples.store_with_user 12345 67890 [] [] in
  (sendable [] = true /\ sendable [] = true
   /\ bigint 12345 = true /\ bigint 67890 = true
   /\ is_Some (varchar 100 []) /\ is_Some (varchar 100 [])
   /\ user_exists Examples.store_with_user 12345 = true
   /\ is_in_favorites Examples.store_with_user 12345 67890 = false)
  /\ result.1 = Returns true
  /\ is_in_favorites result.2 12345 67890 = true
  /\ (add_to_favorites 3 result.2 12345 67890 [] []).1 = Returns false
  /\ (add_to_favorites 3 result.2 12345 67890 [] []).2 = result.2
  /\ (add_to_favorites 3 result.2 12345 1 [0%N] []).1 = RaisesValueError.
Proof.
  intros result.
  assert (Hname : is_Some (varchar 100 [])) by (by exists []).
  assert (Hpre : sendable [] = true /\ sendable [] = true
    /\ bigint 12345 = true /\ bigint 67890 = true
    /\ is_Some (varchar 100 []) /\ is_Some (varchar 100 [])
    /\ user_exists Examples.store_with_user 12345 = true
    /\ is_in_favorites Examples.store_with_user 12345 67890 = false)
    by (by repeat split).
  destruct (add_to_favorites_outcome 2 Examples.store_with_user 12345 67890 [] [])
    as (Hiff & _ & _ & Hthen).
  destruct (add_to_favorites_outcome 3 result.2 12345 67890 [] [])
    as (_ & _ & Hsame & _).
  destruct (add_to_favorites_outcome 3 result.2 12345 1 [0%N] [])
    as (_ & Hraises & _ & _).
  split; [exact Hpre|]. split; [exact (proj2 Hiff Hpre)|].
  split; [exact (proj1 (Hthen (proj2 Hiff Hpre)))|].
  split; [reflexivity|]. split; [apply Hsame; discriminate|].
  exact (proj2 Hraises (or_introl eq_refl)).
Defined.

Lemma remove_from_favorites_outcome_witness :
  let st := (add_to_favorites 2 Examples.store_with_user 12345 67890 [] []).2 in
  let result := remove_from_favorites false st 12345 67890 in
  let failed := remove_from_favorites true st 12345 67890 in
  result.1 = true
  /\ is_in_favorites st 12345 67890 = true
  /\ is_in_favorites result.2 12345 67890 = false
  /\ failed.1 = false
  /\ failed.2 = st.
Proof.
  intros st result failed.
  destruct (remove_from_favorites_outcome st 12345 67890 false)
    as (Hreturns & _ & Hgone).
  destruct (remove_from_favorites_outcome st 12345 67890 true)
    as (Hfails & Hsame & _).
  split; [exact Hreturns|]. split; [reflexivity|].
  split; [exact (proj1 (Hgone Hreturns))|].
  split; [exact Hfails|exact (Hsame Hfails)].
Defined.

Lemma add_to_favorites_after_remove_witness :
  let st := (add_to_favorites 2 Examples.store_with_user 12345 67890 [] []).2 in
  let removed := remove_from_favorites false st 12345 67890 in
  removed.1 = true
  /\ sendable [] = true
  /\ bigint 12345 = true /\ bigint 67890 = true /\ is_Some (varchar 100 [])
  /\ user_exists st 12345 = true
  /\ (add_to_favorites 4 removed.2 12345 67890 [] []).1 = Returns true.
Proof.
  intros st removed.
  assert (Hname : is_Some (varchar 100 [])) by (by exists []).
  split; [reflexivity|]. split; [reflexivity|].
  split; [reflexivity|]. split; [reflexivity|]. split; [exact Hname|].
  split; [reflexivity|].
  exact (add_to_favorites_after_remove 4 st 12345 67890 false [] []
           eq_refl eq_refl eq_refl eq_refl eq_refl Hname Hname eq_refl).
Defined.

Lemma clear_favorites_outcome_witness :
  let st := (add_to_favorites 2 Examples.store_with_user 12345 67890 [] []).2 in
  (clear_favorites false st 12345).1 = true
  /\ (clear_favorites false st 1).1 = true
  /\ (12345 <> 1)%Z
  /\ get_favorites (clear_favorites false st 12345).2 12345 = []
  /\ get_favorites (clear_favorites false st 1).2 12345 = get_favorites st 12345
  /\ (clear_favorites true st 12345).1 = false
  /\ (clear_favorites true st 12345).2 = st.
Proof.
  intros st.
  assert (Hne : (12345 <> 1)%Z) by lia.
  destruct (clear_favorites_outcome st 12345 false) as (Hreturns & _ & Hnone).
  destruct (clear_favorites_outcome st 1 false) as (Hreturns' & _ & Hother).
  destruct (clear_favorites_outcome st 12345 true) as (Hfails & Hsame & _).
  split; [exact Hreturns|]. split; [exact Hreturns'|]. split; [exact Hne|].
  split; [exact (proj1 (Hnone Hreturns))|].
  split; [exact (proj2 (proj2 (Hother Hreturns')) 12345%Z Hne)|].
  split; [exact Hfails|exact (Hsame Hfails)].
Defined.

Lemma blacklist_insert_Done now st user_id candidate_id :
  bigint user_id = true -> bigint candidate_id = true ->
  blacklist_exists st user_id candidate_id = false ->
  user_exists st user_id = true ->
  add_to_blacklist now st user_id candidate_id
  = (true, {| users := users st; favorites := favorites st;
              blacklist := blacklist st ++
                [{| b_user_id := user_id; b_candidate_id := candidate_id;
                    b_created_at := now |}];
              viewed_profiles := viewed_profiles st |}).
Proof.
  intros Hu Hc Hnew Huser. unfold add_to_blacklist, insert_blacklist.
  by rewrite Hu, Hc, Hnew, Huser.
Qed.

Lemma viewed_insert_Done now st user_id candidate_id :
  bigint user_id = true -> bigint candidate_id = true ->
  viewed_exists st user_id candidate_id = false ->
  user_exists st user_id = true ->
  add_to_viewed now st user_id candidate_id
  = (true, {| users := users st; favorites := favorites st;
              blacklist := blacklist st;
              viewed_profiles := viewed_profiles st ++
                [{| v_user_id := user_id; v_candidate_id := candidate_id;
                    v_viewed_at := now |}] |}).
Proof.
  intros Hu Hc Hnew Huser. unfold add_to_viewed, insert_viewed.
  by rewrite Hu, Hc, Hnew, Huser.
Qed.

Lemma blacklist_insert_same now st user_id candidate_id :
  bigint user_id = true -> bigint candidate_id = true ->
  blacklist_exists st user_id candidate_id = true ->
  add_to_blacklist now st user_id candidate_id = (true, st).
Proof.
  intros Hu Hc Hex. unfold add_to_blacklist, insert_blacklist.
  by rewrite Hu, Hc, Hex.
Qed.

Lemma blacklist_insert_Raise now st user_id candidate_id :
  ~ (bigint user_id = true /\ bigint candidate_id = true
     /\ (blacklist_exists st user_id candidate_id = true
         \/ user_exists st user_id = true)) ->
  add_to_blacklist now st user_id candidate_id = (false, st).
Proof.
  intros Hno. unfold add_to_blacklist, insert_blacklist.
  destruct (bigint user_id) eqn:Hu; [|done].
  destruct (bigint candidate_id) eqn:Hc; [|done]. simpl.
  destruct (blacklist_exists st user_id candidate_id) eqn:Hex; [tauto|].
  destruct (user_exists st user_id) eqn:Huser; [tauto|done].
Qed.

Lemma viewed_insert_same now st user_id candidate_id :
  bigint user_id = true -> bigint candidate_id = true ->
  viewed_exists st user_id candidate_id = true ->
  add_to_viewed now st user_id candidate_id = (true, st).
Proof.
  intros Hu Hc Hex. unfold add_to_viewed, insert_viewed.
  by rewrite Hu, Hc, Hex.
Qed.

Lemma viewed_insert_Raise now st user_id candidate_id :
  ~ (bigint user_id = true /\ bigint candidate_id = true
     /\ (viewed_exists st user_id candidate_id = true
         \/ user_exists st user_id = true)) ->
  add_to_viewed now st user_id candidate_id = (false, st).
Proof.
  intros Hno. unfold add_to_viewed, insert_viewed.
  destruct (bigint user_id) eqn:Hu; [|done].
  destruct (bigint candidate_id) eqn:Hc; [|done]. simpl.
  destruct (viewed_exists st user_id candidate_id) eqn:Hex; [tauto|].
  destruct (user_exists st user_id) eqn:Huser; [tauto|done].
Qed.

Section Marks.
Context (now : Z) (st : Store) (user_id candidate_id : Z).

Local Open Scope Z_scope.

(** X15.  [add_to_blacklist] returns [True] exactly when both ids fit
    [BIGINT] and the pair is already there or the user has a row in
    [users].  When it returns [False], or the pair was already there,
    the store is as before.  When it returns [True] the candidate is in
    the blacklist of the user, and whether any other pair is
    blacklisted is as before. *)
Theorem add_to_blacklist_outcome :
  let result := add_to_blacklist now st user_id candidate_id in
  (result.1 = true <->
     bigint user_id = true /\ bigint candidate_id = true
     /\ (is_in_blacklist st user_id candidate_id = true
         \/ user_exists st user_id = true))
  /\ (result.1 = false \/ is_in_blacklist st user_id candidate_id = true ->
      result.2 = st)
  /\ (result.1 = true -> is_in_blacklist result.2 user_id candidate_id = true)
  /\ (forall u c, ~ (u = user_id /\ c = candidate_id) ->
        is_in_blacklist result.2 u c = is_in_blacklist st u c).
Proof.
  intros result.
  assert (Hin : forall st' u c,
            is_in_blacklist st' u c = blacklist_exists st' u c)
    by (intros; apply (head_pair_existsb b_user_id b_candidate_id)).
  rewrite !Hin. unfold result.
  destruct (decide (bigint user_id = true /\ bigint candidate_id = true
     /\ (blacklist_exists st user_id candidate_id = true
         \/ user_exists st user_id = true))) as [(Hu & Hc & Hok)|Hno].
  - destruct (blacklist_exists st user_id candidate_id) eqn:Hex.
    + rewrite (blacklist_insert_same _ _ _ _ Hu Hc Hex). cbn [fst snd].
      split; [tauto|]. split; [done|]. split; [by rewrite ?Hin|].
      intros u c _. by rewrite ?Hin.
    + destruct Hok as [?|Huser]; [done|].
      rewrite (blacklist_insert_Done _ _ _ _ Hu Hc Hex Huser). cbn [fst snd].
      split; [tauto|]. split; [by intros [?|?]|]. split.
      * intros _. rewrite ?Hin. unfold blacklist_exists. cbn [blacklist].
        by apply (existsb_pair_snoc b_user_id b_candidate_id).
      * intros u c Hne. rewrite ?Hin. unfold blacklist_exists. cbn [blacklist].
        apply (existsb_pair_snoc_other b_user_id b_candidate_id). simpl.
        intros [<- <-]. by apply Hne.
  - rewrite (blacklist_insert_Raise _ _ _ _ Hno). cbn [fst snd].
    split; [split; [discriminate|tauto]|]. split; [done|].
    split; [discriminate|]. intros u c _. by rewrite ?Hin.
Qed.

(** X16.  [add_to_viewed] behaves like [add_to_blacklist] on the table
    [viewed_profiles]: it returns [True] exactly when both ids fit
    [BIGINT] and the pair is already there or the user has a row in
    [users]; a pair that is already there leaves the store as it is, and
    after [True] the candidate is among the viewed profiles of the
    user, exactly once when the keys of the store are unique. *)
Theorem add_to_viewed_outcome :
  let result := add_to_viewed now st user_id candidate_id in
  (result.1 = true <->
     bigint user_id = true /\ bigint candidate_id = true
     /\ (viewed_exists st user_id candidate_id = true
         \/ user_exists st user_id = true))
  /\ (result.1 = false \/ viewed_exists st user_id candidate_id = true ->
      result.2 = st)
  /\ (result.1 = true -> candidate_id ∈ get_viewed_profiles result.2 user_id)
  /\ (result.1 = true ->
      NoDup ((fun r => (v_user_id r, v_candidate_id r)) <$> viewed_profiles st) ->
      length (filter (fun id => id = candidate_id)
                     (get_viewed_profiles result.2 user_id)) = 1%nat).
Proof.
  intros result. unfold result, get_viewed_profiles.
  destruct (decide (bigint user_id = true /\ bigint candidate_id = true
     /\ (viewed_exists st user_id candidate_id = true
         \/ user_exists st user_id = true))) as [(Hu & Hc & Hok)|Hno].
  - destruct (viewed_exists st user_id candidate_id) eqn:Hex.
    + rewrite (viewed_insert_same _ _ _ _ Hu Hc Hex). cbn [fst snd].
      split; [tauto|]. split; [done|]. split.
      * intros _. by apply (existsb_pair_elem v_user_id v_candidate_id).
      * intros _ Hunique. rewrite (count_candidate v_user_id v_candidate_id).
        by apply existsb_pair_true.
    + destruct Hok as [?|Huser]; [done|].
      rewrite (viewed_insert_Done _ _ _ _ Hu Hc Hex Huser).
      cbn [fst snd viewed_profiles].
      split; [tauto|]. split; [by intros [?|?]|]. split.
      * intros _. apply (existsb_pair_elem v_user_id v_candidate_id).
        by apply (existsb_pair_snoc v_user_id v_candidate_id).
      * intros _ _. rewrite (count_candidate v_user_id v_candidate_id).
        rewrite filter_app, length_app.
        rewrite (existsb_pair_false v_user_id v_candidate_id _ _ _ Hex).
        by rewrite filter_cons_True by done.
  - rewrite (viewed_insert_Raise _ _ _ _ Hno). cbn [fst snd].
    split; [split; [discriminate|tauto]|]. split; [done|].
    split; discriminate.
Qed.

(** X17.  The two ways of asking agree: [is_in_blacklist] holds exactly
    for the ids [get_blacklist] lists, and [is_in_favorites] exactly for
    the candidates of the entries [get_favorites] lists. *)
Theorem membership_agrees :
  (is_in_blacklist st user_id candidate_id = true
   <-> candidate_id ∈ get_blacklist st user_id)
  /\ (is_in_favorites st user_id candidate_id = true
      <-> candidate_id ∈ fd_candidate_id <$> get_favorites st user_id).
Proof.
  split.
  - rewrite is_in_blacklist_exists.
    apply (existsb_pair_elem b_user_id b_candidate_id).
  - rewrite is_in_favorites_exists. unfold favorite_exists, get_favorites.
    rewrite (existsb_pair_elem f_user_id f_candidate_id).
    rewrite <- list_fmap_compose.
    by rewrite (sort_desc_Permutation f_created_at).
Qed.

(** X18.  The counts of [get_user_stats] are the lengths of what
    [get_favorites], [get_blacklist] and [get_viewed_profiles] return
    for the user. *)
Theorem get_user_stats_lengths :
  get_user_stats st user_id
  = {| favorites_count := Z.of_nat (length (get_favorites st user_id));
       blacklist_count := Z.of_nat (length (get_blacklist st user_id));
       viewed_count := Z.of_nat (length (get_viewed_profiles st user_id)) |}.
Proof.
  unfold get_user_stats, get_favorites, get_blacklist, get_viewed_profiles.
  by rewrite !length_fmap, (sort_desc_Permutation f_created_at).
Qed.

(** X19.  [get_favorites] lists the favorites of the user, each row
    once, newest first. *)
Theorem get_favorites_newest_first :
  StronglySorted (fun d e => fd_created_at e <= fd_created_at d)
                 (get_favorites st user_id)
  /\ get_favorites st user_id
     ≡ₚ (fun r => {| fd_candidate_id := f_candidate_id r;
                     fd_first_name := f_first_name r;
                     fd_last_name := f_last_name r;
                     fd_created_at := f_created_at r |})
        <$> filter (fun r => f_user_id r = user_id) (favorites st).
Proof.
  unfold get_favorites. split.
  - eapply (StronglySorted_fmap _ (not_below f_created_at)); [done|].
    apply sort_desc_StronglySorted.
  - by rewrite sort_desc_Permutation.
Qed.

End Marks.

(** ** The table [users] *)

Lemma user_exists_get_user st user_id :
  user_exists st user_id = true <-> is_Some (get_user st user_id).
Proof.
  unfold user_exists, get_user. rewrite head_is_Some, existsb_exists. split.
  - intros (r & Hr%list_elem_of_In & Hid%Z.eqb_eq) Hnil.
    by eapply (filter_nil_not_elem_of _ _ r Hnil).
  - intros Hne. destruct (filter _ (users st)) as [|r rs] eqn:Hf; [done|].
    assert (r ∈ filter (fun r => u_user_id r = user_id) (users st)) as Hr
      by (rewrite Hf; by left).
    apply list_elem_of_filter in Hr as [Hid Hr]. exists r.
    split; [by apply list_elem_of_In|by apply Z.eqb_eq].
Qed.

Lemma head_filter_fmap (f : UserRow -> UserRow) (rows : list UserRow) (user_id : Z) :
  (forall r, u_user_id (f r) = u_user_id r) ->
  head (filter (fun r => u_user_id r = user_id) (f <$> rows))
  = f <$> head (filter (fun r => u_user_id r = user_id) rows).
Proof.
  intros Hid. induction rows as [|r rows IH]; [done|].
  rewrite fmap_cons, !filter_cons, Hid. by case_decide.
Qed.

Lemma head_filter_fmap_other (f : UserRow -> UserRow) (rows : list UserRow)
      (user_id : Z) :
  (forall r, u_user_id (f r) = u_user_id r) ->
  (forall r, u_user_id r = user_id -> f r = r) ->
  head (filter (fun r => u_user_id r = user_id) (f <$> rows))
  = head (filter (fun r => u_user_id r = user_id) rows).
Proof.
  intros Hid Hsame. induction rows as [|r rows IH]; [done|].
  rewrite fmap_cons, !filter_cons, Hid.
  case_decide; [|done]. simpl. by rewrite Hsame.
Qed.

Lemma fmap_unchanged {A} (f : A -> A) (l : list A) :
  (forall x, x ∈ l -> f x = x) -> f <$> l = l.
Proof.
  induction l as [|x l IH]; [done|]. intros Hl.
  rewrite fmap_cons, Hl, IH; [done| |by left].
  intros y Hy. apply Hl. by right.
Qed.

Lemma get_user_None_elem st user_id :
  get_user st user_id = None -> forall r, r ∈ users st -> u_user_id r <> user_id.
Proof.
  unfold get_user. rewrite head_None. intros Hnil r Hr Hid.
  by eapply (filter_nil_not_elem_of _ _ r Hnil).
Qed.

Lemma varchar_length (n : nat) (s s' : pystr) :
  varchar n s = Some s' -> length s' <= n.
Proof.
  unfold varchar. destruct (sendable s); [|done]. cbn [negb].
  destruct (Nat.leb_spec (length s) n); [by intros [= <-]|].
  case_match; [|done]. intros [= <-]. rewrite length_take. lia.
Qed.

(** The four strings of a dictionary can be sent. *)
Lemma sendable_fields (d : UserDict) :
  sendable (d_first_name d) && sendable (d_last_name d)
  && sendable (d_city d) && sendable (d_country d) = true
  <-> sendable (d_first_name d) = true /\ sendable (d_last_name d) = true
      /\ sendable (d_city d) = true /\ sendable (d_country d) = true.
Proof. rewrite !andb_true_iff. tauto. Qed.

(** The values [add_user] accepts. *)
Lemma add_user_Done now st (d : UserDict) fn ln ci co :
  sendable (d_first_name d) && sendable (d_last_name d)
  && sendable (d_city d) && sendable (d_country d) = true ->
  varchar 100 (d_first_name d) = Some fn -> varchar 100 (d_last_name d) = Some ln ->
  varchar 100 (d_city d) = Some ci -> varchar 100 (d_country d) = Some co ->
  bigint (d_id d) = true -> integer (default 0%Z (d_age d)) = true ->
  integer (d_sex d) = true ->
  add_user now st d
  = (Returns true,
     {| users :=
          if user_exists st (d_id d)
          then (fun r => if (u_user_id r =? d_id d)%Z
                         then {| u_user_id := d_id d; u_first_name := fn;
                                 u_last_name := ln; u_age := d_age d;
                                 u_city := ci; u_country := co;
                                 u_sex := d_sex d;
                                 u_created_at := u_created_at r;
                                 u_updated_at := now |}
                         else r) <$> users st
          else users st ++
               [{| u_user_id := d_id d; u_first_name := fn; u_last_name := ln;
                   u_age := d_age d; u_city := ci; u_country := co;
                   u_sex := d_sex d; u_created_at := now; u_updated_at := now |}];
        favorites := favorites st;
        blacklist := blacklist st;
        viewed_profiles := viewed_profiles st |}).
Proof.
  intros Hsend Hfn Hln Hci Hco Hid Hage Hsex. unfold add_user, upsert_user.
  by rewrite Hsend, Hfn, Hln, Hci, Hco, Hid, Hage, Hsex.
Qed.

(** The values the statement refuses. *)
Lemma add_user_Raise now st (d : UserDict) :
  sendable (d_first_name d) && sendable (d_last_name d)
  && sendable (d_city d) && sendable (d_country d) = true ->
  ~ (is_Some (varchar 100 (d_first_name d)) /\ is_Some (varchar 100 (d_last_name d))
     /\ is_Some (varchar 100 (d_city d)) /\ is_Some (varchar 100 (d_country d))
     /\ bigint (d_id d) = true /\ integer (default 0%Z (d_age d)) = true
     /\ integer (d_sex d) = true) ->
  add_user now st d = (Returns false, st).
Proof.
  intros Hsend Hno. unfold add_user, upsert_user. rewrite Hsend. cbn [negb].
  destruct (varchar 100 (d_first_name d)); [|done].
  destruct (varchar 100 (d_last_name d)); [|done].
  destruct (varchar 100 (d_city d)); [|done].
  destruct (varchar 100 (d_country d)); [|done].
  destruct (bigint (d_id d)); [|done].
  destruct (integer (default 0%Z (d_age d))); [|done].
  destruct (integer (d_sex d)); [|done].
  destruct Hno. by repeat split.
Qed.

(** The strings that cannot be sent. *)
Lemma add_user_Unsendable now st (d : UserDict) :
  sendable (d_first_name d) && sendable (d_last_name d)
  && sendable (d_city d) && sendable (d_country d) = false ->
  add_user now st d = (RaisesValueError, st).
Proof. intros Hno. unfold add_user, upsert_user. by rewrite Hno. Qed.

Section Users.
Context (now : Z) (st : Store).

Local Open Scope Z_scope.

(** X20.  [add_user] returns [True] exactly when the four strings can
    be sent and fit [VARCHAR(100)], the id fits [BIGINT] and the age
    and the sex fit [INTEGER]; it raises [ValueError] exactly when one
    of the strings cannot be sent, and returns [False] otherwise.
    Unless it returns [True] the store is as before.  After [True],
    [get_user] returns the row with the values as stored and the time
    of the call as [updated_at]; [created_at] is that of the row the
    user had before, or the time of the call for a new user; the number
    of rows grows by one for a new user and not at all otherwise.  The
    rows of all other users are as before. *)
Theorem add_user_outcome (d : UserDict) :
  let result := add_user now st d in
  let sends :=
    sendable (d_first_name d) = true /\ sendable (d_last_name d) = true
    /\ sendable (d_city d) = true /\ sendable (d_country d) = true in
  let fits :=
    is_Some (varchar 100 (d_first_name d)) /\ is_Some (varchar 100 (d_last_name d))
    /\ is_Some (varchar 100 (d_city d)) /\ is_Some (varchar 100 (d_country d))
    /\ bigint (d_id d) = true /\ integer (default 0 (d_age d)) = true
    /\ integer (d_sex d) = true in
  (result.1 = Returns true <-> sends /\ fits)
  /\ (result.1 = RaisesValueError <-> ~ sends)
  /\ (result.1 <> Returns true -> result.2 = st)
  /\ (forall fn ln ci co,
        result.1 = Returns true ->
        varchar 100 (d_first_name d) = Some fn ->
        varchar 100 (d_last_name d) = Some ln ->
        varchar 100 (d_city d) = Some ci ->
        varchar 100 (d_country d) = Some co ->
        get_user result.2 (d_id d)
        = Some {| u_user_id := d_id d; u_first_name := fn; u_last_name := ln;
                  u_age := d_age d; u_city := ci; u_country := co;
                  u_sex := d_sex d;
                  u_created_at :=
                    from_option u_created_at now (get_user st (d_id d));
                  u_updated_at := now |})
  /\ (result.1 = Returns true ->
      length (users result.2)
      = if user_exists st (d_id d) then length (users st)
        else S (length (users st)))
  /\ (forall u, u <> d_id d -> get_user result.2 u = get_user st u).
Proof.
  intros result sends fits. unfold result.
  destruct (sendable (d_first_name d) && sendable (d_last_name d)
            && sendable (d_city d) && sendable (d_country d)) eqn:Hsend.
  - assert (Hsends : sends) by (by apply sendable_fields).
    destruct (decide fits) as [Hfits|Hno].
    + destruct Hfits
        as ([fn Hfn] & [ln Hln] & [ci Hci] & [co Hco] & Hid & Hage & Hsex).
      rewrite (add_user_Done now st d fn ln ci co) by done. cbn [fst snd].
      split.
      { split; [|done]. intros _. split; [exact Hsends|].
        repeat split; try done; by eexists. }
      split; [by split|]. split; [done|].
      unfold get_user at 1 3. cbn [users].
      destruct (user_exists st (d_id d)) eqn:Hex.
      * split; [|split].
        -- intros fn' ln' ci' co' _ ? ? ? ?. simplify_eq.
           rewrite head_filter_fmap
             by (intros r; by destruct (Z.eqb_spec (u_user_id r) (d_id d))).
           apply user_exists_get_user in Hex as [r Hr]. rewrite Hr.
           unfold get_user in Hr. rewrite Hr. simpl.
           apply head_Some_elem_of, list_elem_of_filter in Hr as [Hr _].
           by rewrite Hr, Z.eqb_refl.
        -- by rewrite length_fmap.
        -- intros u Hu. apply head_filter_fmap_other.
           ++ intros r. by destruct (Z.eqb_spec (u_user_id r) (d_id d)).
           ++ intros r Hr.
              by destruct (Z.eqb_spec (u_user_id r) (d_id d)); [congruence|].
      * assert (Hnone : get_user st (d_id d) = None).
        { destruct (get_user st (d_id d)) eqn:Hg; [|done].
          assert (user_exists st (d_id d) = true); [|congruence].
          apply user_exists_get_user. by rewrite Hg. }
        split; [|split].
        -- intros fn' ln' ci' co' _ ? ? ? ?. simplify_eq.
           rewrite Hnone. unfold get_user in Hnone. apply head_None in Hnone.
           rewrite filter_app, Hnone. by rewrite filter_cons_True.
        -- intros _. rewrite length_app. simpl. lia.
        -- intros u Hu.
           rewrite filter_app, filter_cons_False by (simpl; congruence).
           by rewrite filter_nil, app_nil_r.
    + rewrite (add_user_Raise now st d Hsend Hno). cbn [fst snd].
      split; [split; [done|tauto]|]. split; [by split|].
      split; [done|]. split; [discriminate|]. by split.
  - assert (Hsends : ~ sends)
      by (intros H%sendable_fields; congruence).
    rewrite (add_user_Unsendable now st d Hsend). cbn [fst snd].
    split; [split; [done|tauto]|]. split; [by split|].
    split; [done|]. split; [discriminate|]. by split.
Qed.

End Users.

Lemma add_user_outcome_witness :
  let result := add_user 1 empty_store Examples.test_user in
  let again := add_user 5 result.2 Examples.test_user in
  let nul :=
    {| d_id := 12345; d_first_name := [0%N]; d_last_name := []; d_age := None;
       d_city := []; d_country := []; d_sex := 0 |} in
  result.1 = Returns true
  /\ (1 <> d_id Examples.test_user)%Z
  /\ get_user result.2 1 = get_user empty_store 1
  /\ again.1 = Returns true
  /\ (u_created_at <$> get_user again.2 12345) = Some 1%Z
  /\ (u_updated_at <$> get_user again.2 12345) = Some 5%Z
  /\ length (users again.2) = length (users result.2)
  /\ ~ (sendable (d_first_name nul) = true /\ sendable (d_last_name nul) = true
        /\ sendable (d_city nul) = true /\ sendable (d_country nul) = true)
  /\ (add_user 6 again.2 nul).1 = RaisesValueError.
Proof.
  intros result again nul.
  assert (Hne : (1 <> d_id Examples.test_user)%Z) by (by vm_compute).
  assert (Hnul : ~ (sendable (d_first_name nul) = true
                    /\ sendable (d_last_name nul) = true
                    /\ sendable (d_city nul) = true
                    /\ sendable (d_country nul) = true))
    by (intros [Hfirst _]; discriminate Hfirst).
  destruct (add_user_outcome 1 empty_store Examples.test_user)
    as (_ & _ & _ & _ & _ & Hother).
  destruct (add_user_outcome 5 result.2 Examples.test_user)
    as (_ & _ & _ & Hrow & Hlen & _).
  destruct (add_user_outcome 6 again.2 nul) as (_ & Hraises & _).
  split; [reflexivity|]. split; [exact Hne|]. split; [exact (Hother 1%Z Hne)|].
  split; [reflexivity|].
  pose proof (Hrow _ _ _ _ eq_refl eq_refl eq_refl eq_refl eq_refl) as Hget.
  split; [exact (f_equal (fmap u_created_at) Hget)|].
  split; [exact (f_equal (fmap u_updated_at) Hget)|].
  split; [exact (Hlen eq_refl)|].
  split; [exact Hnul|exact (proj2 Hraises Hnul)].
Defined.

(** What [get_user] returns after an [UPDATE] of the row of one user. *)
Lemma get_user_update_user now st user_id (set : UserRow -> UserRow) (u : Z) :
  (forall r, u_user_id (set r) = u_user_id r) ->
  get_user (update_user now st user_id set) u
  = if decide (u = user_id)
    then (fun r => {| u_user_id := u_user_id (set r);
                      u_first_name := u_first_name (set r);
                      u_last_name := u_last_name (set r);
                      u_age := u_age (set r); u_city := u_city (set r);
                      u_country := u_country (set r); u_sex := u_sex (set r);
                      u_created_at := u_created_at (set r);
                      u_updated_at := now |}) <$> get_user st user_id
    else get_user st u.
Proof.
  intros Hid. unfold get_user, update_user. cbn [users].
  assert (Hkeep : forall r,
    u_user_id (if decide (u_user_id r = user_id)
               then {| u_user_id := u_user_id (set r);
                       u_first_name := u_first_name (set r);
                       u_last_name := u_last_name (set r);
                       u_age := u_age (set r); u_city := u_city (set r);
                       u_country := u_country (set r); u_sex := u_sex (set r);
                       u_created_at := u_created_at (set r);
                       u_updated_at := now |}
               else r) = u_user_id r)
    by (intros r; case_decide; [apply Hid|done]).
  case_decide as Hu.
  - subst u. rewrite head_filter_fmap by exact Hkeep.
    destruct (head (filter _ (users st))) as [r|] eqn:Hr; [|done]. simpl.
    apply head_Some_elem_of, list_elem_of_filter in Hr as [Hr _].
    by rewrite decide_True.
  - apply head_filter_fmap_other; [exact Hkeep|].
    intros r Hr. by rewrite decide_False by congruence.
Qed.

Lemma update_user_unknown now st user_id (set : UserRow -> UserRow) :
  get_user st user_id = None -> update_user now st user_id set = st.
Proof.
  intros Hnone. unfold update_user. destruct st as [us fs bs vs]. f_equal.
  apply fmap_unchanged. intros r Hr.
  rewrite decide_False; [done|]. by apply (get_user_None_elem _ _ Hnone).
Qed.

Section Updates.
Context (now : Z) (st : Store) (user_id : Z).

Local Open Scope Z_scope.

(** X21.  [update_user_city] returns [True] exactly when the city can
    be sent and fits [VARCHAR(100)]; it raises [ValueError] exactly
    when the city cannot be sent, and returns [False] otherwise.
    Unless it returns [True] the store is as before.  After [True],
    [get_user] returns the row of the user with the city as stored and
    the time of the call as [updated_at], everything else as before.
    The rows of all other users are as before, and for a user without a
    row nothing changes at all. *)
Theorem update_user_city_outcome (city : pystr) :
  let result := update_user_city now st user_id city in
  (result.1 = Returns true
   <-> sendable city = true /\ is_Some (varchar 100 city))
  /\ (result.1 = RaisesValueError <-> sendable city = false)
  /\ (result.1 <> Returns true -> result.2 = st)
  /\ (forall ci, result.1 = Returns true -> varchar 100 city = Some ci ->
        get_user result.2 user_id
        = (fun r => {| u_user_id := u_user_id r; u_first_name := u_first_name r;
                       u_last_name := u_last_name r; u_age := u_age r;
                       u_city := ci; u_country := u_country r;
                       u_sex := u_sex r; u_created_at := u_created_at r;
                       u_updated_at := now |}) <$> get_user st user_id)
  /\ (forall u, u <> user_id -> get_user result.2 u = get_user st u)
  /\ (get_user st user_id = None -> result.2 = st).
Proof.
  intros result. unfold result, update_user_city.
  destruct (sendable city); cbn [negb fst snd].
  - destruct (varchar 100 city) as [ci|] eqn:Hci; cbn [fst snd].
    + split; [by split; [split; [|eexists]|]|]. split; [by split|].
      split; [done|]. split; [|split].
      * intros ? _ [= <-]. by rewrite get_user_update_user, decide_True.
      * intros u Hu. by rewrite get_user_update_user, decide_False.
      * apply update_user_unknown.
    + split; [by split; [|intros [_ [? ?]]]|]. split; [by split|].
      by repeat split.
  - split; [by split; [|intros [? _]]|]. split; [by split|].
    by repeat split.
Qed.

(** X22.  [update_user_sex] and [update_user_age] return [True] exactly
    when the value fits [INTEGER], and leave the store as it is
    otherwise.  After [True], [get_user] returns the row of the user
    with the new value and the time of the call as [updated_at]; the
    rows of all other users are as before, and for a user without a row
    nothing changes. *)
Theorem update_user_sex_age_outcome (value : Z) :
  let by_sex := update_user_sex now st user_id value in
  let by_age := update_user_age now st user_id value in
  (by_sex.1 = integer value /\ by_age.1 = integer value)
  /\ (integer value = false -> by_sex.2 = st /\ by_age.2 = st)
  /\ (integer value = true ->
      get_user by_sex.2 user_id
      = (fun r => {| u_user_id := u_user_id r; u_first_name := u_first_name r;
                     u_last_name := u_last_name r; u_age := u_age r;
                     u_city := u_city r; u_country := u_country r;
                     u_sex := value; u_created_at := u_created_at r;
                     u_updated_at := now |}) <$> get_user st user_id
      /\ get_user by_age.2 user_id
         = (fun r => {| u_user_id := u_user_id r; u_first_name := u_first_name r;
                        u_last_name := u_last_name r; u_age := Some value;
                        u_city := u_city r; u_country := u_country r;
                        u_sex := u_sex r; u_created_at := u_created_at r;
                        u_updated_at := now |}) <$> get_user st user_id)
  /\ (forall u, u <> user_id ->
        get_user by_sex.2 u = get_user st u /\ get_user by_age.2 u = get_user st u)
  /\ (get_user st user_id = None -> by_sex.2 = st /\ by_age.2 = st).
Proof.
  intros by_sex by_age. unfold by_sex, by_age, update_user_sex, update_user_age.
  destruct (integer value); cbn [fst snd].
  - split; [done|]. split; [done|]. split; [|split].
    + intros _. by rewrite !get_user_update_user, !decide_True.
    + intros u Hu. by rewrite !get_user_update_user, !decide_False.
    + intros Hnone. by rewrite !update_user_unknown.
  - by repeat split.
Qed.

End Updates.

(** ** What a call leaves alone, and what every call keeps *)

(** X23.  Every writing method changes one table only: [add_user] and
    the three updates change [users], the methods on favorites change
    [favorites], [add_to_blacklist] changes [blacklist], and
    [add_to_viewed] and [cleanup_old_viewed] change [viewed_profiles]. *)
Theorem perform_touches_one_table (days_ago : Z -> Z -> Z) (st : Store) (call : Call) :
  let st' := perform days_ago st call in
  match call with
  | AddUser _ _ | UpdateUserSex _ _ _ | UpdateUserAge _ _ _
  | UpdateUserCity _ _ _ =>
      favorites st' = favorites st /\ blacklist st' = blacklist st
      /\ viewed_profiles st' = viewed_profiles st
  | AddToFavorites _ _ _ _ _ | ClearFavorites _ | RemoveFromFavorites _ _ =>
      users st' = users st /\ blacklist st' = blacklist st
      /\ viewed_profiles st' = viewed_profiles st
  | AddToBlacklist _ _ _ =>
      users st' = users st /\ favorites st' = favorites st
      /\ viewed_profiles st' = viewed_profiles st
  | AddToViewed _ _ _ | CleanupOldViewed _ _ =>
      users st' = users st /\ favorites st' = favorites st
      /\ blacklist st' = blacklist st
  end.
Proof.
  destruct call; simpl;
    unfold add_user, upsert_user, add_to_favorites, insert_favorite,
      add_to_blacklist, insert_blacklist, add_to_viewed, insert_viewed,
      update_user_sex, update_user_age, update_user_city;
    by repeat case_match; simplify_eq.
Qed.

Section Cleanup.
Context (days_ago : Z -> Z -> Z) (now : Z) (st : Store) (days : Z).

Local Open Scope Z_scope.

(** X24.  [cleanup_old_viewed] returns the number of rows it removes
    from [viewed_profiles].  What stays are the rows that are not older
    than [NOW() - INTERVAL 'days days'], in their order; a second
    cleanup at the same time removes nothing. *)
Theorem cleanup_old_viewed_outcome :
  let result := cleanup_old_viewed days_ago now st days in
  result.1 + Z.of_nat (length (viewed_profiles result.2))
  = Z.of_nat (length (viewed_profiles st))
  /\ (forall r, r ∈ viewed_profiles result.2
        <-> r ∈ viewed_profiles st /\ days_ago now days <= v_viewed_at r)
  /\ viewed_profiles result.2 `sublist_of` viewed_profiles st
  /\ cleanup_old_viewed days_ago now result.2 days = (0, result.2).
Proof.
  intros result. unfold result, cleanup_old_viewed. cbn [fst snd viewed_profiles].
  split; [|split; [|split]].
  - rewrite <- Nat2Z.inj_add, <- length_app.
    by rewrite (filter_app_complement _ (viewed_profiles st)).
  - intros r. rewrite list_elem_of_filter. split; intros [? ?]; split; try done; lia.
  - apply sublist_filter.
  - assert (Hnone : filter (fun r => v_viewed_at r < days_ago now days)
              (filter (fun r => ~ v_viewed_at r < days_ago now days)
                      (viewed_profiles st)) = []).
    { apply filter_none. by intros r [? _]%list_elem_of_filter. }
    rewrite Hnone. simpl. do 2 f_equal.
    apply filter_all, Forall_forall. by intros r [? _]%list_elem_of_filter.
Qed.

End Cleanup.

Lemma user_exists_elem st user_id :
  user_exists st user_id = true <-> user_id ∈ u_user_id <$> users st.
Proof.
  unfold user_exists. rewrite existsb_exists, list_elem_of_fmap. split.
  - intros (r & Hr%list_elem_of_In & Hid%Z.eqb_eq). by exists r.
  - intros (r & -> & Hr). exists r. split; [by apply list_elem_of_In|].
    apply Z.eqb_refl.
Qed.

Lemma user_exists_same st st' user_id :
  users st' = users st -> user_exists st' user_id = user_exists st user_id.
Proof. unfold user_exists. by intros ->. Qed.

Lemma NoDup_fmap_sublist {A B} (f : A -> B) (l1 l2 : list A) :
  l1 `sublist_of` l2 -> NoDup (f <$> l2) -> NoDup (f <$> l1).
Proof.
  intros Hsub Hdup. eapply sublist_NoDup; [exact Hdup|].
  by apply (fmap_sublist f).
Qed.

Lemma Forall_sublist {A} (P : A -> Prop) (l1 l2 : list A) :
  l1 `sublist_of` l2 -> Forall P l2 -> Forall P l1.
Proof.
  rewrite !Forall_forall. intros Hsub Hl x Hx.
  apply Hl. by eapply elem_of_sublist.
Qed.

(** A change of [users] that keeps the ids there, distinct and fitting. *)
Lemma constraints_users st st' :
  constraints st ->
  favorites st' = favorites st -> blacklist st' = blacklist st ->
  viewed_profiles st' = viewed_profiles st ->
  NoDup (u_user_id <$> users st') ->
  (forall u, u ∈ u_user_id <$> users st -> u ∈ u_user_id <$> users st') ->
  Forall user_row_fits (users st') ->
  constraints st'.
Proof.
  intros ((Hu & Hf & Hb) & Hv & Hff & Hbf & Hvf & Hur & Hfr & Hbr & Hvr)
         Ef Eb Ev Hu' Hids Hur'.
  assert (Hex : forall u, user_exists st u = true -> user_exists st' u = true)
    by (intros u; rewrite !user_exists_elem; apply Hids).
  unfold constraints, unique_keys. rewrite Ef, Eb, Ev.
  split; [by repeat split|]. split; [done|].
  split; [eapply Forall_impl; [exact Hff|]; intros r; apply Hex|].
  split; [eapply Forall_impl; [exact Hbf|]; intros r; apply Hex|].
  split; [eapply Forall_impl; [exact Hvf|]; intros r; apply Hex|].
  by repeat split.
Qed.

(** A change of the interaction tables that keeps their constraints. *)
Lemma constraints_interactions st st' :
  constraints st ->
  users st' = users st ->
  NoDup ((fun r => (f_user_id r, f_candidate_id r)) <$> favorites st') ->
  NoDup ((fun r => (b_user_id r, b_candidate_id r)) <$> blacklist st') ->
  NoDup ((fun r => (v_user_id r, v_candidate_id r)) <$> viewed_profiles st') ->
  Forall (fun r => user_exists st (f_user_id r) = true) (favorites st') ->
  Forall (fun r => user_exists st (b_user_id r) = true) (blacklist st') ->
  Forall (fun r => user_exists st (v_user_id r) = true) (viewed_profiles st') ->
  Forall favorite_row_fits (favorites st') ->
  Forall (fun r => bigint (b_candidate_id r) = true) (blacklist st') ->
  Forall (fun r => bigint (v_candidate_id r) = true) (viewed_profiles st') ->
  constraints st'.
Proof.
  intros ((Hu & _) & _ & _ & _ & _ & Hur & _) Eu ? ? ? Hff Hbf Hvf ? ? ?.
  unfold constraints, unique_keys. rewrite Eu.
  split; [by repeat split|]. split; [done|].
  split; [eapply Forall_impl; [exact Hff|]; intros r;
          by rewrite (user_exists_same st st' _ Eu)|].
  split; [eapply Forall_impl; [exact Hbf|]; intros r;
          by rewrite (user_exists_same st st' _ Eu)|].
  split; [eapply Forall_impl; [exact Hvf|]; intros r;
          by rewrite (user_exists_same st st' _ Eu)|].
  by repeat split.
Qed.

Lemma constraints_favorites st (fs : list FavoriteRow) :
  constraints st ->
  NoDup ((fun r => (f_user_id r, f_candidate_id r)) <$> fs) ->
  Forall (fun r => user_exists st (f_user_id r) = true) fs ->
  Forall favorite_row_fits fs ->
  constraints {| users := users st; favorites := fs;
                 blacklist := blacklist st;
                 viewed_profiles := viewed_profiles st |}.
Proof.
  intros Hst ? ? ?.
  pose proof Hst as ((_ & _ & ?) & ? & _ & ? & ? & _ & _ & ? & ?).
  by apply (constraints_interactions st).
Qed.

Lemma constraints_blacklist st (bs : list BlacklistRow) :
  constraints st ->
  NoDup ((fun r => (b_user_id r, b_candidate_id r)) <$> bs) ->
  Forall (fun r => user_exists st (b_user_id r) = true) bs ->
  Forall (fun r => bigint (b_candidate_id r) = true) bs ->
  constraints {| users := users st; favorites := favorites st;
                 blacklist := bs;
                 viewed_profiles := viewed_profiles st |}.
Proof.
  intros Hst ? ? ?.
  pose proof Hst as ((_ & ? & _) & ? & ? & _ & ? & _ & ? & _ & ?).
  by apply (constraints_interactions st).
Qed.

Lemma constraints_viewed st (vs : list ViewedRow) :
  constraints st ->
  NoDup ((fun r => (v_user_id r, v_candidate_id r)) <$> vs) ->
  Forall (fun r => user_exists st (v_user_id r) = true) vs ->
  Forall (fun r => bigint (v_candidate_id r) = true) vs ->
  constraints {| users := users st; favorites := favorites st;
                 blacklist := blacklist st; viewed_profiles := vs |}.
Proof.
  intros Hst ? ? ?.
  pose proof Hst as ((_ & ? & ?) & _ & ? & ? & _ & _ & ? & ? & _).
  by apply (constraints_interactions st).
Qed.

Lemma constraints_users_map st (f : UserRow -> UserRow) :
  constraints st ->
  (forall r, u_user_id (f r) = u_user_id r) ->
  (forall r, user_row_fits r -> user_row_fits (f r)) ->
  constraints {| users := f <$> users st; favorites := favorites st;
                 blacklist := blacklist st;
                 viewed_profiles := viewed_profiles st |}.
Proof.
  intros Hst Hid Hfits.
  pose proof Hst as ((Hu & _) & _ & _ & _ & _ & Hur & _).
  assert (Hids : u_user_id <$> (f <$> users st) = u_user_id <$> users st).
  { rewrite <- list_fmap_compose. apply list_fmap_ext. intros i r _. apply Hid. }
  apply (constraints_users st); try done; cbn [users].
  - by rewrite Hids.
  - intros u. by rewrite Hids.
  - apply Forall_fmap. eapply Forall_impl; [exact Hur|]. exact Hfits.
Qed.

Lemma constraints_users_snoc st (r : UserRow) :
  constraints st -> user_exists st (u_user_id r) = false -> user_row_fits r ->
  constraints {| users := users st ++ [r]; favorites := favorites st;
                 blacklist := blacklist st;
                 viewed_profiles := viewed_profiles st |}.
Proof.
  intros Hst Hnew Hfits.
  pose proof Hst as ((Hu & _) & _ & _ & _ & _ & Hur & _).
  apply (constraints_users st); try done; cbn [users].
  - rewrite fmap_app. apply NoDup_app. split; [done|].
    split; [|apply NoDup_singleton].
    intros u Hin ->%list_elem_of_singleton.
    apply user_exists_elem in Hin. congruence.
  - intros u Hin. rewrite fmap_app. apply elem_of_app. by left.
  - apply Forall_app. split; [done|]. by apply Forall_singleton.
Qed.

(** Every call keeps the constraints. *)
Lemma perform_constraints (days_ago : Z -> Z -> Z) (st : Store) (call : Call) :
  constraints st -> constraints (perform days_ago st call).
Proof.
  intros Hst.
  pose proof Hst as ((Hu & Hf & Hb) & Hv & Hff & Hbf & Hvf & Hur & Hfr & Hbr & Hvr).
  destruct call as [now d|now u c fn ln|now u c|now u c|u|u c|now days
                    |now u x|now u x|now u city]; simpl.
  - destruct (sendable (d_first_name d) && sendable (d_last_name d)
              && sendable (d_city d) && sendable (d_country d)) eqn:Hsend;
      [|by rewrite (add_user_Unsendable now st d Hsend)].
    destruct (decide
      (is_Some (varchar 100 (d_first_name d)) /\ is_Some (varchar 100 (d_last_name d))
       /\ is_Some (varchar 100 (d_city d)) /\ is_Some (varchar 100 (d_country d))
       /\ bigint (d_id d) = true /\ integer (default 0%Z (d_age d)) = true
       /\ integer (d_sex d) = true))
      as [([fn Hfn] & [ln Hln] & [ci Hci] & [co Hco] & Hid & Hage & Hsex)|Hno];
      [|by rewrite (add_user_Raise now st d Hsend Hno)].
    rewrite (add_user_Done now st d fn ln ci co) by done. cbn [snd].
    assert (Hlens : length fn <= 100 /\ length ln <= 100
                    /\ length ci <= 100 /\ length co <= 100)
      by (repeat split; by eapply varchar_length).
    destruct (user_exists st (d_id d)) eqn:Hex.
    + apply constraints_users_map; [done| |].
      * intros r. by destruct (Z.eqb_spec (u_user_id r) (d_id d)).
      * intros r Hr. destruct (Z.eqb_spec (u_user_id r) (d_id d)); [|done].
        unfold user_row_fits. simpl. tauto.
    + apply constraints_users_snoc; [done|done|].
      unfold user_row_fits. simpl. tauto.
  - destruct (sendable fn) eqn:Hsfn;
      [|by rewrite (insert_favorite_Unsendable now st u c fn ln (or_introl Hsfn))].
    destruct (sendable ln) eqn:Hsln;
      [|by rewrite (insert_favorite_Unsendable now st u c fn ln (or_intror Hsln))].
    destruct (decide (bigint u = true /\ bigint c = true
       /\ is_Some (varchar 100 fn) /\ is_Some (varchar 100 ln)
       /\ user_exists st u = true /\ favorite_exists st u c = false))
      as [(Hbu & Hbc & [fn' Hfn] & [ln' Hln] & Huser & Hnew)|Hno];
      [|by rewrite (insert_favorite_Raise now st u c fn ln Hsfn Hsln Hno)].
    rewrite (insert_favorite_Done now st u c fn ln Hsfn Hsln Hbu Hbc Huser Hnew
               fn' ln' Hfn Hln).
    cbn [snd]. apply constraints_favorites; [done| | |].
    + rewrite fmap_app. apply NoDup_app. split; [done|].
      split; [|apply NoDup_singleton].
      intros z Hz ->%list_elem_of_singleton.
      by eapply (existsb_pair_not_elem f_user_id f_candidate_id).
    + apply Forall_app. split; [done|]. by apply Forall_singleton.
    + apply Forall_app. split; [done|]. apply Forall_singleton.
      unfold favorite_row_fits. simpl.
      split; [done|]. split; by eapply varchar_length.
  - destruct (decide (bigint u = true /\ bigint c = true
       /\ (blacklist_exists st u c = true \/ user_exists st u = true)))
      as [(Hbu & Hbc & Hok)|Hno];
      [|by rewrite (blacklist_insert_Raise now st u c Hno)].
    destruct (blacklist_exists st u c) eqn:Hex;
      [by rewrite (blacklist_insert_same now st u c Hbu Hbc Hex)|].
    destruct Hok as [?|Huser]; [done|].
    rewrite (blacklist_insert_Done now st u c Hbu Hbc Hex Huser). cbn [snd].
    apply constraints_blacklist; [done| | |].
    + rewrite fmap_app. apply NoDup_app. split; [done|].
      split; [|apply NoDup_singleton].
      intros z Hz ->%list_elem_of_singleton.
      by eapply (existsb_pair_not_elem b_user_id b_candidate_id).
    + apply Forall_app. split; [done|]. by apply Forall_singleton.
    + apply Forall_app. split; [done|]. by apply Forall_singleton.
  - destruct (decide (bigint u = true /\ bigint c = true
       /\ (viewed_exists st u c = true \/ user_exists st u = true)))
      as [(Hbu & Hbc & Hok)|Hno];
      [|by rewrite (viewed_insert_Raise now st u c Hno)].
    destruct (viewed_exists st u c) eqn:Hex;
      [by rewrite (viewed_insert_same now st u c Hbu Hbc Hex)|].
    destruct Hok as [?|Huser]; [done|].
    rewrite (viewed_insert_Done now st u c Hbu Hbc Hex Huser). cbn [snd].
    apply constraints_viewed; [done| | |].
    + rewrite fmap_app. apply NoDup_app. split; [done|].
      split; [|apply NoDup_singleton].
      intros z Hz ->%list_elem_of_singleton.
      by eapply (existsb_pair_not_elem v_user_id v_candidate_id).
    + apply Forall_app. split; [done|]. by apply Forall_singleton.
    + apply Forall_app. split; [done|]. by apply Forall_singleton.
  - apply constraints_favorites; [done| | |].
    + eapply NoDup_fmap_sublist; [apply sublist_filter|done].
    + eapply Forall_sublist; [apply sublist_filter|done].
    + eapply Forall_sublist; [apply sublist_filter|done].
  - apply constraints_favorites; [done| | |].
    + eapply NoDup_fmap_sublist; [apply sublist_filter|done].
    + eapply Forall_sublist; [apply sublist_filter|done].
    + eapply Forall_sublist; [apply sublist_filter|done].
  - apply constraints_viewed; [done| | |].
    + eapply NoDup_fmap_sublist; [apply sublist_filter|done].
    + eapply Forall_sublist; [apply sublist_filter|done].
    + eapply Forall_sublist; [apply sublist_filter|done].
  - unfold update_user_sex. destruct (integer x) eqn:Hx; [|done]. cbn [snd].
    apply constraints_users_map; [done| |].
    + intros r. by case_decide.
    + intros r Hr. case_decide; [|done]. unfold user_row_fits in *. simpl. tauto.
  - unfold update_user_age. destruct (integer x) eqn:Hx; [|done]. cbn [snd].
    apply constraints_users_map; [done| |].
    + intros r. by case_decide.
    + intros r Hr. case_decide; [|done]. unfold user_row_fits in *. simpl. tauto.
  - unfold update_user_city. destruct (sendable city); [|done]. cbn [negb].
    destruct (varchar 100 city) as [ci|] eqn:Hci; [|done].
    cbn [snd]. apply constraints_users_map; [done| |].
    + intros r. by case_decide.
    + intros r Hr. case_decide; [|done]. unfold user_row_fits in *. simpl.
      pose proof (varchar_length _ _ _ Hci). tauto.
Qed.

(** X25.  Whatever calls are made on a new database, in whatever
    order, the store satisfies what [create_tables] demands: no two
    rows of a table have the same key, every row of [favorites],
    [blacklist] and [viewed_profiles] belongs to a user that has a row
    in [users], and every stored value fits its column. *)
Theorem run_constraints (days_ago : Z -> Z -> Z) (calls : list Call) :
  constraints (run days_ago calls).
Proof.
  unfold run. induction calls as [|call calls IH] using rev_ind.
  - repeat split; constructor.
  - rewrite foldl_snoc. by apply perform_constraints.
Qed.

(** ** [get_user_info], and the profile on its way into the store *)

Lemma varchar_fits (n : nat) (s : pystr) :
  sendable s = true -> length s <= n -> varchar n s = Some s.
Proof.
  intros Hsend Hlen. unfold varchar. rewrite Hsend. cbn [negb].
  by destruct (Nat.leb_spec (length s) n); [|lia].
Qed.

(** The row [get_user] finds after an [add_user] that went through. *)
Lemma add_user_row now st (d : UserDict) fn ln ci co :
  sendable (d_first_name d) && sendable (d_last_name d)
  && sendable (d_city d) && sendable (d_country d) = true ->
  varchar 100 (d_first_name d) = Some fn -> varchar 100 (d_last_name d) = Some ln ->
  varchar 100 (d_city d) = Some ci -> varchar 100 (d_country d) = Some co ->
  bigint (d_id d) = true -> integer (default 0%Z (d_age d)) = true ->
  integer (d_sex d) = true ->
  (add_user now st d).1 = Returns true
  /\ get_user (add_user now st d).2 (d_id d)
     = Some {| u_user_id := d_id d; u_first_name := fn; u_last_name := ln;
               u_age := d_age d; u_city := ci; u_country := co;
               u_sex := d_sex d;
               u_created_at := from_option u_created_at now (get_user st (d_id d));
               u_updated_at := now |}.
Proof.
  intros Hsend Hfn Hln Hci Hco Hid Hage Hsex.
  rewrite (add_user_Done now st d fn ln ci co) by done. cbn [fst snd].
  split; [done|]. unfold get_user at 1. cbn [users].
  destruct (user_exists st (d_id d)) eqn:Hex.
  - rewrite head_filter_fmap
      by (intros r; by destruct (Z.eqb_spec (u_user_id r) (d_id d))).
    apply user_exists_get_user in Hex as [r Hr]. rewrite Hr.
    unfold get_user in Hr. rewrite Hr. simpl.
    apply head_Some_elem_of, list_elem_of_filter in Hr as [Hr _].
    by rewrite Hr, Z.eqb_refl.
  - assert (Hnone : get_user st (d_id d) = None).
    { destruct (get_user st (d_id d)) eqn:Hg; [|done].
      assert (user_exists st (d_id d) = true); [|congruence].
      apply user_exists_get_user. by rewrite Hg. }
    rewrite Hnone. unfold get_user in Hnone. apply head_None in Hnone.
    rewrite filter_app, Hnone. by rewrite filter_cons_True.
Qed.

Section FetchedProfile.
Context (current_year : Z) (int : pystr -> option Z)
        (users_get : Z -> UsersResponse).

Local Open Scope Z_scope.
Local Abbreviation fetch := (get_user_info current_year int users_get).

(** X26.  [get_user_info] returns [None] exactly when [users.get]
    raises or answers an empty list.  Otherwise the profile is made of
    the first entry of the answer alone: it has the id of that entry, a
    missing city, country or name is the empty string, a missing sex is
    0, and the age is missing or between 10 and 100. *)
Theorem get_user_info_outcome (user_id : Z) :
  (get_user_info current_year int users_get user_id = None
   <-> users_get user_id = UsersApiError \/ users_get user_id = UsersList [])
  /\ (forall p, get_user_info current_year int users_get user_id = Some p ->
        (forall age, p_age p = Some age -> 10 <= age <= 100)
        /\ exists user rest,
             users_get user_id = UsersList (user :: rest)
             /\ p_id p = rp_id user
             /\ (rp_first_name user = None -> p_first_name p = [])
             /\ (rp_last_name user = None -> p_last_name p = [])
             /\ (rp_city user = None -> p_city p = [])
             /\ (rp_country user = None -> p_country p = [])
             /\ (rp_sex user = None -> p_sex p = 0)).
Proof.
  unfold get_user_info. destruct (users_get user_id) as [|[|user rest]].
  - split; [by split; [left|]|]. by intros p [=].
  - split; [by split; [right|]|]. by intros p [=].
  - split; [by split; [|intros [?|?]]|]. intros p [= <-]. split.
    + intros age Hage.
      by apply (calculate_age_in_range_helper current_year int (rp_bdate user)).
    + exists user, rest. simpl. by repeat split; intros ->.
Qed.

(** X27.  A profile that [get_user_info] returned, whose id fits
    [BIGINT], whose sex fits [INTEGER] and whose four strings have at
    most 100 characters: [add_user] returns [True] when the four strings
    can be sent, and raises [ValueError] when one of them cannot.  After
    [True], [get_user] returns a row with the id, the names, the age,
    the city, the country and the sex of the profile.  The age never
    stands in the way. *)
Theorem get_user_info_add_user (now : Z) (st : Store) (user_id : Z) (p : Profile) :
  fetch user_id = Some p ->
  bigint (p_id p) = true -> integer (p_sex p) = true ->
  (length (p_first_name p) <= 100)%nat -> (length (p_last_name p) <= 100)%nat ->
  (length (p_city p) <= 100)%nat -> (length (p_country p) <= 100)%nat ->
  let result := add_user now st (Integration.as_user_dict p) in
  let sends :=
    sendable (p_first_name p) && sendable (p_last_name p)
    && sendable (p_city p) && sendable (p_country p) in
  result.1 = (if sends then Returns true else RaisesValueError)
  /\ (sends = false -> result.2 = st)
  /\ (sends = true ->
      exists row,
        get_user result.2 (p_id p) = Some row
        /\ u_user_id row = p_id p
        /\ u_first_name row = p_first_name p /\ u_last_name row = p_last_name p
        /\ u_age row = p_age p /\ u_city row = p_city p
        /\ u_country row = p_country p /\ u_sex row = p_sex p
        /\ u_updated_at row = now).
Proof.
  intros Hp Hid Hsex Hfn Hln Hci Hco result sends.
  assert (Hage : integer (default 0 (p_age p)) = true).
  { destruct (p_age p) as [age|] eqn:Hage; [|done]. simpl.
    assert (10 <= age <= 100) as Hrange.
    { unfold get_user_info in Hp.
      destruct (users_get user_id) as [|[|user rest]]; try done.
      injection Hp as <-. simpl in Hage.
      by apply (calculate_age_in_range_helper current_year int (rp_bdate user)). }
    unfold integer. apply andb_true_iff. split; [apply Z.leb_le|apply Z.ltb_lt]; lia. }
  destruct sends eqn:Hsends; unfold sends in Hsends.
  - pose proof Hsends
      as [[[Hsfn Hsln]%andb_true_iff Hsci]%andb_true_iff Hsco]%andb_true_iff.
    destruct (add_user_row now st (Integration.as_user_dict p)
                (p_first_name p) (p_last_name p) (p_city p) (p_country p))
      as [Hok Hrow]; try done; try (by apply varchar_fits).
    split; [exact Hok|]. split; [done|]. intros _.
    eexists. split; [exact Hrow|]. by repeat split.
  - unfold result.
    rewrite (add_user_Unsendable now st (Integration.as_user_dict p) Hsends).
    by repeat split.
Qed.

End FetchedProfile.

Lemma add_to_blacklist_outcome_witness :
  let result := add_to_blacklist 2 Examples.store_with_user 12345 67890 in
  (bigint 12345 = true /\ bigint 67890 = true
   /\ (is_in_blacklist Examples.store_with_user 12345 67890 = true
       \/ user_exists Examples.store_with_user 12345 = true))
  /\ result.1 = true
  /\ is_in_blacklist result.2 12345 67890 = true
  /\ ~ (12345 = 12345 /\ 1 = 67890)%Z
  /\ is_in_blacklist result.2 12345 1
     = is_in_blacklist Examples.store_with_user 12345 1
  /\ (add_to_blacklist 3 result.2 12345 67890).2 = result.2.
Proof.
  intros result.
  assert (Hpre : bigint 12345 = true /\ bigint 67890 = true
    /\ (is_in_blacklist Examples.store_with_user 12345 67890 = true
        \/ user_exists Examples.store_with_user 12345 = true))
    by (split; [done|split; [done|by right]]).
  assert (Hne : ~ (12345 = 12345 /\ 1 = 67890)%Z) by lia.
  destruct (add_to_blacklist_outcome 2 Examples.store_with_user 12345 67890)
    as (Hiff & _ & Hthen & Hother).
  destruct (add_to_blacklist_outcome 3 result.2 12345 67890)
    as (_ & Hsame & _).
  pose proof (proj2 Hiff Hpre) as Hok.
  split; [exact Hpre|]. split; [exact Hok|]. split; [exact (Hthen Hok)|].
  split; [exact Hne|]. split; [exact (Hother 12345%Z 1%Z Hne)|].
  exact (Hsame (or_intror (Hthen Hok))).
Defined.

Lemma add_to_viewed_outcome_witness :
  let result := add_to_viewed 2 Examples.store_with_user 12345 67890 in
  (bigint 12345 = true /\ bigint 67890 = true
   /\ (viewed_exists Examples.store_with_user 12345 67890 = true
       \/ user_exists Examples.store_with_user 12345 = true))
  /\ result.1 = true
  /\ NoDup ((fun r => (v_user_id r, v_candidate_id r))
              <$> viewed_profiles Examples.store_with_user)
  /\ (67890%Z ∈ get_viewed_profiles result.2 12345)
  /\ length (filter (fun id => id = 67890%Z)
                    (get_viewed_profiles result.2 12345)) = 1
  /\ (add_to_viewed 3 result.2 12345 67890).2 = result.2.
Proof.
  intros result.
  assert (Hpre : bigint 12345 = true /\ bigint 67890 = true
    /\ (viewed_exists Examples.store_with_user 12345 67890 = true
        \/ user_exists Examples.store_with_user 12345 = true))
    by (split; [done|split; [done|by right]]).
  assert (Hunique : NoDup ((fun r => (v_user_id r, v_candidate_id r))
                             <$> viewed_profiles Examples.store_with_user))
    by constructor.
  destruct (add_to_viewed_outcome 2 Examples.store_with_user 12345 67890)
    as (Hiff & _ & Hin & Honce).
  destruct (add_to_viewed_outcome 3 result.2 12345 67890)
    as (_ & Hsame & _).
  pose proof (proj2 Hiff Hpre) as Hok.
  split; [exact Hpre|]. split; [exact Hok|]. split; [exact Hunique|].
  split; [exact (Hin Hok)|]. split; [exact (Honce Hok Hunique)|].
  exact (Hsame (or_intror eq_refl)).
Defined.

Lemma update_user_city_outcome_witness :
  let result := update_user_city 7 Examples.store_with_user 12345 Examples.moskva in
  (sendable Examples.moskva = true /\ is_Some (varchar 100 Examples.moskva))
  /\ result.1 = Returns true
  /\ varchar 100 Examples.moskva = Some Examples.moskva
  /\ (u_city <$> get_user result.2 12345) = Some Examples.moskva
  /\ (u_updated_at <$> get_user result.2 12345) = Some 7%Z
  /\ (1 <> 12345)%Z
  /\ get_user result.2 1 = get_user Examples.store_with_user 1
  /\ get_user Examples.store_with_user 1 = None
  /\ (update_user_city 7 Examples.store_with_user 1 Examples.moskva).2
     = Examples.store_with_user
  /\ sendable [0%N] = false
  /\ (update_user_city 7 Examples.store_with_user 12345 [0%N]).1
     = RaisesValueError.
Proof.
  intros result.
  assert (Hne : (1 <> 12345)%Z) by lia.
  assert (Hpre : sendable Examples.moskva = true
                 /\ is_Some (varchar 100 Examples.moskva))
    by (split; [reflexivity|by eexists]).
  destruct (update_user_city_outcome 7 Examples.store_with_user 12345 Examples.moskva)
    as (Hiff & _ & _ & Hrow & Hother & _).
  destruct (update_user_city_outcome 7 Examples.store_with_user 1 Examples.moskva)
    as (_ & _ & _ & _ & _ & Hunknown).
  destruct (update_user_city_outcome 7 Examples.store_with_user 12345 [0%N])
    as (_ & Hraises & _).
  pose proof (Hrow Examples.moskva (proj2 Hiff Hpre) eq_refl) as Hget.
  split; [exact Hpre|]. split; [exact (proj2 Hiff Hpre)|].
  split; [reflexivity|].
  split; [exact (f_equal (fmap u_city) Hget)|].
  split; [exact (f_equal (fmap u_updated_at) Hget)|].
  split; [exact Hne|]. split; [exact (Hother 1%Z Hne)|].
  split; [reflexivity|]. split; [exact (Hunknown eq_refl)|].
  split; [reflexivity|exact (proj2 Hraises eq_refl)].
Defined.

Lemma update_user_sex_age_outcome_witness :
  let by_sex := update_user_sex 7 Examples.store_with_user 12345 2 in
  let by_age := update_user_age 7 Examples.store_with_user 12345 30 in
  integer 2 = true /\ integer 30 = true /\ integer (2 ^ 31) = false
  /\ (u_sex <$> get_user by_sex.2 12345) = Some 2%Z
  /\ (u_age <$> get_user by_age.2 12345) = Some (Some 30%Z)
  /\ (update_user_sex 7 Examples.store_with_user 12345 (2 ^ 31)).2
     = Examples.store_with_user
  /\ (1 <> 12345)%Z
  /\ get_user by_sex.2 1 = get_user Examples.store_with_user 1.
Proof.
  intros by_sex by_age.
  assert (Hne : (1 <> 12345)%Z) by lia.
  destruct (update_user_sex_age_outcome 7 Examples.store_with_user 12345 2)
    as (_ & _ & Hsex & Hother & _).
  destruct (update_user_sex_age_outcome 7 Examples.store_with_user 12345 30)
    as (_ & _ & Hage & _).
  destruct (update_user_sex_age_outcome 7 Examples.store_with_user 12345 (2 ^ 31))
    as (_ & Hbad & _).
  split; [reflexivity|]. split; [reflexivity|]. split; [reflexivity|].
  split; [exact (f_equal (fmap u_sex) (proj1 (Hsex eq_refl)))|].
  split; [exact (f_equal (fmap u_age) (proj2 (Hage eq_refl)))|].
  split; [exact (proj1 (Hbad eq_refl))|].
  split; [exact Hne|exact (proj1 (Hother 1%Z Hne))].
Defined.

Lemma get_user_info_outcome_witness :
  let users_get (user_id : Z) :=
    if (user_id =? 12345)%Z then UsersList [Examples.test_profile_no_city]
    else UsersList [] in
  let fetch := get_user_info 2026 int_decimal users_get in
  users_get 1%Z = UsersList []
  /\ fetch 1%Z = None
  /\ exists p, fetch 12345%Z = Some p
       /\ p_age p = Some 27%Z /\ (10 <= 27 <= 100)%Z
       /\ rp_city Examples.test_profile_no_city = None
       /\ p_city p = [].
Proof.
  intros users_get fetch.
  destruct (get_user_info_outcome 2026 int_decimal users_get 1) as [Hnone _].
  destruct (get_user_info_outcome 2026 int_decimal users_get 12345) as [_ Hsome].
  split; [reflexivity|]. split; [exact (proj2 Hnone (or_intror eq_refl))|].
  eexists. split; [reflexivity|].
  destruct (Hsome _ eq_refl) as (Hage & user & rest & Hget & _ & _ & _ & Hcity & _).
  injection Hget as <- <-.
  split; [reflexivity|]. split; [exact (Hage 27%Z eq_refl)|].
  split; [reflexivity|exact (Hcity eq_refl)].
Defined.

Lemma get_user_info_add_user_witness :
  let users_get (user_id : Z) :=
    if (user_id =? 12345)%Z then UsersList [Examples.test_profile]
    else UsersList [{| rp_id := user_id; rp_first_name := Some [0%N];
                       rp_last_name := None; rp_bdate := None;
                       rp_city := None; rp_country := None;
                       rp_sex := None |}] in
  (exists p,
     get_user_info 2026 int_decimal users_get 12345 = Some p
     /\ bigint (p_id p) = true /\ integer (p_sex p) = true
     /\ length (p_first_name p) <= 100 /\ length (p_last_name p) <= 100
     /\ length (p_city p) <= 100 /\ length (p_country p) <= 100
     /\ (add_user 1 empty_store (Integration.as_user_dict p)).1 = Returns true)
  /\ (exists p,
        get_user_info 2026 int_decimal users_get 1 = Some p
        /\ bigint (p_id p) = true /\ integer (p_sex p) = true
        /\ length (p_first_name p) <= 100 /\ length (p_last_name p) <= 100
        /\ length (p_city p) <= 100 /\ length (p_country p) <= 100
        /\ (add_user 1 empty_store (Integration.as_user_dict p)).1
           = RaisesValueError).
Proof.
  intros users_get.
  assert (H0 : 0 <= 100) by lia. assert (H1 : 1 <= 100) by lia.
  assert (H4 : 4 <= 100) by lia. assert (H12 : 12 <= 100) by lia.
  assert (H6 : 6 <= 100) by lia.
  split.
  - eexists. split; [reflexivity|].
    split; [reflexivity|]. split; [reflexivity|].
    split; [exact H4|]. split; [exact H12|]. split; [exact H6|].
    split; [exact H6|].
    exact (proj1 (get_user_info_add_user 2026 int_decimal users_get 1 empty_store
                    12345 _ eq_refl eq_refl eq_refl H4 H12 H6 H6)).
  - eexists. split; [reflexivity|].
    split; [reflexivity|]. split; [reflexivity|].
    split; [exact H1|]. split; [exact H0|]. split; [exact H0|].
    split; [exact H0|].
    exact (proj1 (get_user_info_add_user 2026 int_decimal users_get 1 empty_store
                    1 _ eq_refl eq_refl eq_refl H1 H0 H0 H0)).
Defined.

Lemma sex_targeting_mutual_witness :
  let build := _build_search_params ∅ Examples.CITIES lower_basic in
  let woman := Examples.requester (Some 25%Z) Examples.moskva in
  let man :=
    {| ui_id := 1; ui_sex := Some 2%Z; ui_age := Some 30%Z;
       ui_city := Some Examples.moskva |} in
  ui_sex woman = Some 1%Z /\ ui_sex man = Some 2%Z
  /\ build woman !! "sex" = Some (PInt 2)
  /\ build man !! "sex" = Some (PInt 1).
Proof.
  intros build woman man.
  assert (Hsex : build woman !! "sex" = Some (PInt 2)) by (by vm_compute).
  split; [reflexivity|]. split; [reflexivity|]. split; [exact Hsex|].
  exact (sex_targeting_mutual ∅ Examples.CITIES lower_basic woman man 1%Z 2%Z
           eq_refl eq_refl Hsex).
Defined.
